(** * Banking multi-agent dispatcher: cache, memory, monitor, feedback

    A shallow embedding of
      - utils/cache_manager.py        (ResponseCache)
      - utils/memory_manager.py       (ConversationMemory)
      - utils/observability.py        (PerformanceMonitor)
      - second/utils/feedback_system.py   (FeedbackCollector)
      - second/agents/supervisor_agent.py (SupervisorAgent)
      - vectorstore/retriever.py          (FinancialRetriever.retrieve)
      - second/agents/knowledge_agent.py  (KnowledgeAgent)
    Python text is modelled over the code points below U+0100 (one [ascii]
    per code point), Python floats as IEEE 754 binary64 numbers (Rocq's
    primitive floats), wall-clock readings as integers (microseconds)
    supplied by the caller of each operation. *)

From Stdlib Require Import ZArith QArith Qround Ascii String List Lia Permutation.
From Stdlib Require Import PrimFloat FloatOps SpecFloat Uint63.
#[local] Set Warnings "-inexact-float".
From stdpp Require Import gmap strings list fin_maps.

(* ===================================================================== *)
(** ** Python [str] operations used by the sources *)
(* ===================================================================== *)

Module PyStr.

Definition chars (s : string) : list ascii := String.list_ascii_of_string s.
Definition text (l : list ascii) : string := String.string_of_list_ascii l.

(** [str.isspace] on one code point: U+0009..U+000D, U+001C..U+0020,
    U+0085 and U+00A0. *)
Definition isspace (c : ascii) : bool :=
  let n := N_of_ascii c in
  ((9 <=? n) && (n <=? 13) || (28 <=? n) && (n <=? 32)
   || (n =? 133) || (n =? 160))%N.

(** [str.lower] on one code point: A..Z and U+00C0..U+00DE (except the
    multiplication sign U+00D7) move up by 32. *)
Definition lower_char (c : ascii) : ascii :=
  let n := N_of_ascii c in
  if ((65 <=? n) && (n <=? 90)
      || (192 <=? n) && (n <=? 222) && negb (n =? 215))%N
  then ascii_of_N (n + 32) else c.

Definition lower_l (l : list ascii) : list ascii := map lower_char l.

Fixpoint lstrip_l (l : list ascii) : list ascii :=
  match l with
  | c :: l' => if isspace c then lstrip_l l' else l
  | [] => []
  end.

Definition rstrip_l (l : list ascii) : list ascii := rev (lstrip_l (rev l)).
Definition strip_l (l : list ascii) : list ascii := rstrip_l (lstrip_l l).

Fixpoint is_prefix (p l : list ascii) : bool :=
  match p, l with
  | [], _ => true
  | _ :: _, [] => false
  | a :: p', b :: l' => Ascii.eqb a b && is_prefix p' l'
  end.

(** [p in l] for strings: [p] occurs as a contiguous run of [l]. *)
Fixpoint contains_l (p l : list ascii) : bool :=
  is_prefix p l ||
  match l with
  | [] => false
  | _ :: l' => contains_l p l'
  end.

Definition lower (s : string) : string := text (lower_l (chars s)).
Definition strip (s : string) : string := text (strip_l (chars s)).
Definition contains (p s : string) : bool := contains_l (chars p) (chars s).

(** [s[:n]] for [n >= 0]. *)
Definition prefix (n : nat) (s : string) : string := text (take n (chars s)).

(** [sep.join(parts)] *)
Fixpoint join (sep : string) (parts : list string) : string :=
  match parts with
  | [] => ""
  | [p] => p
  | p :: ps => p +:+ sep +:+ join sep ps
  end.

(** [str.encode()]: UTF-8, one byte below U+0080 and two bytes above. *)
Definition utf8_char (c : ascii) : list Z :=
  let n := Z.of_N (N_of_ascii c) in
  if (n <? 128)%Z then [n]
  else [Z.lor 192 (Z.shiftr n 6); Z.lor 128 (Z.land n 63)].

Definition encode (s : string) : list Z := flat_map utf8_char (chars s).

Definition hex_digit (n : Z) : ascii :=
  ascii_of_N (Z.to_N (if (n <? 10)%Z then 48 + n else 87 + n)%Z).

(** Decimal rendering of an [int]. *)
Fixpoint dec_digits (fuel : nat) (n : Z) (acc : list ascii) : list ascii :=
  match fuel with
  | O => acc
  | S fuel' =>
      let acc' := hex_digit (n mod 10) :: acc in
      if (n <? 10)%Z then acc' else dec_digits fuel' (n / 10)%Z acc'
  end.

Definition str_of_int (n : Z) : string :=
  let m := Z.abs n in
  let ds := text (dec_digits (S (Z.to_nat (Z.log2 m))) m []) in
  if (n <? 0)%Z then "-" +:+ ds else ds.

End PyStr.

(* ===================================================================== *)
(** ** [hashlib.md5(...).hexdigest()] (RFC 1321) *)
(* ===================================================================== *)

Module MD5.
Local Open Scope Z_scope.

Definition mask32 : Z := 4294967295.
Definition add32 (a b : Z) : Z := Z.land (a + b) mask32.
Definition not32 (a : Z) : Z := Z.lxor a mask32.
Definition rotl32 (x : Z) (c : Z) : Z :=
  Z.land (Z.lor (Z.shiftl x c) (Z.shiftr x (32 - c))) mask32.

Definition S_table : list Z :=
  [7; 12; 17; 22; 7; 12; 17; 22; 7; 12; 17; 22; 7; 12; 17; 22;
   5; 9; 14; 20; 5; 9; 14; 20; 5; 9; 14; 20; 5; 9; 14; 20;
   4; 11; 16; 23; 4; 11; 16; 23; 4; 11; 16; 23; 4; 11; 16; 23;
   6; 10; 15; 21; 6; 10; 15; 21; 6; 10; 15; 21; 6; 10; 15; 21].

Definition K_table : list Z :=
  [3614090360; 3905402710; 606105819; 3250441966; 4118548399; 1200080426; 2821735955; 4249261313;
   1770035416; 2336552879; 4294925233; 2304563134; 1804603682; 4254626195; 2792965006; 1236535329;
   4129170786; 3225465664; 643717713; 3921069994; 3593408605; 38016083; 3634488961; 3889429448;
   568446438; 3275163606; 4107603335; 1163531501; 2850285829; 4243563512; 1735328473; 2368359562;
   4294588738; 2272392833; 1839030562; 4259657740; 2763975236; 1272893353; 4139469664; 3200236656;
   681279174; 3936430074; 3572445317; 76029189; 3654602809; 3873151461; 530742520; 3299628645;
   4096336452; 1126891415; 2878612391; 4237533241; 1700485571; 2399980690; 4293915773; 2240044497;
   1873313359; 4264355552; 2734768916; 1309151649; 4149444226; 3174756917; 718787259; 3951481745].

Definition nthZ (l : list Z) (i : Z) : Z := nth (Z.to_nat i) l 0.

(** Message padding: a 1 bit, zeros up to 56 mod 64, the bit length as a
    64-bit little-endian integer. *)
Definition le_bytes (n : nat) (x : Z) : list Z :=
  map (fun i => Z.land (Z.shiftr x (8 * Z.of_nat i)) 255) (seq 0 n).

Definition pad (msg : list Z) : list Z :=
  let len := Z.of_nat (length msg) in
  let zeros := (55 - len) mod 64 in
  msg ++ [128] ++ repeat 0 (Z.to_nat zeros)
      ++ le_bytes 8 ((8 * len) mod 2 ^ 64).

Definition word_le (b0 b1 b2 b3 : Z) : Z :=
  Z.lor b0 (Z.lor (Z.shiftl b1 8) (Z.lor (Z.shiftl b2 16) (Z.shiftl b3 24))).

Fixpoint words_le (bs : list Z) : list Z :=
  match bs with
  | b0 :: b1 :: b2 :: b3 :: rest => word_le b0 b1 b2 b3 :: words_le rest
  | _ => []
  end.

Record state := mkState { sa : Z; sb : Z; sc : Z; sd : Z }.

Definition init : state :=
  mkState 1732584193 4023233417 2562383102 271733878.

Definition round (M : list Z) (st : state) (i : Z) : state :=
  let '(mkState A B C D) := st in
  let '(F, g) :=
    if i <? 16 then (Z.lor (Z.land B C) (Z.land (not32 B) D), i)
    else if i <? 32 then (Z.lor (Z.land D B) (Z.land (not32 D) C), (5 * i + 1) mod 16)
    else if i <? 48 then (Z.lxor B (Z.lxor C D), (3 * i + 5) mod 16)
    else (Z.lxor C (Z.lor B (not32 D)), (7 * i) mod 16) in
  let F' := add32 (add32 (add32 F A) (nthZ K_table i)) (nthZ M g) in
  mkState D (add32 B (rotl32 F' (nthZ S_table i))) B C.

Definition block (st : state) (M : list Z) : state :=
  let st' := fold_left (round M) (map Z.of_nat (seq 0 64)) st in
  mkState (add32 (sa st) (sa st')) (add32 (sb st) (sb st'))
          (add32 (sc st) (sc st')) (add32 (sd st) (sd st')).

Fixpoint blocks (fuel : nat) (ws : list Z) (st : state) : state :=
  match fuel with
  | O => st
  | S fuel' =>
      match ws with
      | [] => st
      | _ => blocks fuel' (drop 16 ws) (block st (take 16 ws))
      end
  end.

Definition digest (msg : list Z) : list Z :=
  let ws := words_le (pad msg) in
  let st := blocks (length ws) ws init in
  le_bytes 4 (sa st) ++ le_bytes 4 (sb st)
    ++ le_bytes 4 (sc st) ++ le_bytes 4 (sd st).

Definition hex_byte (b : Z) : list ascii :=
  [PyStr.hex_digit (Z.shiftr b 4); PyStr.hex_digit (Z.land b 15)].

Definition hexdigest (msg : list Z) : string :=
  PyStr.text (flat_map hex_byte (digest msg)).

End MD5.

(* ===================================================================== *)
(** ** [json.dumps(filters, sort_keys=True)] *)
(* ===================================================================== *)

Module Json.
#[local] Set Warnings "-register-all".

(** JSON-serialisable Python values; a [dict] is its item list in
    insertion order, with pairwise distinct keys. *)
Inductive json : Type :=
| JNull
| JBool (b : bool)
| JInt (n : Z)
| JStr (s : string)
| JList (l : list json)
| JDict (d : list (string * json)).

Definition dquote : ascii := ascii_of_nat 34.
Definition backslash : ascii := ascii_of_nat 92.

(** String escaping with [ensure_ascii=True]. *)
Definition escape_char (c : ascii) : list ascii :=
  let n := Z.of_N (N_of_ascii c) in
  if (n =? 34)%Z then [backslash; dquote]
  else if (n =? 92)%Z then PyStr.chars "\\"
  else if (n =? 10)%Z then PyStr.chars "\n"
  else if (n =? 13)%Z then PyStr.chars "\r"
  else if (n =? 9)%Z then PyStr.chars "\t"
  else if (n =? 8)%Z then PyStr.chars "\b"
  else if (n =? 12)%Z then PyStr.chars "\f"
  else if ((32 <=? n) && (n <=? 126))%Z then [c]
  else PyStr.chars "\u00"
         ++ [PyStr.hex_digit (Z.shiftr n 4); PyStr.hex_digit (Z.land n 15)].

Definition quote (s : string) : string :=
  PyStr.text (dquote :: flat_map escape_char (PyStr.chars s) ++ [dquote]).

(** [sorted] on the rendered items, by key (keys of a dict are distinct,
    so the comparison never reaches the values). *)
Fixpoint insert_item (kv : string * string) (l : list (string * string))
  : list (string * string) :=
  match l with
  | [] => [kv]
  | kv' :: l' =>
      if String.leb kv.1 kv'.1 then kv :: l else kv' :: insert_item kv l'
  end.

Definition sort_items (l : list (string * string)) : list (string * string) :=
  foldr insert_item [] l.

Definition render_item (kv : string * string) : string :=
  quote kv.1 +:+ ": " +:+ kv.2.

Fixpoint dumps (j : json) : string :=
  match j with
  | JNull => "null"
  | JBool true => "true"
  | JBool false => "false"
  | JInt n => PyStr.str_of_int n
  | JStr s => quote s
  | JList l => "[" +:+ PyStr.join ", " (map dumps l) +:+ "]"
  | JDict d =>
      "{" +:+ PyStr.join ", "
                (map render_item
                   (sort_items
                      (map (fun kv => let '(k, v) := kv in (k, dumps v)) d)))
          +:+ "}"
  end.

End Json.


(* ===================================================================== *)
(** ** Python values, dict literals, numbers *)
(* ===================================================================== *)

Module Py.

(** Outcome of a call that may raise: the value, or the text [str(e)] of
    the exception. *)
Inductive outcome (A : Type) : Type :=
| Ok (a : A)
| Raise (msg : string).
Arguments Ok {A} a.
Arguments Raise {A} msg.

#[local] Set Warnings "-register-all".
Inductive pyval : Type :=
| VNone
| VBool (b : bool)
| VInt (n : Z)
| VFloat (x : float)
| VStr (s : string)
| VList (l : list pyval)
| VDict (d : list (string * pyval)).

(** A dict with string keys, as its items in insertion order. *)
Fixpoint dict_get {V : Type} (k : string) (d : list (string * V)) : option V :=
  match d with
  | [] => None
  | (k', v) :: d' => if String.eqb k k' then Some v else dict_get k d'
  end.

(** [d[k] = v]: in place when [k] is present, appended otherwise. *)
Fixpoint dict_set {V : Type} (k : string) (v : V) (d : list (string * V))
  : list (string * V) :=
  match d with
  | [] => [(k, v)]
  | (k', v') :: d' =>
      if String.eqb k k' then (k, v) :: d' else (k', v') :: dict_set k v d'
  end.

(** [d.update(other)] *)
Definition dict_update {V : Type} (d other : list (string * V))
  : list (string * V) :=
  fold_left (fun acc kv => dict_set kv.1 kv.2 acc) other d.

(** [d.get(k, default)] where the stored value is a string. *)
Definition dict_get_str (k : string) (default : string)
           (d : list (string * pyval)) : string :=
  match dict_get k d with
  | Some (VStr s) => s
  | _ => default
  end.

(** [l[start:]] with Python's treatment of a negative or too large start. *)
Definition slice_from {A : Type} (start : Z) (l : list A) : list A :=
  let n := Z.of_nat (length l) in
  if (start <? 0)%Z then drop (Z.to_nat (Z.max 0 (n + start))) l
  else drop (Z.to_nat start) l.

Definition sumZ (l : list Z) : Z := fold_left Z.add l 0%Z.

(** *** Python [float]: IEEE 754 binary64 *)

(** The integer nearest to [y], ties to the even one. *)
Definition half_even (y : Q) : Z :=
  let f := Qfloor y in
  match ((y - inject_Z f) * 2 ?= 1)%Q with
  | Lt => f
  | Gt => (f + 1)%Z
  | Eq => if Z.even f then f else (f + 1)%Z
  end.

(** The binary64 number nearest to [p / q], ties to the even mantissa; past
    the largest finite number it is infinity. *)
Definition nearest_pos (p q : positive) : float :=
  let d := (Z.log2 (Zpos p) - Z.log2 (Zpos q))%Z in
  let e0 :=
    if (Zpos q * 2 ^ Z.max 0 d <=? Zpos p * 2 ^ Z.max 0 (- d))%Z
    then d else (d - 1)%Z in
  let e := Z.max (e0 - 52) (-1074) in
  let n := (Zpos p * 2 ^ Z.max 0 (- e))%Z in
  let D := (Zpos q * 2 ^ Z.max 0 e)%Z in
  let m := half_even (n # Z.to_pos D) in
  Z.ldexp (PrimFloat.of_uint63 (Uint63.of_Z m)) e.

Definition nearest (num : Z) (den : positive) : float :=
  match num with
  | Z0 => PrimFloat.zero
  | Zpos p => nearest_pos p den
  | Zneg p => PrimFloat.opp (nearest_pos p den)
  end.

(** [float(n)] for an [int] in the range of binary64, as in [x / n] with a
    float [x]. *)
Definition float_of_int (n : Z) : float := nearest n 1.

(** [a / b] for two [int]s with [b > 0] and a quotient in the range of
    binary64: the correctly rounded quotient. *)
Definition int_truediv (a b : Z) : float := nearest a (Z.to_pos b).

(** [sum(l)] for a list of [float]s: binary64 additions from left to
    right, starting from 0 (CPython up to 3.11). *)
Definition sum_float (l : list float) : float :=
  fold_left PrimFloat.add l PrimFloat.zero.

(** The exact value of a finite, non-zero float, sign apart. *)
Definition magnitude (m : positive) (e : Z) : Q :=
  if (0 <=? e)%Z then inject_Z (Zpos m * 2 ^ e)
  else (Zpos m # Z.to_pos (2 ^ (- e))).

(** [round(x, ndigits)] for a [float] and [ndigits >= 0]: the exact value
    of [x] is rounded to a multiple of [10^-ndigits], ties to the even one,
    and the binary64 number nearest to that decimal is returned; zeros,
    infinities and NaN are returned as they are. *)
Definition round (x : float) (ndigits : nat) : float :=
  match Prim2SF x with
  | S754_finite s m e =>
      let scale := (10 ^ Z.of_nat ndigits)%Z in
      let n := half_even (magnitude m e * inject_Z scale) in
      let y := nearest n (Z.to_pos scale) in
      if s then PrimFloat.opp y else y
  | _ => x
  end.

End Py.

(* ===================================================================== *)
(** ** utils/cache_manager.py *)
(* ===================================================================== *)

Module ResponseCache.

Record entry := mkEntry {
  query : string;
  agent_type : string;
  response : string;
  timestamp : Z;
  filters : option (list (string * Json.json))
}.

(** [ttl] is the [timedelta] in microseconds; [cache] the in-memory dict
    and [disk] the content of response_cache.json. *)
Record t := mkCache {
  ttl : Z;
  cache : gmap string entry;
  disk : gmap string entry
}.

Definition timedelta_hours (h : Z) : Z := (h * 3600000000)%Z.

Definition _generate_key (query agent_type : string)
           (filters : option (list (string * Json.json))) : string :=
  let key_parts := [PyStr.strip (PyStr.lower query); agent_type] in
  let key_parts :=
    match filters with
    | Some ((_ :: _) as f) => key_parts ++ [Json.dumps (Json.JDict f)]
    | _ => key_parts
    end in
  let key_string := PyStr.join "|" key_parts in
  MD5.hexdigest (PyStr.encode key_string).

Definition _save_cache (c : t) : t := mkCache (ttl c) (cache c) (cache c).

Definition expired (c : t) (now : Z) (e : entry) : bool :=
  (ttl c <? now - timestamp e)%Z.

Definition get (c : t) (now : Z) (query agent_type : string)
           (filters : option (list (string * Json.json)))
  : t * option string :=
  let key := _generate_key query agent_type filters in
  match cache c !! key with
  | None => (c, None)
  | Some e =>
      if expired c now e
      then (_save_cache (mkCache (ttl c) (delete key (cache c)) (disk c)), None)
      else (c, Some (response e))
  end.

Definition set (c : t) (now : Z) (query agent_type response : string)
           (filters : option (list (string * Json.json))) : t :=
  let key := _generate_key query agent_type filters in
  let e := mkEntry query agent_type response now filters in
  _save_cache (mkCache (ttl c) (<[key := e]> (cache c)) (disk c)).

Definition clear (c : t) : t := _save_cache (mkCache (ttl c) ∅ (disk c)).

Definition clear_expired (c : t) (now : Z) : t * nat :=
  let live := filter (fun kv => expired c now kv.2 = false) (cache c) in
  let removed_count := (size (cache c) - size live)%nat in
  let c' := mkCache (ttl c) live (disk c) in
  (if (0 <? removed_count)%nat then _save_cache c' else c', removed_count).

Record stats := mkStats {
  total_entries : nat;
  by_agent : gmap string nat;
  ttl_hours : float
}.

Definition count_agent (_ : string) (e : entry) (agent_counts : gmap string nat)
  : gmap string nat :=
  <[agent_type e := (default 0%nat (agent_counts !! agent_type e) + 1)%nat]>
    agent_counts.

Definition get_stats (c : t) : stats :=
  mkStats (size (cache c))
          (map_fold count_agent ∅ (cache c))
          (PrimFloat.div (Py.int_truediv (ttl c) 1000000) (Py.float_of_int 3600)).

(** The dict that [get_stats] returns, read by key: [stats.get(key)].
    Its keys are 'total_entries', 'by_agent' and 'ttl_hours'. *)
Inductive stat_value : Type :=
| Entries (n : nat)
| PerAgent (agent_counts : gmap string nat)
| Hours (x : float).

Definition stats_get (s : stats) (key : string) : option stat_value :=
  if String.eqb key "total_entries" then Some (Entries (total_entries s))
  else if String.eqb key "by_agent" then Some (PerAgent (by_agent s))
  else if String.eqb key "ttl_hours" then Some (Hours (ttl_hours s))
  else None.

(** [__init__]: empty cache, then [_load_cache] from the file (absent:
    [None]) followed by the sweep of expired entries. *)
Definition init (ttl_hours : Z) (file : option (gmap string entry)) (now : Z) : t :=
  let c := mkCache (timedelta_hours ttl_hours) ∅ (default ∅ file) in
  match file with
  | None => c
  | Some m => (clear_expired (mkCache (ttl c) m m) now).1
  end.

End ResponseCache.

(* ===================================================================== *)
(** ** utils/memory_manager.py *)
(* ===================================================================== *)

Module ConversationMemory.

Record exchange := mkExchange {
  timestamp : Z;
  user : string;
  agent : string;
  agent_type : string;
  metadata : list (string * Py.pyval)
}.

(** [sessions] is the in-memory dict and [disk] the session files under
    [persist_dir], by file. [locate session_id] is what the operating system
    makes of the path persist_dir/<session_id>.json: the file it denotes
    (two ids may denote one file, as 'a' and './a' do), or the error with
    which it refuses to open the path (as for 'a/b' when [persist_dir] has
    no directory 'a'), in which case no file exists there. The program
    creates and removes session files only, so [locate] does not change. *)
Record t := mkMemory {
  max_history : Z;
  sessions : gmap string (list exchange);
  disk : gmap string (list exchange);
  locate : string -> Py.outcome string
}.

Definition init (max_history : Z) (disk : gmap string (list exchange))
           (locate : string -> Py.outcome string) : t :=
  mkMemory max_history ∅ disk locate.

(** [_save_session]: the history of the session is written to its file,
    or the error of [open] is raised. *)
Definition _save_session (m : t) (session_id : string) : t * Py.outcome unit :=
  match locate m session_id with
  | Py.Ok file =>
      (mkMemory (max_history m) (sessions m)
                (<[file := default [] (sessions m !! session_id)]> (disk m))
                (locate m),
       Py.Ok tt)
  | Py.Raise e => (m, Py.Raise e)
  end.

(** The statements of [add_exchange] before its last one: the history of
    the session is created if need be, extended and trimmed, in memory. *)
Definition add_to_history (m : t) (now : Z) (session_id user_query agent_response
           agent_type : string) (metadata : option (list (string * Py.pyval))) : t :=
  let history := default [] (sessions m !! session_id) in
  let exchange := mkExchange now user_query agent_response agent_type
                             (default [] metadata) in
  let history := history ++ [exchange] in
  let history :=
    if (max_history m <? Z.of_nat (length history))%Z
    then Py.slice_from (- max_history m) history
    else history in
  mkMemory (max_history m) (<[session_id := history]> (sessions m)) (disk m)
           (locate m).

(** [add_exchange]: the in-memory update, then [_save_session], whose
    error, if any, is raised with the update done. *)
Definition add_exchange (m : t) (now : Z) (session_id user_query agent_response
           agent_type : string) (metadata : option (list (string * Py.pyval)))
  : t * Py.outcome unit :=
  _save_session
    (add_to_history m now session_id user_query agent_response agent_type metadata)
    session_id.

Definition get_history (m : t) (session_id : string) (last_n : option Z)
  : list exchange :=
  match sessions m !! session_id with
  | None => []
  | Some history =>
      match last_n with
      | Some n => if (n =? 0)%Z then history else Py.slice_from (- n) history
      | None => history
      end
  end.

Definition newline : string := String (ascii_of_nat 10) "".

Definition get_context_string (m : t) (session_id : string) (last_n : Z) : string :=
  match get_history m session_id (Some last_n) with
  | [] => "No previous conversation history."
  | history =>
      let context_parts :=
        "Previous conversation:" ::
        flat_map (fun ex =>
                    [newline +:+ "User: " +:+ user ex;
                     "Assistant: " +:+ PyStr.prefix 200 (agent ex) +:+ "..."])
                 history in
      PyStr.join newline context_parts
  end.

(** [clear_session]: for a session in memory, the entry is deleted and
    the file that its path denotes, if there is one, is removed. *)
Definition clear_session (m : t) (session_id : string) : t :=
  match sessions m !! session_id with
  | Some _ =>
      mkMemory (max_history m) (delete session_id (sessions m))
               (match locate m session_id with
                | Py.Ok file => delete file (disk m)
                | Py.Raise _ => disk m
                end)
               (locate m)
  | None => m
  end.

Definition load_session (m : t) (session_id : string) : t * bool :=
  match locate m session_id with
  | Py.Ok file =>
      match disk m !! file with
      | None => (m, false)
      | Some h =>
          (mkMemory (max_history m) (<[session_id := h]> (sessions m)) (disk m)
                    (locate m),
           true)
      end
  | Py.Raise _ => (m, false)
  end.

End ConversationMemory.

(* ===================================================================== *)
(** ** utils/observability.py *)
(* ===================================================================== *)

Module PerformanceMonitor.
Import Py.

Record log_entry := mkLog {
  timestamp : Z;
  session_id : string;
  query : string;
  agent_type : string;
  response_length : nat;
  response_time_seconds : float;
  success : bool;
  error : option string;
  metadata : list (string * pyval)
}.

(** [metrics] is the in-memory list, [log_files] the lines appended to the
    daily queries_*.jsonl files. *)
Record t := mkMonitor {
  metrics : list log_entry;
  log_files : list log_entry
}.

Definition init : t := mkMonitor [] [].

Definition log_query (m : t) (now : Z) (session_id query agent_type response : string)
           (response_time : float) (success : bool) (error : option string)
           (metadata : option (list (string * pyval))) : t :=
  let log_entry :=
    mkLog now session_id query agent_type (String.length response)
          (round response_time 3) success error (default [] metadata) in
  mkMonitor (metrics m ++ [log_entry]) (log_files m ++ [log_entry]).

(** [sum(response_times) / len(response_times)] *)
Definition avg_time_of (ms : list log_entry) : float :=
  PrimFloat.div (sum_float (map response_time_seconds ms))
                (float_of_int (Z.of_nat (length ms))).

(** The first loop of [get_stats] over [by_agent]: per agent the count and
    the list of response times, agents in order of first appearance. *)
Definition group_step (by_agent : list (string * (Z * list float))) (metric : log_entry)
  : list (string * (Z * list float)) :=
  let agent := agent_type metric in
  let by_agent :=
    match dict_get agent by_agent with
    | None => dict_set agent (0%Z, []) by_agent
    | Some _ => by_agent
    end in
  match dict_get agent by_agent with
  | Some (count, times) =>
      dict_set agent ((count + 1)%Z, times ++ [response_time_seconds metric]) by_agent
  | None => by_agent
  end.

Definition agent_summary (kv : string * (Z * list float)) : string * pyval :=
  let '(agent, (count, times)) := kv in
  (agent,
   VDict [("count", VInt count);
          ("avg_time",
           VFloat (round (PrimFloat.div (sum_float times)
                                        (float_of_int (Z.of_nat (length times))))
                         3))]).

Definition get_stats (m : t) : list (string * pyval) :=
  match metrics m with
  | [] => [("total_queries", VInt 0); ("success_rate", VInt 0);
           ("avg_response_time", VInt 0)]
  | _ =>
      let total := Z.of_nat (length (metrics m)) in
      let successes := Z.of_nat (length (filter (fun e => success e = true) (metrics m))) in
      let avg_time := avg_time_of (metrics m) in
      let by_agent := fold_left group_step (metrics m) [] in
      [("total_queries", VInt total);
       ("success_count", VInt successes);
       ("error_count", VInt (total - successes));
       ("success_rate",
        VFloat (round (PrimFloat.mul (int_truediv successes total)
                                     (float_of_int 100)) 2));
       ("avg_response_time", VFloat (round avg_time 3));
       ("by_agent", VDict (map agent_summary by_agent))]
  end.

Definition slow_anomaly (threshold : float) (metric : log_entry)
  : list (string * pyval) :=
  [("type", VStr "slow_query");
   ("query", VStr (PyStr.prefix 50 (query metric)));
   ("time", VFloat (response_time_seconds metric));
   ("threshold", VFloat (round threshold 2))].

Definition error_anomaly (metric : log_entry) : list (string * pyval) :=
  [("type", VStr "error");
   ("query", VStr (PyStr.prefix 50 (query metric)));
   ("error", match error metric with Some e => VStr e | None => VNone end)].

Definition check_metric (threshold : float) (metric : log_entry)
  : list (list (string * pyval)) :=
  (if PrimFloat.ltb threshold (response_time_seconds metric)
   then [slow_anomaly threshold metric] else [])
  ++ (if success metric then [] else [error_anomaly metric]).

Definition detect_anomalies (m : t) : list (list (string * pyval)) :=
  if (length (metrics m) <? 5)%nat then []
  else
    let avg_time := avg_time_of (metrics m) in
    let threshold := PrimFloat.mul avg_time (float_of_int 2) in
    flat_map (check_metric threshold) (slice_from (-10) (metrics m)).

End PerformanceMonitor.

(* ===================================================================== *)
(** ** second/utils/feedback_system.py *)
(* ===================================================================== *)

Module FeedbackCollector.
Import Py.

Record feedback := mkFeedback {
  id : Z;
  timestamp : Z;
  session_id : string;
  query : string;
  response : string;
  rating : Z;
  comment : string;
  agent_type : string
}.

(** [feedbacks] is the in-memory list, [file] the lines of feedbacks.jsonl. *)
Record t := mkCollector {
  feedbacks : list feedback;
  file : list feedback
}.

(** [__init__]: the in-memory list starts as the content of the file. *)
Definition init (file : list feedback) : t := mkCollector file file.

Definition add_feedback (c : t) (now : Z) (session_id query response : string)
           (rating : Z) (comment agent_type : string) : t * Z :=
  let fb := mkFeedback (Z.of_nat (length (feedbacks c)) + 1) now session_id query
                       (PyStr.prefix 200 response) rating comment agent_type in
  (mkCollector (feedbacks c ++ [fb]) (file c ++ [fb]), id fb).

Definition count_if (p : Z -> bool) (l : list Z) : Z :=
  Z.of_nat (length (List.filter p l)).

(** [sum(ratings) / len(ratings)] on [int] ratings. *)
Definition mean (l : list Z) : float :=
  int_truediv (sumZ l) (Z.of_nat (length l)).

(** First loop over the feedbacks: per agent the count and its ratings,
    agents in order of first appearance. *)
Definition group_step (by_agent : list (string * (Z * list Z))) (fb : feedback)
  : list (string * (Z * list Z)) :=
  let agent := agent_type fb in
  let by_agent :=
    match dict_get agent by_agent with
    | None => dict_set agent (0%Z, []) by_agent
    | Some _ => by_agent
    end in
  match dict_get agent by_agent with
  | Some (count, ratings) => dict_set agent ((count + 1)%Z, ratings ++ [rating fb]) by_agent
  | None => by_agent
  end.

(** Second loop, [for agent in by_agent]: it rebinds the local variable
    [ratings] to the agent's list at every iteration; the value of
    [ratings] after the loop is returned next to the summaries. *)
Definition summarise (by_agent : list (string * (Z * list Z))) (ratings : list Z)
  : list (string * pyval) * list Z :=
  fold_left
    (fun st kv =>
       let '(out, _) := st in
       let '(agent, (count, agent_ratings)) := kv in
       let ratings := agent_ratings in
       (out ++ [(agent, VDict [("count", VInt count);
                               ("avg_rating", VFloat (round (mean ratings) 2))])],
        ratings))
    by_agent ([], ratings).

Definition get_feedback_stats (c : t) : list (string * pyval) :=
  match feedbacks c with
  | [] => [("total_feedbacks", VInt 0); ("avg_rating", VInt 0);
           ("satisfaction_rate", VInt 0)]
  | _ =>
      let total := Z.of_nat (length (feedbacks c)) in
      let ratings := map rating (feedbacks c) in
      let avg_rating := mean ratings in
      let satisfied := count_if (fun r => (4 <=? r)%Z) ratings in
      let satisfaction_rate :=
        PrimFloat.mul (int_truediv satisfied total) (float_of_int 100) in
      let by_agent := fold_left group_step (feedbacks c) [] in
      let '(by_agent, ratings) := summarise by_agent ratings in
      [("total_feedbacks", VInt total);
       ("avg_rating", VFloat (round avg_rating 2));
       ("satisfaction_rate", VFloat (round satisfaction_rate 1));
       ("thumbs_up", VInt (count_if (fun r => (4 <=? r)%Z) ratings));
       ("thumbs_down", VInt (count_if (fun r => (r <? 4)%Z) ratings));
       ("by_agent", VDict by_agent)]
  end.

(** [l[:stop]] with Python's treatment of a negative stop. *)
Definition slice_to {A : Type} (stop : Z) (l : list A) : list A :=
  let n := Z.of_nat (length l) in
  if (stop <? 0)%Z then take (Z.to_nat (Z.max 0 (n + stop))) l
  else take (Z.to_nat stop) l.

(** [list.sort(key=lambda x: x['timestamp'], reverse=True)]: newest first;
    the sort is stable, entries with equal timestamps keep their order.
    Timestamps are compared as instants, which is how their ISO texts
    compare. *)
Fixpoint insert_newest (fb : feedback) (l : list feedback) : list feedback :=
  match l with
  | [] => [fb]
  | fb' :: l' =>
      if (timestamp fb' <=? timestamp fb)%Z then fb :: l
      else fb' :: insert_newest fb l'
  end.

Definition sort_newest_first (l : list feedback) : list feedback :=
  foldr insert_newest [] l.

Definition get_negative_feedback (c : t) (limit : Z) : list feedback :=
  let negative := List.filter (fun f => (rating f <? 4)%Z) (feedbacks c) in
  slice_to limit (sort_newest_first negative).

Definition get_positive_feedback (c : t) (limit : Z) : list feedback :=
  let positive := List.filter (fun f => (4 <=? rating f)%Z) (feedbacks c) in
  slice_to limit (sort_newest_first positive).

End FeedbackCollector.

(* ===================================================================== *)
(** ** second/agents/supervisor_agent.py *)
(* ===================================================================== *)

Module SupervisorAgent.
Import Py.

(** Invocations of the external collaborators, in the order made. *)
Inductive call : Type :=
| CallClassifier (query : string)
| CallKnowledge (question : string) (n_results : Z)
                (filters : option (list (string * Json.json)))
| CallMarketing (campaign_type target_audience : string).

(** What [KnowledgeAgent.query] returns: an answer and its sources. *)
Record knowledge_result := mkKnowledge {
  k_answer : string;
  k_sources : pyval
}.

(** What the text generation inside [MarketingAgent.generate_campaign]
    contributes to the campaign dict. *)
Record marketing_result := mkMarketing {
  m_content : string;
  m_generated_at : string
}.

(** The environment of one [route_query] call: the clock readings taken by
    the four subsystems, the measured duration, and what each external
    collaborator answers (or raises) if it is invoked. *)
Record world := mkWorld {
  now_get : Z;
  now_set : Z;
  now_mem : Z;
  now_log : Z;
  elapsed : float;
  classifier_reply : outcome string;
  knowledge_reply : outcome knowledge_result;
  marketing_reply : outcome marketing_result
}.

Record t := mkSupervisor {
  enable_memory : bool;
  enable_cache : bool;
  enable_monitoring : bool;
  enable_feedback : bool;
  memory : ConversationMemory.t;
  cache : ResponseCache.t;
  monitor : PerformanceMonitor.t;
  feedback : FeedbackCollector.t;
  calls : list call
}.

Definition init (enable_memory enable_cache enable_monitoring enable_feedback : bool)
           (cache_file : option (gmap string ResponseCache.entry))
           (feedback_file : list FeedbackCollector.feedback) (now : Z)
           (session_files : string -> outcome string) : t :=
  mkSupervisor enable_memory enable_cache enable_monitoring enable_feedback
               (ConversationMemory.init 10 ∅ session_files)
               (ResponseCache.init 24 cache_file now)
               PerformanceMonitor.init
               (FeedbackCollector.init feedback_file)
               [].

Definition with_cache (s : t) (c : ResponseCache.t) : t :=
  mkSupervisor (enable_memory s) (enable_cache s) (enable_monitoring s)
               (enable_feedback s) (memory s) c (monitor s) (feedback s) (calls s).
Definition with_memory (s : t) (m : ConversationMemory.t) : t :=
  mkSupervisor (enable_memory s) (enable_cache s) (enable_monitoring s)
               (enable_feedback s) m (cache s) (monitor s) (feedback s) (calls s).
Definition with_monitor (s : t) (m : PerformanceMonitor.t) : t :=
  mkSupervisor (enable_memory s) (enable_cache s) (enable_monitoring s)
               (enable_feedback s) (memory s) (cache s) m (feedback s) (calls s).
Definition with_feedback (s : t) (f : FeedbackCollector.t) : t :=
  mkSupervisor (enable_memory s) (enable_cache s) (enable_monitoring s)
               (enable_feedback s) (memory s) (cache s) (monitor s) f (calls s).
Definition record_call (s : t) (c : call) : t :=
  mkSupervisor (enable_memory s) (enable_cache s) (enable_monitoring s)
               (enable_feedback s) (memory s) (cache s) (monitor s) (feedback s)
               (calls s ++ [c]).

(** The decision [classify_query] takes on the text returned by the model. *)
Definition classify_content (content : string) : string :=
  let classification := PyStr.lower (PyStr.strip content) in
  if PyStr.contains "marketing" classification then "marketing" else "knowledge".

Definition classify_query (s : t) (w : world) (query : string) : t * outcome string :=
  let s := record_call s (CallClassifier query) in
  match classifier_reply w with
  | Raise e => (s, Raise e)
  | Ok content => (s, Ok (classify_content content))
  end.

Definition campaign_type_of (query : string) : string :=
  let q := PyStr.lower query in
  if PyStr.contains "email" q then "email"
  else if PyStr.contains "sms" q then "sms"
  else if PyStr.contains "blog" q then "blog"
  else if PyStr.contains "poster" q then "poster"
  else "social_media".

Definition target_audience_of (query : string) : string :=
  let q := PyStr.lower query in
  if PyStr.contains "self-employed" q || PyStr.contains "self employed" q
  then "self_employed"
  else if PyStr.contains "young" q then "young_professionals"
  else if PyStr.contains "family" q || PyStr.contains "families" q then "families"
  else "salaried".

Definition campaign_dict (campaign_type target_audience : string)
           (r : marketing_result) : list (string * pyval) :=
  [("campaign_type", VStr campaign_type);
   ("target_audience", VStr target_audience);
   ("product_type", VStr "home_loan");
   ("content", VStr (m_content r));
   ("generated_at", VStr (m_generated_at r));
   ("status", VStr "generated")].

Definition knowledge_dict (r : knowledge_result) : list (string * pyval) :=
  [("answer", VStr (k_answer r)); ("sources", k_sources r)].

Definition cached_result (cached_response : string) : list (string * pyval) :=
  [("agent", VStr "cached"); ("response_type", VStr "cached");
   ("answer", VStr cached_response); ("from_cache", VBool true)].

(** The statements after the two branches: cache write, memory write,
    [return result]. The cache file has a fixed path and [cache.set] writes
    it; the session file is named after [session_id], and when the
    operating system refuses its path [memory.add_exchange] raises, after
    the cache write and the in-memory append, with [result] already bound. *)
Definition store_and_return (s : t) (w : world) (query session_id agent_type
           response : string) (result : list (string * pyval))
  : t * list (string * pyval) * outcome (list (string * pyval)) :=
  let s :=
    if enable_cache s
    then with_cache s (ResponseCache.set (cache s) (now_set w) query agent_type
                                         response None)
    else s in
  if enable_memory s
  then
    let '(m, saved) := ConversationMemory.add_exchange
                         (memory s) (now_mem w) session_id query response
                         agent_type None in
    match saved with
    | Ok _ => (with_memory s m, result, Ok result)
    | Raise e => (with_memory s m, result, Raise e)
    end
  else (s, result, Ok result).

(** "Check cache first": the lookup is made under the tag "any" and
    without filters. *)
Definition check_cache (s : t) (w : world) (query : string) : t * option string :=
  if enable_cache s
  then let '(c, r) := ResponseCache.get (cache s) (now_get w) query "any" None in
       (with_cache s c, r)
  else (s, None).

(** The two branches on [agent_type]: the responder is invoked and, when
    it returns, [response] and [result] are bound. *)
Definition invoke_responder (s : t) (w : world) (query agent_type : string)
           (n_results : Z) (filters : option (list (string * Json.json)))
  : t * outcome (string * list (string * pyval)) :=
  if String.eqb agent_type "marketing" then
    let campaign_type := campaign_type_of query in
    let target_audience := target_audience_of query in
    let s := record_call s (CallMarketing campaign_type target_audience) in
    match marketing_reply w with
    | Raise e => (s, Raise e)
    | Ok r =>
        let campaign := campaign_dict campaign_type target_audience r in
        let response := m_content r in
        let result :=
          [("agent", VStr "marketing"); ("response_type", VStr "campaign");
           ("campaign", VDict campaign); ("answer", VStr response)] in
        (s, Ok (response, result))
    end
  else
    let s := record_call s (CallKnowledge query n_results filters) in
    match knowledge_reply w with
    | Raise e => (s, Raise e)
    | Ok r =>
        let result := knowledge_dict r in
        let response := k_answer r in
        let result :=
          dict_update result [("agent", VStr "knowledge");
                              ("response_type", VStr "answer")] in
        (s, Ok (response, result))
    end.

(** The [try] block. Next to the state and the outcome it yields the value
    the local variable [result] holds when the block is left, which the
    [finally] block reads. *)
Definition route_try (s : t) (w : world) (query session_id : string)
           (n_results : Z) (filters : option (list (string * Json.json)))
  : t * list (string * pyval) * outcome (list (string * pyval)) :=
  let result : list (string * pyval) := [] in
  let '(s, cached_response) := check_cache s w query in
  match cached_response with
  | Some ((String _ _) as cached_response) =>
      (s, result, Ok (cached_result cached_response))
  | _ =>
      let context :=
        if enable_memory s
        then ConversationMemory.get_context_string (memory s) session_id 3
        else "" in
      match classify_query s w query with
      | (s, Raise e) => (s, result, Raise e)
      | (s, Ok agent_type) =>
          match invoke_responder s w query agent_type n_results filters with
          | (s, Raise e) => (s, result, Raise e)
          | (s, Ok (response, result)) =>
              store_and_return s w query session_id agent_type response result
          end
      end
  end.

(** [route_query]: the [try] block, the [except] clause (which records the
    failure and re-raises) and the [finally] block. *)
Definition route_query (s : t) (w : world) (query session_id : string)
           (n_results : Z) (filters : option (list (string * Json.json)))
  : t * outcome (list (string * pyval)) :=
  let '(s, result, out) := route_try s w query session_id n_results filters in
  let '(success, error_msg) :=
    match out with
    | Ok _ => (true, None)
    | Raise e => (false, Some e)
    end in
  let s :=
    if enable_monitoring s
    then
      let nonempty := match result with [] => false | _ => true end in
      with_monitor s
        (PerformanceMonitor.log_query
           (monitor s) (now_log w) session_id query
           (if nonempty then dict_get_str "agent" "unknown" result else "error")
           (if nonempty then dict_get_str "answer" "" result else "")
           (elapsed w) success error_msg None)
    else s in
  (s, out).

Definition submit_feedback (s : t) (now : Z) (session_id query response : string)
           (rating : Z) (comment agent_type : string) : t * option Z :=
  if enable_feedback s
  then let '(f, fid) := FeedbackCollector.add_feedback
                          (feedback s) now session_id query response rating
                          comment agent_type in
       (with_feedback s f, Some fid)
  else (s, None).

(** A sequence of dispatches, each with its own environment. *)
Record request := mkRequest {
  r_world : world;
  r_query : string;
  r_session : string;
  r_n_results : Z;
  r_filters : option (list (string * Json.json))
}.

Definition dispatch (s : t) (r : request) : t * outcome (list (string * pyval)) :=
  route_query s (r_world r) (r_query r) (r_session r) (r_n_results r) (r_filters r).

Definition dispatch_all (s : t) (rs : list request) : t :=
  fold_left (fun s r => (dispatch s r).1) rs s.

Definition raised {A : Type} (o : outcome A) : bool :=
  match o with Raise _ => true | Ok _ => false end.

(** The outcomes of the dispatches of [rs], in order. *)
Fixpoint outcomes (s : t) (rs : list request)
  : list (outcome (list (string * pyval))) :=
  match rs with
  | [] => []
  | r :: rs' => let '(s', o) := dispatch s r in o :: outcomes s' rs'
  end.

End SupervisorAgent.

(* ===================================================================== *)
(** ** vectorstore/retriever.py and second/agents/knowledge_agent.py *)
(* ===================================================================== *)

Module FinancialRetriever.
Import Py.

(** What [collection.query] returns for the one query text it is given:
    the first inner list of 'documents', 'metadatas', 'distances' and
    'ids'. Of a chunk's metadata the string-valued items are kept; the keys
    read by the agents ('source', 'doc_type', 'loan_type') are written as
    strings by index_icici_docs.py. *)
Record results := mkResults {
  documents : list string;
  metadatas : list (list (string * string));
  distances : list float;
  ids : list string
}.

(** [retrieve]: the answer of the vector store, or the empty result when
    the store raises. *)
Definition retrieve (collection_query : outcome results) : results :=
  match collection_query with
  | Ok results => results
  | Raise _ => mkResults [] [] [] []
  end.

End FinancialRetriever.

Module KnowledgeAgent.
Import Py FinancialRetriever.

(** Invocations of the vector store and of the language model, in the
    order made. *)
Inductive call : Type :=
| CallRetrieve (query : string) (n_results : Z)
               (filter_metadata : option (list (string * Json.json)))
| CallGenerate (question context : string).

(** The environment of one [query] call: what the vector store and the
    language model answer (or raise) if they are invoked. *)
Record world := mkWorld {
  retrieval : outcome results;
  generation : outcome string
}.

(** [metadata.get(key, fallback)] *)
Definition meta_get (key fallback : string) (metadata : list (string * string))
  : string :=
  match dict_get key metadata with
  | Some v => v
  | None => fallback
  end.

Definition newline : string := String (ascii_of_nat 10) "".

Definition format_source (idx : nat) (doc : string)
           (metadata : list (string * string)) : string :=
  let source := meta_get "source" "Unknown" metadata in
  let doc_type := meta_get "doc_type" "general" metadata in
  let loan_type := meta_get "loan_type" "general" metadata in
  "[Source " +:+ PyStr.str_of_int (Z.of_nat idx) +:+ ": " +:+ source +:+ " - "
    +:+ doc_type +:+ "/" +:+ loan_type +:+ "]" +:+ newline +:+ doc +:+ newline.

Definition format_context (retrieval_results : results) : string :=
  let contexts :=
    imap (fun i dm => format_source (S i) dm.1 dm.2)
         (zip (documents retrieval_results) (metadatas retrieval_results)) in
  PyStr.join (newline +:+ "---" +:+ newline) contexts.

Definition source_dict (doc : string) (meta : list (string * string)) (dist : float)
  : pyval :=
  VDict [("source", VStr (meta_get "source" "Unknown" meta));
         ("doc_type", VStr (meta_get "doc_type" "general" meta));
         ("loan_type", VStr (meta_get "loan_type" "general" meta));
         ("relevance",
          VFloat (round (PrimFloat.mul (PrimFloat.sub (float_of_int 1) dist)
                                       (float_of_int 100)) 2));
         ("preview", VStr (PyStr.prefix 200 doc +:+ "..."))].

(** The three-way [zip] of the loop over the sources. *)
Definition sources_of (retrieval_results : results) : list pyval :=
  map (fun dmd : string * list (string * string) * float =>
         source_dict dmd.1.1 dmd.1.2 dmd.2)
      (zip (zip (documents retrieval_results) (metadatas retrieval_results))
           (distances retrieval_results)).

Definition no_information : string :=
  "I couldn't find any relevant information in the ICICI HFC documents.".

Definition query (w : world) (question : string) (n_results : Z)
           (filters : option (list (string * Json.json))) (return_sources : bool)
  : list call * outcome (list (string * pyval)) :=
  let calls := [CallRetrieve question n_results filters] in
  let retrieval_results := retrieve (retrieval w) in
  match documents retrieval_results with
  | [] => (calls, Ok [("answer", VStr no_information); ("sources", VList [])])
  | _ :: _ =>
      let context := format_context retrieval_results in
      let calls := calls ++ [CallGenerate question context] in
      match generation w with
      | Raise e => (calls, Raise e)
      | Ok answer =>
          let response := [("answer", VStr answer)] in
          let response :=
            if return_sources
            then dict_set "sources" (VList (sources_of retrieval_results)) response
            else response in
          (calls, Ok response)
      end
  end.

End KnowledgeAgent.

(* ===================================================================== *)
(** ** Vocabulary of the specification *)
(* ===================================================================== *)

Module Spec.
#[local] Set Warnings "-register-all".

Definition all_space (l : list ascii) : Prop :=
  Forall (fun c => PyStr.isspace c = true) l.

(** [needle] occurs in [s] when letter case is ignored. *)
Definition occurs_ci (needle s : string) : Prop :=
  exists pre mid post,
    PyStr.chars s = pre ++ mid ++ post /\
    PyStr.lower_l mid = PyStr.chars needle.

(** Two texts that differ only in surrounding whitespace and letter case. *)
Definition same_modulo_space_case (q1 q2 : string) : Prop :=
  exists l1 c1 r1 l2 c2 r2,
    PyStr.chars q1 = l1 ++ c1 ++ r1 /\
    PyStr.chars q2 = l2 ++ c2 ++ r2 /\
    all_space l1 /\ all_space r1 /\ all_space l2 /\ all_space r2 /\
    PyStr.lower_l c1 = PyStr.lower_l c2.

(** Two JSON values that differ only in the order of the keys of their
    dicts, at any depth. *)
Inductive reordered : Json.json -> Json.json -> Prop :=
| reordered_refl (j : Json.json) : reordered j j
| reordered_list (l1 l2 : list Json.json) :
    Forall2 reordered l1 l2 -> reordered (Json.JList l1) (Json.JList l2)
| reordered_dict (d1 d d2 : list (string * Json.json)) :
    NoDup (map fst d1) ->
    Forall2 (fun a b => a.1 = b.1 /\ reordered a.2 b.2) d1 d ->
    Permutation d d2 ->
    reordered (Json.JDict d1) (Json.JDict d2).

(** Two filter arguments that differ only in the order of their keys. *)
Definition same_modulo_key_order (f1 f2 : option (list (string * Json.json))) : Prop :=
  match f1, f2 with
  | None, None => True
  | Some d1, Some d2 => reordered (Json.JDict d1) (Json.JDict d2)
  | _, _ => False
  end.

(** The most recent [n] elements of [l], oldest first. *)
Definition most_recent {A : Type} (n : nat) (l : list A) : list A :=
  drop (length l - n) l.

(** Mean of a list of response times, as binary64 arithmetic gives it:
    their sum, added up in order, divided by their number. *)
Definition mean_time (l : list float) : float :=
  PrimFloat.div (Py.sum_float l) (Py.float_of_int (Z.of_nat (length l))).

(** One [add_exchange] call, and the exchange record it appends. *)
Record exchange_call := mkCall {
  in_session : string;
  at_time : Z;
  user_query : string;
  agent_response : string;
  agent_tag : string;
  call_metadata : option (list (string * Py.pyval))
}.

Definition exchange_of (c : exchange_call) : ConversationMemory.exchange :=
  ConversationMemory.mkExchange (at_time c) (user_query c) (agent_response c)
                                (agent_tag c) (default [] (call_metadata c)).

(** The memory after the call, whether or not saving the session raised. *)
Definition add_exchange_call (m : ConversationMemory.t) (c : exchange_call)
  : ConversationMemory.t :=
  (ConversationMemory.add_exchange
     m (at_time c) (in_session c) (user_query c) (agent_response c)
     (agent_tag c) (call_metadata c)).1.

(** A sequence of [add_exchange] calls, to any sessions. *)
Definition add_exchanges (m : ConversationMemory.t) (calls : list exchange_call)
  : ConversationMemory.t :=
  fold_left add_exchange_call calls m.

(** The calls of a sequence that go to one session, in order. *)
Definition calls_for (session_id : string) (calls : list exchange_call)
  : list exchange_call :=
  filter (fun c => in_session c = session_id) calls.

(** A step of the dispatcher that leaves the monitor and its switch alone. *)
Definition same_monitor (s s' : SupervisorAgent.t) : Prop :=
  SupervisorAgent.monitor s' = SupervisorAgent.monitor s /\
  SupervisorAgent.enable_monitoring s' = SupervisorAgent.enable_monitoring s.

(** The log entry and the outcome of one dispatch agree on success. *)
Definition logged_as {A : Type} (e : PerformanceMonitor.log_entry)
           (o : Py.outcome A) : Prop :=
  PerformanceMonitor.success e = negb (SupervisorAgent.raised o).

(** The file response_cache.json holds what the in-memory dict holds. *)
Definition synced (c : ResponseCache.t) : Prop :=
  ResponseCache.disk c = ResponseCache.cache c.

(** Number of cache entries written for one agent tag. *)
Definition entries_of_agent (a : string) (c : ResponseCache.t) : nat :=
  size (filter (fun kv : string * ResponseCache.entry =>
                  ResponseCache.agent_type kv.2 = a)
               (ResponseCache.cache c)).

(** The characters of a lower-case hexadecimal numeral. *)
Definition hex_char (c : ascii) : bool :=
  let n := N_of_ascii c in
  ((48 <=? n) && (n <=? 57) || (97 <=? n) && (n <=? 102))%N.

(** A memory in which every stored response is cut to its first 200
    characters. *)
Definition truncate_exchange (ex : ConversationMemory.exchange)
  : ConversationMemory.exchange :=
  ConversationMemory.mkExchange
    (ConversationMemory.timestamp ex) (ConversationMemory.user ex)
    (PyStr.prefix 200 (ConversationMemory.agent ex))
    (ConversationMemory.agent_type ex) (ConversationMemory.metadata ex).

Definition truncate_memory (m : ConversationMemory.t) : ConversationMemory.t :=
  ConversationMemory.mkMemory
    (ConversationMemory.max_history m)
    (fmap (map truncate_exchange) (ConversationMemory.sessions m))
    (ConversationMemory.disk m) (ConversationMemory.locate m).

(** The log entries of one agent tag, and the numbers of successful and of
    failed entries. *)
Definition entries_of (a : string) (log : list PerformanceMonitor.log_entry)
  : list PerformanceMonitor.log_entry :=
  filter (fun e => PerformanceMonitor.agent_type e = a) log.

Definition succeeded (log : list PerformanceMonitor.log_entry) : Z :=
  Z.of_nat (length (List.filter PerformanceMonitor.success log)).

Definition failed (log : list PerformanceMonitor.log_entry) : Z :=
  Z.of_nat (length (List.filter (fun e => negb (PerformanceMonitor.success e)) log)).

(** What [get_stats] reports for an agent with the entries [l]. *)
Definition agent_stats (l : list PerformanceMonitor.log_entry) : Py.pyval :=
  Py.VDict
    [("count", Py.VInt (Z.of_nat (length l)));
     ("avg_time",
      Py.VFloat
        (Py.round (mean_time (map PerformanceMonitor.response_time_seconds l)) 3))].

(** One [add_feedback] call. *)
Record feedback_call := mkFeedbackCall {
  f_time : Z;
  f_session : string;
  f_query : string;
  f_response : string;
  f_rating : Z;
  f_comment : string;
  f_agent : string
}.

Definition add_feedback_call (c : FeedbackCollector.t) (k : feedback_call)
  : FeedbackCollector.t * Z :=
  FeedbackCollector.add_feedback c (f_time k) (f_session k) (f_query k)
                                 (f_response k) (f_rating k) (f_comment k)
                                 (f_agent k).

Definition add_feedbacks (c : FeedbackCollector.t) (calls : list feedback_call)
  : FeedbackCollector.t :=
  fold_left (fun c k => (add_feedback_call c k).1) calls c.

(** Newest first: no entry is older than an entry listed after it. *)
Fixpoint newest_first (l : list FeedbackCollector.feedback) : Prop :=
  match l with
  | [] => True
  | a :: l' =>
      Forall (fun b => (FeedbackCollector.timestamp b
                        <= FeedbackCollector.timestamp a)%Z) l'
      /\ newest_first l'
  end.



(** What a step of the dispatcher never changes: the four switches and
    the feedback collector, and any subsystem that is switched off. *)
Definition keeps_switches (s s' : SupervisorAgent.t) : Prop :=
  SupervisorAgent.enable_memory s' = SupervisorAgent.enable_memory s /\
  SupervisorAgent.enable_cache s' = SupervisorAgent.enable_cache s /\
  SupervisorAgent.enable_monitoring s' = SupervisorAgent.enable_monitoring s /\
  SupervisorAgent.enable_feedback s' = SupervisorAgent.enable_feedback s /\
  SupervisorAgent.feedback s' = SupervisorAgent.feedback s /\
  (SupervisorAgent.enable_cache s = false ->
   SupervisorAgent.cache s' = SupervisorAgent.cache s) /\
  (SupervisorAgent.enable_memory s = false ->
   SupervisorAgent.memory s' = SupervisorAgent.memory s) /\
  (SupervisorAgent.enable_monitoring s = false ->
   SupervisorAgent.monitor s' = SupervisorAgent.monitor s).


End Spec.

(* ===================================================================== *)
(** ** Concrete states used by the examples *)
(* ===================================================================== *)

Module Fixture.
Import Py.

Definition minute : Z := 60000000.

(** A cache with a TTL of one hour holding one entry written at time 0. *)
Definition cache_1h : ResponseCache.t := ResponseCache.init 1 None 0.
Definition cache_1h_loan : ResponseCache.t :=
  ResponseCache.set cache_1h 0 "Loan Eligibility " "knowledge" "Age 23-60." None.

Definition loan_entry : ResponseCache.entry :=
  ResponseCache.mkEntry "Loan Eligibility " "knowledge" "Age 23-60." 0 None.

(** A memory directory without subdirectories, for a process that writes
    nowhere else: an id without a slash names the file <id>.json, the path
    of any other id cannot be opened. *)
Definition flat_dir (session_id : string) : outcome string :=
  if PyStr.contains "/" session_id
  then Raise ("[Errno 2] No such file or directory: './memory/"
              +:+ session_id +:+ ".json'")
  else Ok (session_id +:+ ".json").

End Fixture.

Module FixtureMemory.

Definition call (session_id : string) (n : Z) (q : string) : Spec.exchange_call :=
  Spec.mkCall session_id n q ("answer to " +:+ q) "knowledge" None.

(** Five exchanges of session s1, with one of session s2 in between. *)
Definition six_calls : list Spec.exchange_call :=
  [call "s1" 1 "q1"; call "s1" 2 "q2"; call "s2" 3 "other"; call "s1" 4 "q3";
   call "s1" 5 "q4"; call "s1" 6 "q5"].

Definition memory_3 : ConversationMemory.t :=
  ConversationMemory.init 3 ∅ Fixture.flat_dir.

(** What a new process finds: nothing in memory, session s1 on disk. *)
Definition after_restart : ConversationMemory.t :=
  ConversationMemory.init
    3 (ConversationMemory.disk (Spec.add_exchanges memory_3 six_calls))
    Fixture.flat_dir.

End FixtureMemory.

Module FixtureMonitor.

Definition logged (m : PerformanceMonitor.t) (seconds : float) (ok : bool)
  : PerformanceMonitor.t :=
  PerformanceMonitor.log_query
    m 0 "s1" "What is home loan eligibility?" "knowledge" "Age 23-60."
    seconds ok (if ok then None else Some "timeout") None.

(** Four entries, one of them very slow and failed. *)
Definition four_entries : PerformanceMonitor.t :=
  logged (logged (logged (logged PerformanceMonitor.init 1%float true) 1%float true)
                 1%float true) 500%float false.

(** Five entries with times 1, 1, 1, 1 and 10 seconds, the last failed. *)
Definition five_entries : PerformanceMonitor.t :=
  logged (logged (logged (logged (logged PerformanceMonitor.init 1%float true)
                                 1%float true)
                         1%float true) 1%float true) 10%float false.

(** Two entries with times 0.001 and 0.004 seconds; in binary64 their mean
    lies above 0.0025. *)
Definition two_fast : PerformanceMonitor.t :=
  logged (logged PerformanceMonitor.init 0.001%float true) 0.004%float true.

(** Five successful entries with times 0.1, 0.1, 0.5, 0.6 and 0.2 seconds.
    Their sum in binary64 is 1.4999999999999998, so twice their mean lies
    just below 0.6. *)
Definition near_threshold : PerformanceMonitor.t :=
  logged (logged (logged (logged (logged PerformanceMonitor.init 0.1%float true)
                                 0.1%float true)
                         0.5%float true) 0.6%float true) 0.2%float true.

End FixtureMonitor.

Module FixtureSupervisor.
Import Py SupervisorAgent.

Definition q_docs : string :=
  "What documents are needed for a salaried home loan?".

Definition answer_docs : string := "PAN card, Aadhaar and salary slips.".

(** All four subsystems enabled, nothing on disk. *)
Definition fresh : SupervisorAgent.t :=
  init true true true true None [] 0 Fixture.flat_dir.

(** The classifier answers "knowledge" and the knowledge responder
    answers [answer_docs]; the marketing responder is not expected. *)
Definition world_knowledge (now : Z) : world :=
  mkWorld now now now now 1.5%float (Ok "knowledge")
          (Ok (mkKnowledge answer_docs (VList []))) (Raise "not expected").

(** Every collaborator fails. *)
Definition world_down (now : Z) : world :=
  mkWorld now now now now 0.5%float (Ok "knowledge")
          (Raise "connection reset") (Raise "connection reset").

Definition ask (w : world) : request := mkRequest w q_docs "s1" 3 None.

(** A supervisor whose cache holds an answer under the tag the dispatcher
    looks up. *)
Definition primed : SupervisorAgent.t :=
  with_cache fresh (ResponseCache.set (cache fresh) 10 q_docs "any" answer_docs None).

End FixtureSupervisor.

Module FixtureKnowledge.
Import Py.

Definition chunk : string := "Salaried applicants need PAN card, Aadhaar and salary slips.".

(** Two chunks found, the second without a distance. In binary64
    (1 - 0.12365) * 100 is 87.63499999999999. *)
Definition found : FinancialRetriever.results :=
  FinancialRetriever.mkResults
    [chunk; "Age 23-60."]
    [[("source", "salaried_docs.txt"); ("doc_type", "salaried")]; []]
    [0.12365%float]
    ["salaried_docs_0"; "eligibility_0"].

Definition world_found : KnowledgeAgent.world :=
  KnowledgeAgent.mkWorld (Ok found) (Ok FixtureSupervisor.answer_docs).

(** The vector store is down. *)
Definition world_store_down : KnowledgeAgent.world :=
  KnowledgeAgent.mkWorld (Raise "connection refused") (Raise "not expected").


End FixtureKnowledge.

Module FixtureDispatch.
Import FixtureSupervisor.

(** Three dispatches; the responder fails during the second one. *)
Definition three_requests : list SupervisorAgent.request :=
  [ask (world_knowledge 1); ask (world_down 2); ask (world_knowledge 3)].

End FixtureDispatch.

Module FixtureFeedback.

Definition rate (c : FeedbackCollector.t) (rating : Z) (agent_type : string)
  : FeedbackCollector.t :=
  (FeedbackCollector.add_feedback c 0 "user_1" "Eligibility?" "Age 23-60."
                                  rating "" agent_type).1.

(** Ratings 5, 4, 2, 5, 3 given to two agents. *)
Definition five_ratings : FeedbackCollector.t :=
  rate (rate (rate (rate (rate (FeedbackCollector.init []) 5 "knowledge")
                         4 "marketing") 2 "knowledge") 5 "knowledge")
       3 "marketing".

(** The same ratings, all given to one agent. *)
Definition five_ratings_one_agent : FeedbackCollector.t :=
  rate (rate (rate (rate (rate (FeedbackCollector.init []) 5 "knowledge")
                         4 "knowledge") 2 "knowledge") 5 "knowledge")
       3 "knowledge".

Definition call (t rating : Z) (agent_type : string) : Spec.feedback_call :=
  Spec.mkFeedbackCall t "user_1" "Eligibility?" "Age 23-60." rating "" agent_type.

(** Ratings 5, 4, 2, 5, 3 given at times 10, 20, 30, 40, 50. *)
Definition five_calls : list Spec.feedback_call :=
  [call 10 5 "knowledge"; call 20 4 "marketing"; call 30 2 "knowledge";
   call 40 5 "knowledge"; call 50 3 "marketing"].

Definition timed_ratings : FeedbackCollector.t :=
  Spec.add_feedbacks (FeedbackCollector.init []) five_calls.


End FixtureFeedback.


(* ===================================================================== *)
(** ** Facts about the string operations *)
(* ===================================================================== *)

Lemma chars_text (l : list ascii) : PyStr.chars (PyStr.text l) = l.
Proof. apply String.list_ascii_of_string_of_list_ascii. Qed.

Lemma text_chars (s : string) : PyStr.text (PyStr.chars s) = s.
Proof. apply String.string_of_list_ascii_of_string. Qed.

Lemma isspace_lower_char (c : ascii) :
  PyStr.isspace c = true -> PyStr.lower_char c = c.
Proof.
  destruct c as [[] [] [] [] [] [] [] []]; vm_compute; congruence.
Qed.

Lemma lower_char_space (c : ascii) :
  PyStr.isspace (PyStr.lower_char c) = PyStr.isspace c.
Proof.
  destruct c as [[] [] [] [] [] [] [] []]; vm_compute; reflexivity.
Qed.

Lemma lower_l_space (l : list ascii) :
  Spec.all_space l -> PyStr.lower_l l = l.
Proof.
  induction 1 as [|c l Hc _ IH]; simpl; [reflexivity|].
  rewrite isspace_lower_char by assumption. f_equal. exact IH.
Qed.

Lemma lstrip_l_space (w l : list ascii) :
  Spec.all_space w -> PyStr.lstrip_l (w ++ l) = PyStr.lstrip_l l.
Proof.
  induction 1 as [|c w Hc _ IH]; simpl; [reflexivity|]. now rewrite Hc.
Qed.

Lemma lstrip_l_nil_space (l : list ascii) :
  PyStr.lstrip_l l = [] -> Spec.all_space l.
Proof.
  induction l as [|c l IH]; simpl; intros H; [apply Forall_nil_2|].
  destruct (PyStr.isspace c) eqn:Hc; [|discriminate].
  apply Forall_cons; split; [exact Hc | exact (IH H)].
Qed.

Lemma lstrip_l_app (l l' : list ascii) :
  PyStr.lstrip_l l <> [] -> PyStr.lstrip_l (l ++ l') = PyStr.lstrip_l l ++ l'.
Proof.
  induction l as [|c l IH]; simpl; intros H; [congruence|].
  destruct (PyStr.isspace c); [auto|reflexivity].
Qed.

Lemma all_space_rev (l : list ascii) : Spec.all_space l -> Spec.all_space (rev l).
Proof.
  unfold Spec.all_space. rewrite !List.Forall_forall.
  intros H c Hc. apply H. now apply in_rev.
Qed.

Lemma rstrip_l_space (l w : list ascii) :
  Spec.all_space w -> PyStr.rstrip_l (l ++ w) = PyStr.rstrip_l l.
Proof.
  intros Hw. unfold PyStr.rstrip_l. rewrite rev_app_distr.
  now rewrite lstrip_l_space by now apply all_space_rev.
Qed.

Lemma rstrip_l_all_space (w : list ascii) :
  Spec.all_space w -> PyStr.rstrip_l w = [].
Proof.
  intros Hw. change w with ([] ++ w). now rewrite rstrip_l_space.
Qed.

(** Whitespace around a text does not survive [strip]. *)
Lemma strip_l_space (l c r : list ascii) :
  Spec.all_space l -> Spec.all_space r ->
  PyStr.strip_l (l ++ c ++ r) = PyStr.strip_l c.
Proof.
  intros Hl Hr. unfold PyStr.strip_l. rewrite lstrip_l_space by assumption.
  destruct (PyStr.lstrip_l c) as [|a t] eqn:Hc.
  - apply lstrip_l_nil_space in Hc.
    assert (Hall : Spec.all_space (c ++ r)) by now apply Forall_app.
    rewrite <- (app_nil_r (c ++ r)), lstrip_l_space by assumption.
    reflexivity.
  - rewrite lstrip_l_app by (rewrite Hc; discriminate).
    rewrite Hc. now apply rstrip_l_space.
Qed.

Lemma lower_l_app (a b : list ascii) :
  PyStr.lower_l (a ++ b) = PyStr.lower_l a ++ PyStr.lower_l b.
Proof. apply map_app. Qed.

(** The normalisation of the cache key forgets surrounding whitespace and
    letter case. *)
Lemma normalise_same (q1 q2 : string) :
  Spec.same_modulo_space_case q1 q2 ->
  PyStr.strip (PyStr.lower q1) = PyStr.strip (PyStr.lower q2).
Proof.
  intros (l1 & c1 & r1 & l2 & c2 & r2 & E1 & E2 & Hl1 & Hr1 & Hl2 & Hr2 & Hc).
  unfold PyStr.strip, PyStr.lower. rewrite !chars_text, E1, E2.
  rewrite !lower_l_app.
  rewrite (lower_l_space l1), (lower_l_space r1), (lower_l_space l2),
    (lower_l_space r2) by assumption.
  rewrite !strip_l_space by assumption. now rewrite Hc.
Qed.

(** The text left by [lstrip] keeps every run that starts with a character
    that is not whitespace. *)
Lemma lstrip_l_keeps (pre : list ascii) (c : ascii) (rest : list ascii) :
  PyStr.isspace c = false ->
  exists pre', PyStr.lstrip_l (pre ++ c :: rest) = pre' ++ c :: rest.
Proof.
  intros Hc. induction pre as [|a pre IH]; simpl.
  - rewrite Hc. now exists [].
  - destruct (PyStr.isspace a); [exact IH|]. now exists (a :: pre).
Qed.

Lemma rstrip_l_keeps (pre : list ascii) (c : ascii) (post : list ascii) :
  PyStr.isspace c = false ->
  exists post', PyStr.rstrip_l (pre ++ c :: post) = pre ++ c :: post'.
Proof.
  intros Hc. unfold PyStr.rstrip_l.
  rewrite rev_app_distr. simpl rev. rewrite <- app_assoc. simpl.
  destruct (lstrip_l_keeps (rev post) c (rev pre) Hc) as [p' Hp'].
  rewrite Hp'. exists (rev p').
  rewrite rev_app_distr. simpl. rewrite rev_involutive, <- app_assoc.
  reflexivity.
Qed.

(** [strip] removes a prefix and a suffix made of whitespace only. *)
Lemma strip_l_decompose (l : list ascii) :
  exists w1 w2, l = w1 ++ PyStr.strip_l l ++ w2.
Proof.
  assert (HL : forall l, exists w, l = w ++ PyStr.lstrip_l l).
  { clear l. induction l as [|c l [w IH]]; simpl.
    - now exists [].
    - destruct (PyStr.isspace c).
      + exists (c :: w). simpl. now f_equal.
      + now exists []. }
  destruct (HL l) as [w1 H1].
  destruct (HL (rev (PyStr.lstrip_l l))) as [w2 H2].
  exists w1, (rev w2). unfold PyStr.strip_l, PyStr.rstrip_l.
  rewrite <- rev_app_distr, <- H2, rev_involutive. exact H1.
Qed.

Lemma is_prefix_spec (p l : list ascii) :
  PyStr.is_prefix p l = true <-> exists post, l = p ++ post.
Proof.
  revert l. induction p as [|a p IH]; intros l; simpl.
  - split; [intros _; now exists l | reflexivity].
  - destruct l as [|b l].
    + split; [discriminate | intros [post H]; discriminate].
    + rewrite andb_true_iff, IH. split.
      * intros [Hab [post ->]]. apply Ascii.eqb_eq in Hab. subst.
        now exists post.
      * intros [post H]. injection H as -> ->. split; [apply Ascii.eqb_refl|].
        now exists post.
Qed.

(** [in] on strings decides the occurrence as a contiguous run. *)
Lemma contains_l_spec (p l : list ascii) :
  PyStr.contains_l p l = true <-> exists pre post, l = pre ++ p ++ post.
Proof.
  induction l as [|b l IH]; simpl.
  - rewrite orb_false_r, is_prefix_spec. split.
    + intros [post H]. now exists [], post.
    + intros (pre & post & H). destruct pre; [now exists post|discriminate].
  - rewrite orb_true_iff, is_prefix_spec, IH. split.
    + intros [[post H] | (pre & post & H)].
      * now exists [], post.
      * exists (b :: pre), post. simpl. now f_equal.
    + intros (pre & post & H). destruct pre as [|a pre]; simpl in H.
      * left. now exists post.
      * right. injection H as _ H. now exists pre, post.
Qed.

Lemma strip_l_keeps (pre mid post : list ascii) :
  mid <> [] -> Forall (fun c => PyStr.isspace c = false) mid ->
  exists pre' post', PyStr.strip_l (pre ++ mid ++ post) = pre' ++ mid ++ post'.
Proof.
  intros Hne Hmid. unfold PyStr.strip_l.
  destruct (exists_last Hne) as (m0 & cl & ->).
  apply Forall_app in Hmid as [Hm0 Hcl].
  apply Forall_cons in Hcl as [Hcl _].
  destruct m0 as [|c1 t].
  - simpl. destruct (lstrip_l_keeps pre cl post Hcl) as [pre' ->].
    destruct (rstrip_l_keeps pre' cl post Hcl) as [post' ->].
    now exists pre', post'.
  - apply Forall_cons in Hm0 as [Hc1 _].
    simpl. destruct (lstrip_l_keeps pre c1 ((t ++ [cl]) ++ post) Hc1) as [pre' ->].
    destruct (rstrip_l_keeps (pre' ++ c1 :: t) cl post Hcl) as [post' Hp].
    exists pre', post'.
    assert (E : forall x, pre' ++ c1 :: (t ++ [cl]) ++ x = (pre' ++ c1 :: t) ++ cl :: x).
    { intros x. repeat (rewrite <- app_assoc; simpl). reflexivity. }
    now rewrite !E.
Qed.

Lemma lower_l_nonspace (mid target : list ascii) :
  PyStr.lower_l mid = target ->
  Forall (fun c => PyStr.isspace c = false) target ->
  Forall (fun c => PyStr.isspace c = false) mid.
Proof.
  revert target. induction mid as [|c mid IH]; intros target E Ht.
  - apply Forall_nil_2.
  - simpl in E. subst target. apply Forall_cons in Ht as [Hc Ht].
    apply Forall_cons; split.
    + now rewrite <- lower_char_space.
    + now apply (IH _ eq_refl).
Qed.

(** The test made by [classify_query] is the case-insensitive occurrence of
    the word in the raw text. *)
Lemma contains_marketing_iff (content : string) :
  PyStr.contains "marketing" (PyStr.lower (PyStr.strip content)) = true
  <-> Spec.occurs_ci "marketing" content.
Proof.
  unfold PyStr.contains, PyStr.lower, PyStr.strip, Spec.occurs_ci.
  rewrite !chars_text, contains_l_spec.
  set (l := PyStr.chars content). split.
  - intros (pre & post & H).
    apply map_eq_app in H as (pre' & rest & Hs & Hpre & Hrest).
    apply map_eq_app in Hrest as (mid & post' & Hr & Hmid & Hpost).
    destruct (strip_l_decompose l) as (w1 & w2 & Hl).
    exists (w1 ++ pre'), mid, (post' ++ w2). split; [|exact Hmid].
    rewrite Hl at 1. rewrite Hs, Hr. now rewrite <- !app_assoc.
  - intros (pre & mid & post & Hl & Hmid).
    destruct (strip_l_keeps pre mid post) as (pre' & post' & Hs).
    + intros ->. discriminate Hmid.
    + apply (lower_l_nonspace _ _ Hmid).
      repeat (apply Forall_cons; split; [reflexivity|]). apply Forall_nil_2.
    + rewrite Hl, Hs. exists (PyStr.lower_l pre'), (PyStr.lower_l post').
      now rewrite !lower_l_app, Hmid.
Qed.

(** C9. For every raw output of the classifier model, [classify_query]
    returns 'marketing' exactly when the output contains "marketing" with
    letter case ignored, and 'knowledge' for every other output. *)
Theorem classify_query_marketing_iff
  (s : SupervisorAgent.t) (w : SupervisorAgent.world) (query content : string) :
  SupervisorAgent.classifier_reply w = Py.Ok content ->
  ((SupervisorAgent.classify_query s w query).2 = Py.Ok "marketing"
   <-> Spec.occurs_ci "marketing" content) /\
  (~ Spec.occurs_ci "marketing" content ->
   (SupervisorAgent.classify_query s w query).2 = Py.Ok "knowledge").
Proof.
  intros Hw. unfold SupervisorAgent.classify_query. rewrite Hw. simpl.
  unfold SupervisorAgent.classify_content.
  rewrite <- contains_marketing_iff.
  destruct (PyStr.contains "marketing" (PyStr.lower (PyStr.strip content))).
  - split; [split; reflexivity | intros H; now destruct H].
  - split; [split; [discriminate|discriminate] | reflexivity].
Qed.

(* ===================================================================== *)
(** ** Facts about the canonical serialisation of filters *)
(* ===================================================================== *)

Lemma leb_trans (a b c : string) :
  String.leb a b = true -> String.leb b c = true -> String.leb a c = true.
Proof.
  intros H1 H2. apply Is_true_true.
  apply (@transitivity _ String.le _ a b c); now apply Is_true_true.
Qed.

Lemma leb_false_flip (a b : string) :
  String.leb a b = false -> String.leb b a = true.
Proof.
  intros H. destruct (String.leb_total a b) as [H'|H']; [congruence|exact H'].
Qed.

(** Insertions of two items with different keys commute. *)
Lemma insert_item_comm (a b : string * string) (l : list (string * string)) :
  a.1 <> b.1 ->
  Json.insert_item a (Json.insert_item b l) = Json.insert_item b (Json.insert_item a l).
Proof.
  intros Hab. induction l as [|x l IH]; simpl.
  - destruct (String.leb a.1 b.1) eqn:E1, (String.leb b.1 a.1) eqn:E2;
      try reflexivity.
    + destruct Hab. now apply String.leb_antisym.
    + apply leb_false_flip in E1. congruence.
  - destruct (String.leb b.1 x.1) eqn:Eb, (String.leb a.1 x.1) eqn:Ea; simpl;
      rewrite ?Ea, ?Eb.
    + destruct (String.leb a.1 b.1) eqn:E1, (String.leb b.1 a.1) eqn:E2;
        try reflexivity.
      * destruct Hab. now apply String.leb_antisym.
      * apply leb_false_flip in E1. congruence.
    + destruct (String.leb a.1 b.1) eqn:E1.
      * rewrite (leb_trans _ _ _ E1 Eb) in Ea. discriminate.
      * reflexivity.
    + destruct (String.leb b.1 a.1) eqn:E2.
      * rewrite (leb_trans _ _ _ E2 Ea) in Eb. discriminate.
      * reflexivity.
    + now rewrite IH.
Qed.

(** Sorting the items of a dict does not depend on the order in which the
    keys were inserted. *)
Lemma sort_items_perm (l1 l2 : list (string * string)) :
  Permutation l1 l2 -> NoDup (map fst l1) ->
  Json.sort_items l1 = Json.sort_items l2.
Proof.
  induction 1 as [|x l l' Hp IH|x y l|l l' l'' Hp1 IH1 Hp2 IH2]; intros Hnd.
  - reflexivity.
  - simpl. rewrite IH; [reflexivity|]. simpl in Hnd. now apply NoDup_cons in Hnd.
  - simpl. apply insert_item_comm. simpl in Hnd.
    apply NoDup_cons in Hnd as [Hy _]. intros E. apply Hy. rewrite E. now left.
  - rewrite IH1 by assumption. apply IH2.
    assert (Hm : map fst l ≡ₚ map fst l') by now apply Permutation_map.
    now rewrite <- Hm.
Qed.

Lemma keys_rendered (d : list (string * Json.json)) :
  map fst (map (fun kv : string * Json.json =>
                  let '(k, v) := kv in (k, Json.dumps v)) d)
  = map fst d.
Proof. rewrite map_map. apply map_ext. now intros [k v]. Qed.

(** The serialisation with sorted keys does not depend on the order of the
    keys of the dicts it meets, at any depth. *)
Lemma dumps_reordered :
  forall j1 j2, Spec.reordered j1 j2 -> Json.dumps j1 = Json.dumps j2.
Proof.
  fix IH 3. intros j1 j2 H. destruct H as [j|l1 l2 Hl|d1 d d2 Hnd Hd Hp].
  - reflexivity.
  - simpl. do 3 f_equal.
    induction Hl as [|x y l1 l2 Hxy _ IHl]; [reflexivity|].
    simpl. f_equal; [exact (IH _ _ Hxy) | exact IHl].
  - assert (Hmap :
      map (fun kv : string * Json.json => let '(k, v) := kv in (k, Json.dumps v)) d1
      = map (fun kv : string * Json.json => let '(k, v) := kv in (k, Json.dumps v)) d).
    { clear Hnd Hp.
      induction Hd as [|[k1 v1] [k2 v2] d1 d [Hk Hv] _ IHd]; [reflexivity|].
      simpl in Hk, Hv. simpl. f_equal; [|exact IHd].
      f_equal; [exact Hk | exact (IH _ _ Hv)]. }
    simpl. rewrite Hmap. do 4 f_equal.
    apply sort_items_perm; [now apply Permutation_map|].
    rewrite <- Hmap. now rewrite keys_rendered.
Qed.

Lemma reordered_dict_nil (d : list (string * Json.json)) :
  Spec.reordered (Json.JDict []) (Json.JDict d) -> d = [].
Proof.
  intros H. inversion H as [|?|d1 d0 d2 _ Hd Hp]; subst; [reflexivity|].
  apply Forall2_nil_inv_l in Hd. subst. now apply Permutation_nil.
Qed.

Lemma reordered_dict_nil_r (d : list (string * Json.json)) :
  Spec.reordered (Json.JDict d) (Json.JDict []) -> d = [].
Proof.
  intros H. inversion H as [|?|d1 d0 d2 _ Hd Hp]; subst; [reflexivity|].
  apply Permutation_sym, Permutation_nil in Hp. subst.
  now apply Forall2_nil_inv_r in Hd.
Qed.

(** Logically identical requests have the same fingerprint. *)
Lemma generate_key_same (q1 q2 agent_type : string)
  (f1 f2 : option (list (string * Json.json))) :
  Spec.same_modulo_space_case q1 q2 ->
  Spec.same_modulo_key_order f1 f2 ->
  ResponseCache._generate_key q1 agent_type f1
  = ResponseCache._generate_key q2 agent_type f2.
Proof.
  intros Hq Hf. unfold ResponseCache._generate_key.
  rewrite (normalise_same _ _ Hq).
  destruct f1 as [d1|], f2 as [d2|]; simpl in Hf; try contradiction;
    [|reflexivity].
  destruct d1 as [|x d1], d2 as [|y d2]; try reflexivity.
  - apply reordered_dict_nil in Hf. discriminate.
  - apply reordered_dict_nil_r in Hf. discriminate.
  - cbv beta zeta iota. now rewrite (dumps_reordered _ _ Hf).
Qed.

Lemma cache_get_after_set (c : ResponseCache.t) (t0 t1 : Z)
  (q1 q2 agent_type response : string) (f1 f2 : option (list (string * Json.json))) :
  ResponseCache._generate_key q1 agent_type f1
  = ResponseCache._generate_key q2 agent_type f2 ->
  (t1 - t0 <= ResponseCache.ttl c)%Z ->
  ResponseCache.get (ResponseCache.set c t0 q1 agent_type response f1)
                    t1 q2 agent_type f2
  = (ResponseCache.set c t0 q1 agent_type response f1, Some response).
Proof.
  intros Hk Ht. unfold ResponseCache.get, ResponseCache.set. simpl.
  rewrite <- Hk, lookup_insert_eq. unfold ResponseCache.expired. simpl.
  destruct (Z.ltb_spec (ResponseCache.ttl c) (t1 - t0)); [lia|reflexivity].
Qed.

(** C4. Queries that differ only in surrounding whitespace and letter case,
    with filter dicts that differ only in key order and the same agent-type
    tag, get the same fingerprint; a [get] issued within the TTL after one
    [set] of the logically identical request hits the entry written. *)
Theorem fingerprint_equal_hits_same_entry
  (c : ResponseCache.t) (t0 t1 : Z) (q1 q2 agent_type response : string)
  (f1 f2 : option (list (string * Json.json))) :
  Spec.same_modulo_space_case q1 q2 ->
  Spec.same_modulo_key_order f1 f2 ->
  (t1 - t0 <= ResponseCache.ttl c)%Z ->
  ResponseCache._generate_key q1 agent_type f1
  = ResponseCache._generate_key q2 agent_type f2 /\
  (ResponseCache.get (ResponseCache.set c t0 q1 agent_type response f1)
                     t1 q2 agent_type f2).2 = Some response.
Proof.
  intros Hq Hf Ht.
  pose proof (generate_key_same q1 q2 agent_type f1 f2 Hq Hf) as Hk.
  split; [exact Hk|]. now rewrite cache_get_after_set.
Qed.

(* ===================================================================== *)
(** ** The response cache *)
(* ===================================================================== *)

(** C5. A [get] that finds an entry older than the TTL reports a miss and
    removes the entry (from the dict and from the file); an entry within
    the TTL is returned, and the cache is left as it was. *)
Theorem get_ttl_expiry (c : ResponseCache.t) (now : Z) (query agent_type : string)
  (filters : option (list (string * Json.json))) (e : ResponseCache.entry) :
  ResponseCache.cache c !! ResponseCache._generate_key query agent_type filters
  = Some e ->
  let key := ResponseCache._generate_key query agent_type filters in
  let r := ResponseCache.get c now query agent_type filters in
  ((ResponseCache.ttl c < now - ResponseCache.timestamp e)%Z ->
   r.2 = None /\
   ResponseCache.cache r.1 = delete key (ResponseCache.cache c) /\
   ResponseCache.cache r.1 !! key = None /\
   ResponseCache.disk r.1 = ResponseCache.cache r.1) /\
  ((now - ResponseCache.timestamp e <= ResponseCache.ttl c)%Z ->
   r = (c, Some (ResponseCache.response e))).
Proof.
  intros He key r. subst key r. unfold ResponseCache.get. rewrite He.
  unfold ResponseCache.expired.
  destruct (Z.ltb_spec (ResponseCache.ttl c) (now - ResponseCache.timestamp e)).
  - split; [intros _ | lia]. simpl.
    repeat split. apply lookup_delete_eq.
  - split; [lia | reflexivity].
Qed.

Lemma get_ttl_expiry_witness :
  (ResponseCache.get Fixture.cache_1h_loan (61 * Fixture.minute)
                     "loan eligibility" "knowledge" None).2 = None /\
  ResponseCache.get Fixture.cache_1h_loan (59 * Fixture.minute)
                    "loan eligibility" "knowledge" None
  = (Fixture.cache_1h_loan, Some "Age 23-60.").
Proof.
  assert (H : ResponseCache.cache Fixture.cache_1h_loan
              !! ResponseCache._generate_key "loan eligibility" "knowledge" None
              = Some Fixture.loan_entry) by (vm_compute; reflexivity).
  split.
  - apply (get_ttl_expiry _ (61 * Fixture.minute) _ _ _ _ H). vm_compute. reflexivity.
  - apply (get_ttl_expiry _ (59 * Fixture.minute) _ _ _ _ H). vm_compute. discriminate.
Defined.

Lemma cache_get_hit_unchanged (c c' : ResponseCache.t) (now : Z)
  (query agent_type response : string) (filters : option (list (string * Json.json))) :
  ResponseCache.get c now query agent_type filters = (c', Some response) -> c' = c.
Proof.
  unfold ResponseCache.get.
  destruct (ResponseCache.cache c !! _) as [e|]; [|congruence].
  destruct (ResponseCache.expired c now e); congruence.
Qed.

(** No quantity computed from the statistics can be a counter that every
    genuine hit increments. *)
Lemma no_hit_counter_in_stats :
  ~ (exists total_hits : ResponseCache.stats -> nat,
        forall c now query agent_type filters c' response,
          ResponseCache.get c now query agent_type filters = (c', Some response) ->
          total_hits (ResponseCache.get_stats c')
          = S (total_hits (ResponseCache.get_stats c))).
Proof.
  intros [total_hits H].
  specialize (H Fixture.cache_1h_loan (59 * Fixture.minute)%Z
                "loan eligibility" "knowledge" None
                Fixture.cache_1h_loan "Age 23-60.").
  assert (E : ResponseCache.get Fixture.cache_1h_loan (59 * Fixture.minute)
                                "loan eligibility" "knowledge" None
              = (Fixture.cache_1h_loan, Some "Age 23-60."))
    by (vm_compute; reflexivity).
  specialize (H E). lia.
Qed.

(** What [get] does to the statistics: a genuine hit returns the stored
    response and leaves the cache and its statistics unchanged; a [get] that
    removes an expired entry lowers [total_entries] by one. The statistics
    depend on the entries held and on the TTL only. *)
Lemma cache_stats_from_entries (c : ResponseCache.t) (now : Z)
  (query agent_type : string) (filters : option (list (string * Json.json)))
  (e : ResponseCache.entry) :
  ResponseCache.cache c !! ResponseCache._generate_key query agent_type filters
  = Some e ->
  let r := ResponseCache.get c now query agent_type filters in
  (ResponseCache.expired c now e = false ->
   r.2 = Some (ResponseCache.response e) /\ r.1 = c /\
   ResponseCache.get_stats r.1 = ResponseCache.get_stats c) /\
  (ResponseCache.expired c now e = true ->
   r.2 = None /\
   S (ResponseCache.total_entries (ResponseCache.get_stats r.1))
   = ResponseCache.total_entries (ResponseCache.get_stats c)) /\
  (forall c', ResponseCache.cache c' = ResponseCache.cache r.1 ->
              ResponseCache.ttl c' = ResponseCache.ttl r.1 ->
              ResponseCache.get_stats c' = ResponseCache.get_stats r.1).
Proof.
  intros He r. subst r. unfold ResponseCache.get. rewrite He.
  destruct (ResponseCache.expired c now e); simpl.
  - split; [discriminate|]. split.
    + intros _. split; [reflexivity|].
      rewrite map_size_delete, He. simpl.
      assert (size (ResponseCache.cache c) <> 0%nat)
        by (apply (map_size_ne_0_lookup_2 _ _ (mk_is_Some _ _ He))).
      lia.
    + intros c' Hc Ht. unfold ResponseCache.get_stats. now rewrite Hc, Ht.
  - split; [auto|]. split; [discriminate|].
    intros c' Hc Ht. unfold ResponseCache.get_stats. now rewrite Hc, Ht.
Qed.

Lemma cache_stats_from_entries_witness :
  ResponseCache.get_stats
    (ResponseCache.get Fixture.cache_1h_loan (59 * Fixture.minute)
                       "loan eligibility" "knowledge" None).1
  = ResponseCache.get_stats Fixture.cache_1h_loan /\
  S (ResponseCache.total_entries
       (ResponseCache.get_stats
          (ResponseCache.get Fixture.cache_1h_loan (61 * Fixture.minute)
                             "loan eligibility" "knowledge" None).1))
  = ResponseCache.total_entries (ResponseCache.get_stats Fixture.cache_1h_loan).
Proof.
  assert (H : ResponseCache.cache Fixture.cache_1h_loan
              !! ResponseCache._generate_key "loan eligibility" "knowledge" None
              = Some Fixture.loan_entry) by (vm_compute; reflexivity).
  destruct (cache_stats_from_entries _ (59 * Fixture.minute) _ _ _ _ H)
    as (Hhit & _ & _).
  destruct (cache_stats_from_entries _ (61 * Fixture.minute) _ _ _ _ H)
    as (_ & Hexpired & _).
  split.
  - apply Hhit. vm_compute. reflexivity.
  - apply Hexpired. vm_compute. reflexivity.
Defined.

(** C3, on the code. A cache with a TTL of one hour holds the answer
    written for "Loan Eligibility " at time 0. At minute 59 the [get] for
    "loan eligibility" is a genuine hit and the [get] for another query is a
    miss. The dict of [get_stats] has the keys 'total_entries', 'by_agent'
    and 'ttl_hours' and none of 'hit_rate', 'miss_rate', 'total_hits' and
    'total_misses', which the dashboard documents and reads from it; and it
    is the same dict before the hit, after the hit and after the miss, so
    neither is counted anywhere. *)
Theorem cache_hit_not_counted :
  let c := Fixture.cache_1h_loan in
  let hit := ResponseCache.get c (59 * Fixture.minute)
                               "loan eligibility" "knowledge" None in
  let miss := ResponseCache.get hit.1 (59 * Fixture.minute)
                                "home loan rates" "knowledge" None in
  hit.2 = Some "Age 23-60." /\
  miss.2 = None /\
  ResponseCache.get_stats c
  = ResponseCache.mkStats 1 {[ "knowledge" := 1%nat ]} 1%float /\
  ResponseCache.get_stats hit.1 = ResponseCache.get_stats c /\
  ResponseCache.get_stats miss.1 = ResponseCache.get_stats c /\
  (forall key,
      ResponseCache.stats_get (ResponseCache.get_stats hit.1) key <> None <->
      key = "total_entries" \/ key = "by_agent" \/ key = "ttl_hours") /\
  ResponseCache.stats_get (ResponseCache.get_stats hit.1) "hit_rate" = None /\
  ResponseCache.stats_get (ResponseCache.get_stats hit.1) "miss_rate" = None /\
  ResponseCache.stats_get (ResponseCache.get_stats hit.1) "total_hits" = None /\
  ResponseCache.stats_get (ResponseCache.get_stats hit.1) "total_misses" = None.
Proof.
  cbv zeta.
  assert (Hhit : ResponseCache.get Fixture.cache_1h_loan (59 * Fixture.minute)
                                   "loan eligibility" "knowledge" None
                 = (Fixture.cache_1h_loan, Some "Age 23-60."))
    by (vm_compute; reflexivity).
  assert (Hmiss : ResponseCache.get Fixture.cache_1h_loan (59 * Fixture.minute)
                                    "home loan rates" "knowledge" None
                  = (Fixture.cache_1h_loan, None))
    by (vm_compute; reflexivity).
  rewrite Hhit. cbn [fst snd]. rewrite Hmiss. cbn [fst snd].
  repeat split; try reflexivity.
  - unfold ResponseCache.stats_get. intros H.
    destruct (String.eqb_spec key "total_entries"); [now left|].
    destruct (String.eqb_spec key "by_agent"); [now right; left|].
    destruct (String.eqb_spec key "ttl_hours"); [now right; right|].
    now contradiction H.
  - intros [-> | [-> | ->]]; discriminate.
Qed.

(* ===================================================================== *)
(** ** The conversation memory *)
(* ===================================================================== *)

Lemma most_recent_all {A : Type} (n : nat) (l : list A) :
  (length l <= n)%nat -> Spec.most_recent n l = l.
Proof.
  intros H. unfold Spec.most_recent.
  replace (length l - n)%nat with 0%nat by lia. reflexivity.
Qed.

Lemma most_recent_length {A : Type} (n : nat) (l : list A) :
  length (Spec.most_recent n l) = Nat.min n (length l).
Proof. unfold Spec.most_recent. rewrite length_drop. lia. Qed.

(** The window over a window extended by one element is the window over
    the whole list extended by that element. *)
Lemma most_recent_snoc {A : Type} (n : nat) (l : list A) (x : A) :
  (1 <= n)%nat ->
  Spec.most_recent n (Spec.most_recent n l ++ [x]) = Spec.most_recent n (l ++ [x]).
Proof.
  intros Hn. destruct (Nat.le_gt_cases (length l) n) as [Hle|Hgt].
  - now rewrite (most_recent_all n l).
  - unfold Spec.most_recent at 1 3.
    rewrite !length_app, most_recent_length. simpl.
    replace (Nat.min n (length l) + 1 - n)%nat with 1%nat by lia.
    unfold Spec.most_recent.
    rewrite !drop_app_le by (rewrite ?length_drop; lia).
    rewrite drop_drop. do 2 f_equal. lia.
Qed.

Lemma most_recent_app {A : Type} (n : nat) (h l : list A) :
  (n <= length l)%nat -> Spec.most_recent n (h ++ l) = Spec.most_recent n l.
Proof.
  intros H. unfold Spec.most_recent. rewrite length_app.
  replace (length h + length l - n)%nat with (length h + (length l - n))%nat by lia.
  now rewrite drop_app_add.
Qed.

(** The trimming step of [add_exchange] keeps the most recent
    [max_history] exchanges when the bound is positive. *)
Lemma trim_most_recent {A : Type} (M : Z) (l : list A) :
  (0 < M)%Z ->
  (if (M <? Z.of_nat (length l))%Z then Py.slice_from (- M) l else l)
  = Spec.most_recent (Z.to_nat M) l.
Proof.
  intros HM. destruct (Z.ltb_spec M (Z.of_nat (length l))).
  - unfold Py.slice_from, Spec.most_recent.
    destruct (Z.ltb_spec (- M) 0); [|lia]. f_equal. lia.
  - rewrite most_recent_all by lia. reflexivity.
Qed.

(** Saving a session changes nothing in memory, whether it succeeds or
    not. *)
Lemma save_session_in_memory (m : ConversationMemory.t) (session_id : string) :
  ConversationMemory.max_history (ConversationMemory._save_session m session_id).1
  = ConversationMemory.max_history m /\
  ConversationMemory.sessions (ConversationMemory._save_session m session_id).1
  = ConversationMemory.sessions m /\
  ConversationMemory.locate (ConversationMemory._save_session m session_id).1
  = ConversationMemory.locate m.
Proof.
  unfold ConversationMemory._save_session.
  now destruct (ConversationMemory.locate m session_id).
Qed.

Lemma add_exchange_sessions (m : ConversationMemory.t) (now : Z)
  (session_id user_query agent_response agent_type : string)
  (metadata : option (list (string * Py.pyval))) :
  ConversationMemory.sessions
    (ConversationMemory.add_exchange m now session_id user_query agent_response
                                     agent_type metadata).1
  = ConversationMemory.sessions
      (ConversationMemory.add_to_history m now session_id user_query
                                         agent_response agent_type metadata).
Proof. unfold ConversationMemory.add_exchange. apply save_session_in_memory. Qed.

(** One call leaves the other sessions alone and, in its own session,
    appends the exchange and keeps the window. *)
Lemma add_exchange_call_sessions (m : ConversationMemory.t) (c : Spec.exchange_call)
  (session_id : string) :
  (0 < ConversationMemory.max_history m)%Z ->
  ConversationMemory.max_history (Spec.add_exchange_call m c)
  = ConversationMemory.max_history m /\
  ConversationMemory.sessions (Spec.add_exchange_call m c) !! session_id
  = if decide (Spec.in_session c = session_id)
    then Some (Spec.most_recent
                 (Z.to_nat (ConversationMemory.max_history m))
                 (default [] (ConversationMemory.sessions m !! session_id)
                    ++ [Spec.exchange_of c]))
    else ConversationMemory.sessions m !! session_id.
Proof.
  intros HM. unfold Spec.add_exchange_call, ConversationMemory.add_exchange.
  destruct (save_session_in_memory
              (ConversationMemory.add_to_history
                 m (Spec.at_time c) (Spec.in_session c) (Spec.user_query c)
                 (Spec.agent_response c) (Spec.agent_tag c) (Spec.call_metadata c))
              (Spec.in_session c)) as (-> & -> & _).
  unfold ConversationMemory.add_to_history.
  cbn [ConversationMemory.max_history ConversationMemory.sessions].
  split; [reflexivity|]. destruct (decide _) as [->|Hne].
  - rewrite lookup_insert_eq. f_equal. now apply trim_most_recent.
  - now rewrite lookup_insert_ne.
Qed.

(** After a sequence of calls a session holds what it held before when none
    of the calls was for it, and otherwise the window over what it held
    before followed by the exchanges appended to it. *)
Lemma add_exchanges_sessions (m : ConversationMemory.t) (session_id : string)
  (calls : list Spec.exchange_call) :
  (0 < ConversationMemory.max_history m)%Z ->
  ConversationMemory.max_history (Spec.add_exchanges m calls)
  = ConversationMemory.max_history m /\
  ConversationMemory.sessions (Spec.add_exchanges m calls) !! session_id
  = match Spec.calls_for session_id calls with
    | [] => ConversationMemory.sessions m !! session_id
    | cs => Some (Spec.most_recent
                    (Z.to_nat (ConversationMemory.max_history m))
                    (default [] (ConversationMemory.sessions m !! session_id)
                       ++ map Spec.exchange_of cs))
    end.
Proof.
  intros HM. induction calls as [|c calls [IHM IHs]] using rev_ind; [now split|].
  unfold Spec.add_exchanges in *. rewrite fold_left_app. cbn [fold_left].
  set (m1 := fold_left Spec.add_exchange_call calls m) in *.
  destruct (add_exchange_call_sessions m1 c session_id) as [HM1 Hs1]; [lia|].
  split; [congruence|]. rewrite Hs1, IHs, IHM.
  unfold Spec.calls_for. rewrite filter_app, filter_cons, filter_nil.
  destruct (decide (Spec.in_session c = session_id)) as [Hc|Hc].
  - destruct (filter _ calls) as [|c0 cs]; [reflexivity|].
    cbn [app from_option id]. f_equal.
    rewrite most_recent_snoc by lia.
    change (c0 :: cs ++ [c]) with ((c0 :: cs) ++ [c]).
    now rewrite map_app, app_assoc.
  - now rewrite app_nil_r.
Qed.

(** C6. For every session, once more than [max_history] exchanges have been
    added to it (whatever was added to other sessions in between),
    [get_history] returns exactly the most recent [max_history] of them, in
    the order in which they were appended. *)
Theorem sliding_window_keeps_most_recent (m : ConversationMemory.t)
  (session_id : string) (calls : list Spec.exchange_call) :
  (0 < ConversationMemory.max_history m)%Z ->
  (ConversationMemory.max_history m
   < Z.of_nat (length (Spec.calls_for session_id calls)))%Z ->
  ConversationMemory.get_history (Spec.add_exchanges m calls) session_id None
  = Spec.most_recent (Z.to_nat (ConversationMemory.max_history m))
                     (map Spec.exchange_of (Spec.calls_for session_id calls)).
Proof.
  intros HM Hlen.
  destruct (add_exchanges_sessions m session_id calls HM) as [_ Hs].
  unfold ConversationMemory.get_history. rewrite Hs.
  destruct (Spec.calls_for session_id calls) as [|c cs] eqn:E.
  - simpl in Hlen. lia.
  - apply most_recent_app. rewrite length_map. lia.
Qed.

Lemma sliding_window_keeps_most_recent_witness :
  ConversationMemory.get_history
    (Spec.add_exchanges FixtureMemory.memory_3 FixtureMemory.six_calls) "s1" None
  = map Spec.exchange_of
        [FixtureMemory.call "s1" 4 "q3"; FixtureMemory.call "s1" 5 "q4";
         FixtureMemory.call "s1" 6 "q5"].
Proof.
  apply (sliding_window_keeps_most_recent
           FixtureMemory.memory_3 "s1" FixtureMemory.six_calls);
    vm_compute; reflexivity.
Defined.

(** With a bound of zero the slice [history[-0:]] is the whole list, so
    nothing is ever dropped. *)
Remark add_exchange_zero_bound (m : ConversationMemory.t) (c : Spec.exchange_call) :
  ConversationMemory.max_history m = 0%Z ->
  ConversationMemory.sessions (Spec.add_exchange_call m c) !! Spec.in_session c
  = Some (default [] (ConversationMemory.sessions m !! Spec.in_session c)
            ++ [Spec.exchange_of c]).
Proof.
  intros HM. unfold Spec.add_exchange_call. rewrite add_exchange_sessions.
  unfold ConversationMemory.add_to_history.
  simpl. rewrite lookup_insert_eq, HM. f_equal.
  destruct (_ <? _)%Z; reflexivity.
Qed.

(* ===================================================================== *)
(** ** Numbers *)
(* ===================================================================== *)

(** The [int] constants that the sources mix into float arithmetic. *)
Lemma float_of_int_consts :
  Py.float_of_int 1 = 1%float /\ Py.float_of_int 2 = 2%float /\
  Py.float_of_int 100 = 100%float /\ Py.float_of_int 3600 = 3600%float.
Proof. vm_compute. repeat split. Qed.

(* ===================================================================== *)
(** ** The performance monitor *)
(* ===================================================================== *)

Lemma avg_time_of_mean (ms : list PerformanceMonitor.log_entry) :
  PerformanceMonitor.avg_time_of ms
  = Spec.mean_time (map PerformanceMonitor.response_time_seconds ms).
Proof.
  unfold PerformanceMonitor.avg_time_of, Spec.mean_time. now rewrite length_map.
Qed.

Lemma slice_last_ten {A : Type} (l : list A) :
  Py.slice_from (-10) l = Spec.most_recent 10 l.
Proof. unfold Py.slice_from, Spec.most_recent. simpl. f_equal. lia. Qed.

Lemma in_check_metric (t : float) (e : PerformanceMonitor.log_entry)
  (a : list (string * Py.pyval)) :
  In a (PerformanceMonitor.check_metric t e) <->
  (PrimFloat.ltb t (PerformanceMonitor.response_time_seconds e) = true
   /\ a = PerformanceMonitor.slow_anomaly t e)
  \/ (PerformanceMonitor.success e = false
      /\ a = PerformanceMonitor.error_anomaly e).
Proof.
  unfold PerformanceMonitor.check_metric. rewrite in_app_iff.
  destruct (PrimFloat.ltb t _), (PerformanceMonitor.success e); simpl;
    intuition congruence.
Qed.

Lemma length_check_metrics (t : float) (l : list PerformanceMonitor.log_entry) :
  length (flat_map (PerformanceMonitor.check_metric t) l)
  = (length (List.filter
               (fun e => PrimFloat.ltb t (PerformanceMonitor.response_time_seconds e))
               l)
     + length (List.filter (fun e => negb (PerformanceMonitor.success e)) l))%nat.
Proof.
  induction l as [|e l IH]; [reflexivity|].
  cbn [flat_map List.filter]. rewrite length_app, IH.
  unfold PerformanceMonitor.check_metric.
  destruct (PrimFloat.ltb t _), (PerformanceMonitor.success e); simpl; lia.
Qed.

(** C8. With fewer than 5 logged entries [detect_anomalies] returns the
    empty list whatever the response times. Otherwise it looks at the last
    10 entries only. It reports each of them whose response time exceeds
    twice the mean response time of the whole log as a dict of type
    [slow_query] (with the first 50 characters of the query, the time and
    the threshold rounded to 2 decimals), each of them with
    [success = false] as a dict of type [error] (with the first 50
    characters of the query and the error text), and nothing else. The mean,
    its double and the comparison are those of binary64 arithmetic, in which
    the program computes them. *)
Theorem detect_anomalies_spec (m : PerformanceMonitor.t) :
  let log := PerformanceMonitor.metrics m in
  let window := Spec.most_recent 10 log in
  let mean := Spec.mean_time (map PerformanceMonitor.response_time_seconds log) in
  let threshold := PrimFloat.mul mean 2%float in
  ((length log < 5)%nat -> PerformanceMonitor.detect_anomalies m = []) /\
  ((5 <= length log)%nat ->
   (forall a,
       In a (PerformanceMonitor.detect_anomalies m) <->
       exists e, In e window /\
         ((PrimFloat.ltb threshold (PerformanceMonitor.response_time_seconds e) = true
           /\ a = [("type", Py.VStr "slow_query");
                   ("query", Py.VStr (PyStr.prefix 50 (PerformanceMonitor.query e)));
                   ("time", Py.VFloat (PerformanceMonitor.response_time_seconds e));
                   ("threshold", Py.VFloat (Py.round threshold 2))])
          \/ (PerformanceMonitor.success e = false
              /\ a = [("type", Py.VStr "error");
                      ("query", Py.VStr (PyStr.prefix 50 (PerformanceMonitor.query e)));
                      ("error", match PerformanceMonitor.error e with
                                | Some msg => Py.VStr msg
                                | None => Py.VNone
                                end)]))) /\
   length (PerformanceMonitor.detect_anomalies m)
   = (length (List.filter
                (fun e => PrimFloat.ltb threshold
                                        (PerformanceMonitor.response_time_seconds e))
                window)
      + length (List.filter (fun e => negb (PerformanceMonitor.success e)) window))%nat).
Proof.
  intros log window mean threshold.
  unfold PerformanceMonitor.detect_anomalies. fold log.
  split.
  - intros H. destruct (Nat.ltb_spec (length log) 5); [reflexivity|lia].
  - intros H. destruct (Nat.ltb_spec (length log) 5); [lia|].
    rewrite slice_last_ten. fold window.
    rewrite avg_time_of_mean. fold mean.
    destruct float_of_int_consts as (_ & -> & _). fold threshold.
    split.
    + intros a. rewrite in_flat_map. split.
      * intros (e & He & Ha). exists e. split; [exact He|].
        now apply in_check_metric.
      * intros (e & He & Ha). exists e. split; [exact He|].
        now apply in_check_metric.
    + apply length_check_metrics.
Qed.

Lemma detect_anomalies_spec_witness :
  PerformanceMonitor.detect_anomalies FixtureMonitor.four_entries = [] /\
  length (PerformanceMonitor.detect_anomalies FixtureMonitor.five_entries) = 2%nat /\
  In [("type", Py.VStr "slow_query");
      ("query", Py.VStr "What is home loan eligibility?");
      ("time", Py.VFloat 0.6%float);
      ("threshold", Py.VFloat 0.6%float)]
     (PerformanceMonitor.detect_anomalies FixtureMonitor.near_threshold).
Proof.
  split; [|split].
  - apply (detect_anomalies_spec FixtureMonitor.four_entries). vm_compute. lia.
  - destruct (detect_anomalies_spec FixtureMonitor.five_entries) as [_ H].
    destruct H as [_ Hlen]; [vm_compute; lia|].
    rewrite Hlen. vm_compute. reflexivity.
  - destruct (detect_anomalies_spec FixtureMonitor.near_threshold) as [_ H].
    destruct H as [Hin _]; [vm_compute; lia|].
    apply Hin.
    exists (PerformanceMonitor.mkLog 0 "s1" "What is home loan eligibility?"
                                     "knowledge" 10 0.6%float true None []).
    split.
    + vm_compute. tauto.
    + left. split; vm_compute; reflexivity.
Defined.

(** In binary64 the times 0.1, 0.1, 0.5, 0.6 and 0.2 have the mean
    0.29999999999999993 and the threshold 0.5999999999999999, which the
    entry of 0.6 seconds exceeds: it is the one anomaly reported, with the
    threshold shown rounded to 0.6. *)
Example detect_anomalies_near_threshold :
  PerformanceMonitor.detect_anomalies FixtureMonitor.near_threshold
  = [[("type", Py.VStr "slow_query");
      ("query", Py.VStr "What is home loan eligibility?");
      ("time", Py.VFloat 0.6%float);
      ("threshold", Py.VFloat 0.6%float)]].
Proof. vm_compute. reflexivity. Qed.

(* ===================================================================== *)
(** ** The supervising dispatcher *)
(* ===================================================================== *)

Lemma same_monitor_refl (s : SupervisorAgent.t) : Spec.same_monitor s s.
Proof. now split. Qed.

Lemma same_monitor_trans (s1 s2 s3 : SupervisorAgent.t) :
  Spec.same_monitor s1 s2 -> Spec.same_monitor s2 s3 -> Spec.same_monitor s1 s3.
Proof. intros [H1 H2] [H3 H4]. split; congruence. Qed.

Lemma check_cache_frame (s : SupervisorAgent.t) (w : SupervisorAgent.world)
  (query : string) :
  Spec.same_monitor s (SupervisorAgent.check_cache s w query).1.
Proof.
  unfold SupervisorAgent.check_cache.
  destruct (SupervisorAgent.enable_cache s); [|apply same_monitor_refl].
  destruct (ResponseCache.get _ _ _ _ _). now split.
Qed.

Lemma classify_query_frame (s : SupervisorAgent.t) (w : SupervisorAgent.world)
  (query : string) :
  Spec.same_monitor s (SupervisorAgent.classify_query s w query).1.
Proof.
  unfold SupervisorAgent.classify_query.
  destruct (SupervisorAgent.classifier_reply w); now split.
Qed.

Lemma invoke_responder_frame (s : SupervisorAgent.t) (w : SupervisorAgent.world)
  (query agent_type : string) (n_results : Z)
  (filters : option (list (string * Json.json))) :
  Spec.same_monitor
    s (SupervisorAgent.invoke_responder s w query agent_type n_results filters).1.
Proof.
  unfold SupervisorAgent.invoke_responder.
  destruct (String.eqb agent_type "marketing").
  - destruct (SupervisorAgent.marketing_reply w); now split.
  - destruct (SupervisorAgent.knowledge_reply w); now split.
Qed.

(** [store_and_return] in one piece: the state after the cache write, and
    on top of it what [memory.add_exchange] leaves and returns. *)
Lemma store_and_return_eq (s : SupervisorAgent.t) (w : SupervisorAgent.world)
  (query session_id agent_type response : string)
  (result : list (string * Py.pyval)) :
  let s1 := if SupervisorAgent.enable_cache s
            then SupervisorAgent.with_cache
                   s (ResponseCache.set (SupervisorAgent.cache s)
                                        (SupervisorAgent.now_set w) query
                                        agent_type response None)
            else s in
  let saved := ConversationMemory.add_exchange
                 (SupervisorAgent.memory s) (SupervisorAgent.now_mem w)
                 session_id query response agent_type None in
  SupervisorAgent.store_and_return s w query session_id agent_type response result
  = if SupervisorAgent.enable_memory s
    then (SupervisorAgent.with_memory s1 saved.1, result,
          match saved.2 with
          | Py.Ok _ => Py.Ok result
          | Py.Raise e => Py.Raise e
          end)
    else (s1, result, Py.Ok result).
Proof.
  unfold SupervisorAgent.store_and_return.
  destruct (SupervisorAgent.enable_cache s); cbn;
    destruct (SupervisorAgent.enable_memory s); cbn; try reflexivity;
    destruct (ConversationMemory.add_exchange _ _ _ _ _ _ _) as [m [u|e]];
    reflexivity.
Qed.

Lemma store_and_return_frame (s : SupervisorAgent.t) (w : SupervisorAgent.world)
  (query session_id agent_type response : string)
  (result : list (string * Py.pyval)) :
  Spec.same_monitor
    s (SupervisorAgent.store_and_return s w query session_id agent_type
                                        response result).1.1.
Proof.
  unfold SupervisorAgent.store_and_return.
  destruct (SupervisorAgent.enable_cache s); cbn;
    destruct (SupervisorAgent.enable_memory s); cbn; try (now split);
    destruct (ConversationMemory.add_exchange _ _ _ _ _ _ _) as [m [u|e]];
    now split.
Qed.

(** The [try] block never touches the monitor or its switch. *)
Lemma route_try_frame (s : SupervisorAgent.t) (w : SupervisorAgent.world)
  (query session_id : string) (n_results : Z)
  (filters : option (list (string * Json.json))) :
  Spec.same_monitor
    s (SupervisorAgent.route_try s w query session_id n_results filters).1.1.
Proof.
  unfold SupervisorAgent.route_try.
  pose proof (check_cache_frame s w query) as H0.
  destruct (SupervisorAgent.check_cache s w query) as [s0 cached]. simpl in H0.
  assert (Hrest :
    Spec.same_monitor s
      (match SupervisorAgent.classify_query s0 w query with
       | (s1, Py.Raise e) => (s1, [], Py.Raise e)
       | (s1, Py.Ok agent_type) =>
           match SupervisorAgent.invoke_responder s1 w query agent_type
                                                  n_results filters with
           | (s2, Py.Raise e) => (s2, [], Py.Raise e)
           | (s2, Py.Ok (response, result)) =>
               SupervisorAgent.store_and_return s2 w query session_id agent_type
                                                response result
           end
       end).1.1).
  { pose proof (classify_query_frame s0 w query) as H1.
    destruct (SupervisorAgent.classify_query s0 w query) as [s1 [agent_type|e]];
      simpl in H1; [|exact (same_monitor_trans _ _ _ H0 H1)].
    pose proof (invoke_responder_frame s1 w query agent_type n_results filters) as H2.
    destruct (SupervisorAgent.invoke_responder _ _ _ _ _ _)
      as [s2 [[response result]|e]]; simpl in H2.
    - eapply same_monitor_trans; [|apply store_and_return_frame].
      exact (same_monitor_trans _ _ _ (same_monitor_trans _ _ _ H0 H1) H2).
    - exact (same_monitor_trans _ _ _ (same_monitor_trans _ _ _ H0 H1) H2). }
  destruct cached as [[|c r]|]; [exact Hrest | exact H0 | exact Hrest].
Qed.

(** Every dispatch appends exactly one entry to the monitor's log when
    monitoring is enabled, with [success] false exactly when the dispatch
    raises, and leaves the switch on. *)
Lemma route_query_logs (s : SupervisorAgent.t) (w : SupervisorAgent.world)
  (query session_id : string) (n_results : Z)
  (filters : option (list (string * Json.json))) :
  SupervisorAgent.enable_monitoring s = true ->
  let r := SupervisorAgent.route_query s w query session_id n_results filters in
  SupervisorAgent.enable_monitoring r.1 = true /\
  exists e,
    PerformanceMonitor.metrics (SupervisorAgent.monitor r.1)
    = PerformanceMonitor.metrics (SupervisorAgent.monitor s) ++ [e] /\
    Spec.logged_as e r.2 /\
    PerformanceMonitor.query e = query /\
    PerformanceMonitor.session_id e = session_id /\
    PerformanceMonitor.error e
    = match r.2 with Py.Raise msg => Some msg | Py.Ok _ => None end.
Proof.
  intros Hmon r. subst r. unfold SupervisorAgent.route_query.
  destruct (route_try_frame s w query session_id n_results filters) as [Hm He].
  destruct (SupervisorAgent.route_try s w query session_id n_results filters)
    as [[s' result] out]. simpl in Hm, He.
  assert (He' : SupervisorAgent.enable_monitoring s' = true) by congruence.
  destruct out as [res|msg]; rewrite He'; simpl; rewrite Hm;
    (split; [exact He'|]); eexists; (split; [reflexivity|]); now repeat split.
Qed.

Lemma dispatch_all_cons (s : SupervisorAgent.t) (r : SupervisorAgent.request)
  (rs : list SupervisorAgent.request) :
  SupervisorAgent.dispatch_all s (r :: rs)
  = SupervisorAgent.dispatch_all (SupervisorAgent.dispatch s r).1 rs.
Proof. reflexivity. Qed.

Lemma outcomes_cons (s : SupervisorAgent.t) (r : SupervisorAgent.request)
  (rs : list SupervisorAgent.request) :
  SupervisorAgent.outcomes s (r :: rs)
  = (SupervisorAgent.dispatch s r).2
      :: SupervisorAgent.outcomes (SupervisorAgent.dispatch s r).1 rs.
Proof. simpl. now destruct (SupervisorAgent.dispatch s r). Qed.

(** The log grows by one entry per dispatch, in order, each entry agreeing
    with the outcome of its dispatch. *)
Lemma dispatch_all_logs (rs : list SupervisorAgent.request) (s : SupervisorAgent.t) :
  SupervisorAgent.enable_monitoring s = true ->
  exists entries,
    PerformanceMonitor.metrics
      (SupervisorAgent.monitor (SupervisorAgent.dispatch_all s rs))
    = PerformanceMonitor.metrics (SupervisorAgent.monitor s) ++ entries /\
    Forall2 Spec.logged_as entries (SupervisorAgent.outcomes s rs).
Proof.
  revert s. induction rs as [|r rs IH]; intros s Hmon.
  - exists []. split; [now rewrite app_nil_r | constructor].
  - rewrite dispatch_all_cons, outcomes_cons.
    destruct (route_query_logs s (SupervisorAgent.r_world r)
                (SupervisorAgent.r_query r) (SupervisorAgent.r_session r)
                (SupervisorAgent.r_n_results r) (SupervisorAgent.r_filters r) Hmon)
      as (Hmon' & e & He & Hlog & _).
    fold (SupervisorAgent.dispatch s r) in *.
    destruct (IH _ Hmon') as (entries & Hentries & Hall).
    exists (e :: entries). split.
    + rewrite Hentries, He. now rewrite <- app_assoc.
    + now constructor.
Qed.

Lemma logged_as_counts {A : Type} (entries : list PerformanceMonitor.log_entry)
  (outs : list (Py.outcome A)) :
  Forall2 Spec.logged_as entries outs ->
  length entries = length outs /\
  (length (filter (fun e => PerformanceMonitor.success e = true) entries)
   + length (List.filter SupervisorAgent.raised outs))%nat = length outs.
Proof.
  induction 1 as [|e o entries outs Heo _ [IHlen IHcount]]; [now split|].
  split; [simpl; congruence|].
  unfold Spec.logged_as in Heo. rewrite filter_cons. simpl.
  destruct o as [a|msg]; simpl in *; rewrite Heo.
  - rewrite decide_True by reflexivity. simpl. lia.
  - rewrite decide_False by discriminate. simpl. lia.
Qed.

(** C2. With the monitor enabled and its log empty at the start, after any
    sequence of N >= 1 dispatches of which M raise, the log holds one entry
    per dispatch (in order, failed exactly when the dispatch raised), and
    [get_stats] reports [total_queries = N] and [error_count = M]. *)
Theorem monitor_sees_every_dispatch (s : SupervisorAgent.t)
  (rs : list SupervisorAgent.request) :
  SupervisorAgent.enable_monitoring s = true ->
  PerformanceMonitor.metrics (SupervisorAgent.monitor s) = [] ->
  rs <> [] ->
  let s' := SupervisorAgent.dispatch_all s rs in
  let outs := SupervisorAgent.outcomes s rs in
  let N := Z.of_nat (length rs) in
  let M := Z.of_nat (length (List.filter SupervisorAgent.raised outs)) in
  Forall2 Spec.logged_as (PerformanceMonitor.metrics (SupervisorAgent.monitor s')) outs /\
  length outs = length rs /\
  Py.dict_get "total_queries" (PerformanceMonitor.get_stats (SupervisorAgent.monitor s'))
  = Some (Py.VInt N) /\
  Py.dict_get "error_count" (PerformanceMonitor.get_stats (SupervisorAgent.monitor s'))
  = Some (Py.VInt M).
Proof.
  intros Hmon Hempty Hne s' outs N M. subst s' outs N M.
  destruct (dispatch_all_logs rs s Hmon) as (entries & Hentries & Hall).
  rewrite Hempty in Hentries. simpl in Hentries.
  destruct (logged_as_counts _ _ Hall) as [Hlen Hcount].
  assert (Houts : length (SupervisorAgent.outcomes s rs) = length rs).
  { clear. revert s. induction rs as [|r rs IH]; intros s; [reflexivity|].
    rewrite outcomes_cons. simpl. now rewrite IH. }
  rewrite <- Hentries in Hall. split; [exact Hall|]. split; [exact Houts|].
  unfold PerformanceMonitor.get_stats. rewrite Hentries.
  destruct entries as [|e entries].
  - destruct rs; [congruence|]. simpl in *. lia.
  - cbn [Py.dict_get String.eqb Ascii.eqb Bool.eqb]. simpl.
    change (length (e :: entries)) with (S (length entries)) in Hlen.
    split; do 2 f_equal; lia.
Qed.

(** Before any dispatch the statistics are the three-key dict, which has
    no [error_count]. *)
Remark get_stats_empty_log (m : PerformanceMonitor.t) :
  PerformanceMonitor.metrics m = [] ->
  Py.dict_get "total_queries" (PerformanceMonitor.get_stats m) = Some (Py.VInt 0) /\
  Py.dict_get "error_count" (PerformanceMonitor.get_stats m) = None.
Proof. intros H. unfold PerformanceMonitor.get_stats. rewrite H. now split. Qed.

Lemma monitor_sees_every_dispatch_witness :
  Py.dict_get "total_queries"
    (PerformanceMonitor.get_stats
       (SupervisorAgent.monitor
          (SupervisorAgent.dispatch_all FixtureSupervisor.fresh
                                        FixtureDispatch.three_requests)))
  = Some (Py.VInt 3) /\
  Py.dict_get "error_count"
    (PerformanceMonitor.get_stats
       (SupervisorAgent.monitor
          (SupervisorAgent.dispatch_all FixtureSupervisor.fresh
                                        FixtureDispatch.three_requests)))
  = Some (Py.VInt 1).
Proof.
  destruct (monitor_sees_every_dispatch
              FixtureSupervisor.fresh FixtureDispatch.three_requests)
    as (_ & _ & Htotal & Herrors).
  - reflexivity.
  - reflexivity.
  - discriminate.
  - split.
    + rewrite Htotal. reflexivity.
    + rewrite Herrors. vm_compute. reflexivity.
Defined.

(** C10. A dispatch answered from the cache returns the result tagged
    [agent = 'cached'] with [from_cache = True] without invoking the
    classifier or a responder, while the entry logged for it by the
    [finally] block carries [agent_type = 'error'], an empty response and
    [success = True]: the local variable [result] is still the empty dict
    when the early [return] leaves the [try] block. *)
Theorem cache_hit_logged_as_error (s : SupervisorAgent.t) (w : SupervisorAgent.world)
  (query session_id : string) (n_results : Z)
  (filters : option (list (string * Json.json))) (cached_response : string) :
  SupervisorAgent.enable_cache s = true ->
  SupervisorAgent.enable_monitoring s = true ->
  (ResponseCache.get (SupervisorAgent.cache s) (SupervisorAgent.now_get w)
                     query "any" None).2 = Some cached_response ->
  cached_response <> "" ->
  let r := SupervisorAgent.route_query s w query session_id n_results filters in
  r.2 = Py.Ok (SupervisorAgent.cached_result cached_response) /\
  Py.dict_get "agent" (SupervisorAgent.cached_result cached_response)
  = Some (Py.VStr "cached") /\
  Py.dict_get "from_cache" (SupervisorAgent.cached_result cached_response)
  = Some (Py.VBool true) /\
  SupervisorAgent.calls r.1 = SupervisorAgent.calls s /\
  exists e,
    PerformanceMonitor.metrics (SupervisorAgent.monitor r.1)
    = PerformanceMonitor.metrics (SupervisorAgent.monitor s) ++ [e] /\
    PerformanceMonitor.query e = query /\
    PerformanceMonitor.agent_type e = "error" /\
    PerformanceMonitor.response_length e = 0%nat /\
    PerformanceMonitor.success e = true /\
    PerformanceMonitor.error e = None.
Proof.
  intros Hcache Hmon Hget Hne r. subst r.
  unfold SupervisorAgent.route_query, SupervisorAgent.route_try,
    SupervisorAgent.check_cache.
  rewrite Hcache.
  destruct (ResponseCache.get _ _ _ _ _) as [c o]. simpl in Hget. subst o.
  destruct cached_response as [|a rest]; [congruence|].
  simpl. rewrite Hmon. simpl.
  repeat split. eexists. repeat split.
Qed.

Lemma cache_hit_logged_as_error_witness :
  (SupervisorAgent.route_query
     FixtureSupervisor.primed (FixtureSupervisor.world_knowledge 20)
     FixtureSupervisor.q_docs "s1" 3 None).2
  = Py.Ok (SupervisorAgent.cached_result FixtureSupervisor.answer_docs) /\
  map PerformanceMonitor.agent_type
      (PerformanceMonitor.metrics
         (SupervisorAgent.monitor
            (SupervisorAgent.route_query
               FixtureSupervisor.primed (FixtureSupervisor.world_knowledge 20)
               FixtureSupervisor.q_docs "s1" 3 None).1))
  = ["error"].
Proof.
  destruct (cache_hit_logged_as_error
              FixtureSupervisor.primed (FixtureSupervisor.world_knowledge 20)
              FixtureSupervisor.q_docs "s1" 3 None FixtureSupervisor.answer_docs)
    as (Hres & _ & _ & _ & e & Hlog & _ & Hagent & _).
  - reflexivity.
  - reflexivity.
  - vm_compute. reflexivity.
  - discriminate.
  - split; [exact Hres|]. rewrite Hlog. simpl. now rewrite Hagent.
Defined.

(** C1, on the scenario of the specification. The first dispatch on an
    empty cache classifies the query, invokes the knowledge responder once,
    stores the answer (a [cache.get] under the tag 'knowledge' returns it)
    and leaves one exchange in the session. The dispatcher however looks
    the query up under the tag 'any': that lookup misses, and the second
    dispatch of the identical query classifies and invokes the responder
    again, is not served from the cache, and adds a second exchange. *)
Theorem second_dispatch_misses_cache :
  let q := FixtureSupervisor.q_docs in
  let r1 := SupervisorAgent.route_query
              FixtureSupervisor.fresh (FixtureSupervisor.world_knowledge 1)
              q "s1" 3 None in
  let r2 := SupervisorAgent.route_query
              r1.1 (FixtureSupervisor.world_knowledge 2) q "s1" 3 None in
  let invoked := [SupervisorAgent.CallClassifier q;
                  SupervisorAgent.CallKnowledge q 3 None] in
  SupervisorAgent.calls r1.1 = invoked /\
  (ResponseCache.get (SupervisorAgent.cache r1.1) 2 q "knowledge" None).2
  = Some FixtureSupervisor.answer_docs /\
  length (ConversationMemory.get_history (SupervisorAgent.memory r1.1) "s1" None)
  = 1%nat /\
  (ResponseCache.get (SupervisorAgent.cache r1.1) 2 q "any" None).2 = None /\
  SupervisorAgent.calls r2.1 = invoked ++ invoked /\
  r2.2 = r1.2 /\
  match r2.2 with
  | Py.Ok result => Py.dict_get "agent" result = Some (Py.VStr "knowledge") /\
                    Py.dict_get "from_cache" result = None
  | Py.Raise _ => False
  end /\
  length (ConversationMemory.get_history (SupervisorAgent.memory r2.1) "s1" None)
  = 2%nat.
Proof. vm_compute. repeat split. Qed.

(* ===================================================================== *)
(** ** The feedback collector *)
(* ===================================================================== *)

Lemma last_map_Some {A : Type} (x : A) (l : list A) :
  List.last (map Some (x :: l)) None <> None.
Proof.
  revert x. induction l as [|y l IH]; intros x; [discriminate|].
  exact (IH y).
Qed.

(** After the second loop of [get_feedback_stats] the variable [ratings]
    holds the ratings of the agent that comes last in [by_agent], the
    ratings of all entries only when [by_agent] is empty. *)
Lemma summarise_ratings (by_agent : list (string * (Z * list Z))) (ratings : list Z) :
  (FeedbackCollector.summarise by_agent ratings).2
  = match List.last (map Some by_agent) None with
    | Some (_, (_, agent_ratings)) => agent_ratings
    | None => ratings
    end.
Proof.
  unfold FeedbackCollector.summarise.
  set (step := fun (st : list (string * Py.pyval) * list Z)
                   (kv : string * (Z * list Z)) => _).
  assert (H : forall out rs0,
             (fold_left step by_agent (out, rs0)).2
             = match List.last (map Some by_agent) None with
               | Some (_, (_, agent_ratings)) => agent_ratings
               | None => rs0
               end).
  { induction by_agent as [|[agent [count rs]] by_agent IH]; intros out rs0;
      [reflexivity|].
    cbn [fold_left]. unfold step at 2. rewrite IH.
    destruct by_agent as [|kv by_agent']; [reflexivity|].
    change (List.last (map Some ((agent, (count, rs)) :: kv :: by_agent')) None)
      with (List.last (map Some (kv :: by_agent')) None).
    destruct (List.last (map Some (kv :: by_agent')) None) as [[? [? ?]]|] eqn:E;
      [reflexivity|].
    now apply last_map_Some in E. }
  apply H.
Qed.

(** C7, on ratings [5,4,2,5,3] given to two agents: [avg_rating] (3.8)
    and [satisfaction_rate] (60.0) are those of all entries, but [thumbs_up] and
    [thumbs_down] count the ratings of the last agent only (1 and 1),
    whereas 3 entries are rated at least 4 and 2 below 4; with a single
    agent the counts are 3 and 2. *)
Theorem thumbs_count_last_agent_only :
  let stats := FeedbackCollector.get_feedback_stats FixtureFeedback.five_ratings in
  let all := map FeedbackCollector.rating
                 (FeedbackCollector.feedbacks FixtureFeedback.five_ratings) in
  let stats1 := FeedbackCollector.get_feedback_stats
                  FixtureFeedback.five_ratings_one_agent in
  all = [5; 4; 2; 5; 3]%Z /\
  Py.dict_get "avg_rating" stats = Some (Py.VFloat 3.8%float) /\
  Py.dict_get "satisfaction_rate" stats = Some (Py.VFloat 60%float) /\
  FeedbackCollector.count_if (fun r => (4 <=? r)%Z) all = 3%Z /\
  FeedbackCollector.count_if (fun r => (r <? 4)%Z) all = 2%Z /\
  Py.dict_get "thumbs_up" stats = Some (Py.VInt 1) /\
  Py.dict_get "thumbs_down" stats = Some (Py.VInt 1) /\
  Py.dict_get "thumbs_up" stats1 = Some (Py.VInt 3) /\
  Py.dict_get "thumbs_down" stats1 = Some (Py.VInt 2).
Proof. vm_compute. repeat split. Qed.

(** For a non-empty collection, [avg_rating] and [satisfaction_rate] are
    computed from all ratings (rounded to 2 and to 1 decimals), while the
    two thumbs counters are computed from whatever [ratings] holds after
    the per-agent loop. *)
Lemma feedback_stats_fields (c : FeedbackCollector.t) :
  FeedbackCollector.feedbacks c <> [] ->
  let stats := FeedbackCollector.get_feedback_stats c in
  let all := map FeedbackCollector.rating (FeedbackCollector.feedbacks c) in
  let by_agent := fold_left FeedbackCollector.group_step
                            (FeedbackCollector.feedbacks c) [] in
  let counted := (FeedbackCollector.summarise by_agent all).2 in
  Py.dict_get "avg_rating" stats
  = Some (Py.VFloat (Py.round (FeedbackCollector.mean all) 2)) /\
  Py.dict_get "satisfaction_rate" stats
  = Some (Py.VFloat
            (Py.round
               (PrimFloat.mul
                  (Py.int_truediv
                     (FeedbackCollector.count_if (fun r => (4 <=? r)%Z) all)
                     (Z.of_nat (length (FeedbackCollector.feedbacks c))))
                  100%float) 1)) /\
  Py.dict_get "thumbs_up" stats
  = Some (Py.VInt (FeedbackCollector.count_if (fun r => (4 <=? r)%Z) counted)) /\
  Py.dict_get "thumbs_down" stats
  = Some (Py.VInt (FeedbackCollector.count_if (fun r => (r <? 4)%Z) counted)).
Proof.
  intros Hne stats all by_agent counted. subst stats counted.
  unfold FeedbackCollector.get_feedback_stats.
  destruct (FeedbackCollector.feedbacks c) as [|fb fbs] eqn:E; [congruence|].
  fold all. fold by_agent.
  destruct (FeedbackCollector.summarise by_agent all) as [out rs].
  repeat split.
Qed.

Lemma classify_query_marketing_iff_witness :
  (SupervisorAgent.classify_query
     FixtureSupervisor.fresh (FixtureSupervisor.world_knowledge 1)
     FixtureSupervisor.q_docs).2 = Py.Ok "knowledge".
Proof.
  apply (classify_query_marketing_iff
           FixtureSupervisor.fresh (FixtureSupervisor.world_knowledge 1)
           FixtureSupervisor.q_docs "knowledge" eq_refl).
  intros H. apply contains_marketing_iff in H. vm_compute in H. discriminate.
Defined.

Lemma fingerprint_equal_hits_same_entry_witness :
  (ResponseCache.get
     (ResponseCache.set Fixture.cache_1h 0 "Loan Eligibility " "knowledge"
                        "Age 23-60."
                        (Some [("loan_type", Json.JStr "home");
                               ("doc_type", Json.JStr "eligibility")]))
     (59 * Fixture.minute) "loan eligibility" "knowledge"
     (Some [("doc_type", Json.JStr "eligibility");
            ("loan_type", Json.JStr "home")])).2
  = Some "Age 23-60.".
Proof.
  apply (fingerprint_equal_hits_same_entry
           Fixture.cache_1h 0 (59 * Fixture.minute)
           "Loan Eligibility " "loan eligibility" "knowledge" "Age 23-60.").
  - exists [], (PyStr.chars "Loan Eligibility"), (PyStr.chars " "),
      [], (PyStr.chars "loan eligibility"), [].
    repeat split; try apply Forall_nil_2.
    apply Forall_cons; split; [reflexivity | apply Forall_nil_2].
  - apply (Spec.reordered_dict
             _ [("loan_type", Json.JStr "home"); ("doc_type", Json.JStr "eligibility")]).
    + apply NoDup_cons; split.
      * intros H. apply list_elem_of_singleton in H. discriminate.
      * apply NoDup_singleton.
    + repeat (apply Forall2_cons; split;
              [split; [reflexivity | apply Spec.reordered_refl]|]).
      apply Forall2_nil_2.
    + apply perm_swap.
  - vm_compute. discriminate.
Defined.

(* ===================================================================== *)
(** ** The dispatcher reads and writes the cache under different tags *)
(* ===================================================================== *)

Lemma classify_content_tags (content : string) :
  SupervisorAgent.classify_content content = "marketing" \/
  SupervisorAgent.classify_content content = "knowledge".
Proof.
  unfold SupervisorAgent.classify_content.
  destruct (PyStr.contains _ _); [now left | now right].
Qed.

Lemma classify_query_cache (s : SupervisorAgent.t) (w : SupervisorAgent.world)
  (query : string) :
  let r := SupervisorAgent.classify_query s w query in
  SupervisorAgent.cache r.1 = SupervisorAgent.cache s /\
  SupervisorAgent.enable_cache r.1 = SupervisorAgent.enable_cache s /\
  forall agent_type, r.2 = Py.Ok agent_type ->
                     agent_type = "marketing" \/ agent_type = "knowledge".
Proof.
  unfold SupervisorAgent.classify_query.
  destruct (SupervisorAgent.classifier_reply w) as [content|e]; simpl;
    repeat split; try discriminate.
  intros a [= <-]. apply classify_content_tags.
Qed.

Lemma invoke_responder_cache (s : SupervisorAgent.t) (w : SupervisorAgent.world)
  (query agent_type : string) (n_results : Z)
  (filters : option (list (string * Json.json))) :
  let r := SupervisorAgent.invoke_responder s w query agent_type n_results filters in
  SupervisorAgent.cache r.1 = SupervisorAgent.cache s /\
  SupervisorAgent.enable_cache r.1 = SupervisorAgent.enable_cache s.
Proof.
  unfold SupervisorAgent.invoke_responder.
  destruct (String.eqb agent_type "marketing").
  - destruct (SupervisorAgent.marketing_reply w); now split.
  - destruct (SupervisorAgent.knowledge_reply w); now split.
Qed.

Lemma store_and_return_cache (s : SupervisorAgent.t) (w : SupervisorAgent.world)
  (query session_id agent_type response : string)
  (result : list (string * Py.pyval)) :
  SupervisorAgent.enable_cache s = true ->
  SupervisorAgent.cache
    (SupervisorAgent.store_and_return s w query session_id agent_type
                                      response result).1.1
  = ResponseCache.set (SupervisorAgent.cache s) (SupervisorAgent.now_set w)
                      query agent_type response None.
Proof.
  intros Hc. rewrite store_and_return_eq. cbn zeta. rewrite Hc.
  now destruct (SupervisorAgent.enable_memory s).
Qed.

(** A dispatch that is not served from the cache and returns normally
    stores its answer under the tag chosen by the classifier, 'marketing' or
    'knowledge', never under the tag 'any' that [check_cache] looks up. *)
Lemma route_query_write_tag (s : SupervisorAgent.t) (w : SupervisorAgent.world)
  (query session_id : string) (n_results : Z)
  (filters : option (list (string * Json.json)))
  (result : list (string * Py.pyval)) :
  SupervisorAgent.enable_cache s = true ->
  (SupervisorAgent.check_cache s w query).2 = None ->
  (SupervisorAgent.route_query s w query session_id n_results filters).2
  = Py.Ok result ->
  exists agent_type response,
    (agent_type = "marketing" \/ agent_type = "knowledge") /\
    SupervisorAgent.cache
      (SupervisorAgent.route_query s w query session_id n_results filters).1
    = ResponseCache.set
        (SupervisorAgent.cache (SupervisorAgent.check_cache s w query).1)
        (SupervisorAgent.now_set w) query agent_type response None.
Proof.
  intros Hc Hmiss. unfold SupervisorAgent.route_query, SupervisorAgent.route_try.
  assert (Hc0 : SupervisorAgent.enable_cache (SupervisorAgent.check_cache s w query).1
                = true).
  { unfold SupervisorAgent.check_cache. rewrite Hc.
    now destruct (ResponseCache.get _ _ _ _ _). }
  destruct (SupervisorAgent.check_cache s w query) as [s0 cached].
  simpl in Hmiss, Hc0 |- *. subst cached.
  destruct (classify_query_cache s0 w query) as (Hk1 & He1 & Htag).
  destruct (SupervisorAgent.classify_query s0 w query) as [s1 [agent_type|e]];
    simpl in Hk1, He1, Htag.
  2:{ destruct (SupervisorAgent.enable_monitoring s1); discriminate. }
  destruct (invoke_responder_cache s1 w query agent_type n_results filters)
    as (Hk2 & He2).
  destruct (SupervisorAgent.invoke_responder s1 w query agent_type n_results filters)
    as [s2 [[response res]|e]]; simpl in Hk2, He2.
  2:{ destruct (SupervisorAgent.enable_monitoring s2); discriminate. }
  intros _. exists agent_type, response. split; [now apply Htag|].
  pose proof (store_and_return_cache s2 w query session_id agent_type response res)
    as Hset.
  destruct (SupervisorAgent.store_and_return s2 w query session_id agent_type
                                             response res) as [[s3 res3] out3].
  simpl in Hset. rewrite <- Hk1, <- Hk2, <- Hset by congruence.
  now destruct out3, (SupervisorAgent.enable_monitoring s3).
Qed.

(** Hence the slot that [check_cache] reads is not filled by the dispatch,
    as long as the fingerprints under the two tags differ. *)
Lemma route_query_any_slot (s : SupervisorAgent.t) (w : SupervisorAgent.world)
  (query session_id : string) (n_results : Z)
  (filters : option (list (string * Json.json)))
  (result : list (string * Py.pyval)) :
  SupervisorAgent.enable_cache s = true ->
  (SupervisorAgent.check_cache s w query).2 = None ->
  (SupervisorAgent.route_query s w query session_id n_results filters).2
  = Py.Ok result ->
  ResponseCache._generate_key query "any" None
  <> ResponseCache._generate_key query "marketing" None ->
  ResponseCache._generate_key query "any" None
  <> ResponseCache._generate_key query "knowledge" None ->
  ResponseCache.cache
    (SupervisorAgent.cache
       (SupervisorAgent.route_query s w query session_id n_results filters).1)
    !! ResponseCache._generate_key query "any" None
  = ResponseCache.cache
      (SupervisorAgent.cache (SupervisorAgent.check_cache s w query).1)
      !! ResponseCache._generate_key query "any" None.
Proof.
  intros Hc Hmiss Hok Hm Hk.
  destruct (route_query_write_tag s w query session_id n_results filters result
              Hc Hmiss Hok) as (agent_type & response & Htag & ->).
  unfold ResponseCache.set. simpl.
  apply lookup_insert_ne. destruct Htag as [-> | ->]; congruence.
Qed.

(* ===================================================================== *)
(** ** Checks of the model on known values *)
(* ===================================================================== *)

(** The test suite of RFC 1321, and a message of two blocks. *)
Example md5_empty :
  MD5.hexdigest (PyStr.encode "") = "d41d8cd98f00b204e9800998ecf8427e".
Proof. vm_compute. reflexivity. Qed.

Example md5_abc :
  MD5.hexdigest (PyStr.encode "abc") = "900150983cd24fb0d6963f7d28e17f72".
Proof. vm_compute. reflexivity. Qed.

Example md5_message_digest :
  MD5.hexdigest (PyStr.encode "message digest") = "f96b697d7cb7938d525a2f31aaf161d0".
Proof. vm_compute. reflexivity. Qed.

Example md5_digits :
  MD5.hexdigest
    (PyStr.encode
       "12345678901234567890123456789012345678901234567890123456789012345678901234567890")
  = "57edf4a22be3c955ac49da2e2107b67a".
Proof. vm_compute. reflexivity. Qed.

Example generate_key_loan :
  ResponseCache._generate_key "Loan Eligibility " "knowledge" None
  = "1f602cb6ce28a478e6cc39f5e067c004".
Proof. vm_compute. reflexivity. Qed.

Example dumps_sorted :
  Json.dumps (Json.JDict [("loan_type", Json.JStr "home"); ("doc_type", Json.JInt 3)])
  = PyStr.text (PyStr.chars "{" ++ [Json.dquote] ++ PyStr.chars "doc_type"
                  ++ [Json.dquote] ++ PyStr.chars ": 3, " ++ [Json.dquote]
                  ++ PyStr.chars "loan_type" ++ [Json.dquote] ++ PyStr.chars ": "
                  ++ [Json.dquote] ++ PyStr.chars "home" ++ [Json.dquote]
                  ++ PyStr.chars "}").
Proof. vm_compute. reflexivity. Qed.

(** [round] and the arithmetic around it on values where binary64 and
    exact decimals part: 0.125 and 2.5 are ties and go to the even digit,
    2.675 and 43/40 lie below the tie, (0.001 + 0.004) / 2 above it. *)
Example round_binary64 :
  Py.round 0.125%float 2 = 0.12%float /\
  Py.round (PrimFloat.opp 2.5%float) 0 = PrimFloat.opp 2%float /\
  Py.round 2.675%float 2 = 2.67%float /\
  Py.round (Py.int_truediv 43 40) 2 = 1.07%float /\
  Py.round (PrimFloat.div (Py.sum_float [0.001%float; 0.004%float])
                          (Py.float_of_int 2)) 3 = 0.003%float /\
  Py.round (PrimFloat.mul (PrimFloat.sub 1%float 0.12365%float) 100%float) 2
  = 87.63%float /\
  Py.round (Py.int_truediv 100 3) 1 = 33.3%float.
Proof. vm_compute. repeat split. Qed.

(** The sum of floats is taken from left to right. *)
Example sum_left_to_right :
  Py.sum_float [0.1%float; 0.1%float; 0.5%float; 0.6%float; 0.2%float]
  = 1.4999999999999998%float.
Proof. vm_compute. reflexivity. Qed.

(* ===================================================================== *)
(** ** More on the response cache *)
(* ===================================================================== *)

(** X1. A [set] stores at most one entry per fingerprint: it adds one entry
    when the fingerprint is new and replaces the entry otherwise, and a
    [get] of the same request within the TTL of the write returns the
    response written last. *)
Theorem set_one_entry_per_fingerprint (c : ResponseCache.t) (t0 t1 : Z)
  (query agent_type response : string)
  (filters : option (list (string * Json.json))) :
  (t1 - t0 <= ResponseCache.ttl c)%Z ->
  let key := ResponseCache._generate_key query agent_type filters in
  let c' := ResponseCache.set c t0 query agent_type response filters in
  ResponseCache.total_entries (ResponseCache.get_stats c')
  = match ResponseCache.cache c !! key with
    | Some _ => ResponseCache.total_entries (ResponseCache.get_stats c)
    | None => S (ResponseCache.total_entries (ResponseCache.get_stats c))
    end /\
  (forall k, k <> key ->
             ResponseCache.cache c' !! k = ResponseCache.cache c !! k) /\
  ResponseCache.get c' t1 query agent_type filters = (c', Some response).
Proof.
  intros Ht key c'. subst key c'. split; [|split].
  - unfold ResponseCache.set, ResponseCache.get_stats. simpl.
    rewrite map_size_insert. now destruct (ResponseCache.cache c !! _).
  - intros k Hk. unfold ResponseCache.set. simpl. now apply lookup_insert_ne.
  - now apply cache_get_after_set.
Qed.

Lemma set_one_entry_per_fingerprint_witness :
  ResponseCache.total_entries
    (ResponseCache.get_stats
       (ResponseCache.set Fixture.cache_1h_loan 5 "loan eligibility" "knowledge"
                          "Age 21-65." None))
  = 1%nat /\
  (ResponseCache.get
     (ResponseCache.set Fixture.cache_1h_loan 5 "loan eligibility" "knowledge"
                        "Age 21-65." None)
     10 "loan eligibility" "knowledge" None).2 = Some "Age 21-65.".
Proof.
  destruct (set_one_entry_per_fingerprint
              Fixture.cache_1h_loan 5 10 "loan eligibility" "knowledge"
              "Age 21-65." None) as (Hn & _ & Hg).
  - vm_compute. discriminate.
  - split.
    + rewrite Hn. vm_compute. reflexivity.
    + now rewrite Hg.
Defined.

(** X2. A [get] never adds an entry, never changes the TTL and never touches
    an entry stored under another fingerprint; whatever it returns is the
    response of the entry stored under the fingerprint of the request. *)
Theorem get_touches_only_its_key (c : ResponseCache.t) (now : Z)
  (query agent_type : string) (filters : option (list (string * Json.json))) :
  let key := ResponseCache._generate_key query agent_type filters in
  let r := ResponseCache.get c now query agent_type filters in
  ResponseCache.ttl r.1 = ResponseCache.ttl c /\
  (forall k, k <> key ->
             ResponseCache.cache r.1 !! k = ResponseCache.cache c !! k) /\
  ResponseCache.cache r.1 ⊆ ResponseCache.cache c /\
  (forall response, r.2 = Some response ->
     exists e, ResponseCache.cache c !! key = Some e /\
               ResponseCache.response e = response /\
               (now - ResponseCache.timestamp e <= ResponseCache.ttl c)%Z).
Proof.
  intros key r. subst key r. unfold ResponseCache.get.
  destruct (ResponseCache.cache c !! _) as [e|] eqn:He.
  - unfold ResponseCache.expired.
    destruct (Z.ltb_spec (ResponseCache.ttl c) (now - ResponseCache.timestamp e));
      simpl.
    + repeat split; [|apply delete_subseteq|discriminate].
      intros k Hk. now apply lookup_delete_ne.
    + repeat split; [reflexivity|]. intros response [= <-]. now exists e.
  - simpl. repeat split; [reflexivity|discriminate].
Qed.

(** The sweep is a filter on the in-memory dict. *)
Lemma clear_expired_cache (c : ResponseCache.t) (now : Z) :
  ResponseCache.cache (ResponseCache.clear_expired c now).1
  = filter (fun kv => ResponseCache.expired c now kv.2 = false)
           (ResponseCache.cache c) /\
  ResponseCache.ttl (ResponseCache.clear_expired c now).1 = ResponseCache.ttl c.
Proof.
  unfold ResponseCache.clear_expired. simpl. now destruct (_ <? _)%nat.
Qed.

Lemma expired_false_iff (c : ResponseCache.t) (now : Z) (e : ResponseCache.entry) :
  ResponseCache.expired c now e = false
  <-> (now - ResponseCache.timestamp e <= ResponseCache.ttl c)%Z.
Proof.
  unfold ResponseCache.expired.
  destruct (Z.ltb_spec (ResponseCache.ttl c) (now - ResponseCache.timestamp e));
    intuition (try lia; try congruence).
Qed.

Lemma clear_expired_lookup (c : ResponseCache.t) (now : Z) (k : string)
  (e : ResponseCache.entry) :
  ResponseCache.cache (ResponseCache.clear_expired c now).1 !! k = Some e
  <-> ResponseCache.cache c !! k = Some e /\
      (now - ResponseCache.timestamp e <= ResponseCache.ttl c)%Z.
Proof.
  destruct (clear_expired_cache c now) as [-> _].
  rewrite map_lookup_filter_Some. simpl. now rewrite expired_false_iff.
Qed.

(** X3. [clear_expired] keeps exactly the entries that are not older than
    the TTL, returns the number of entries it removed, and a [get] made at
    the same instant afterwards finds every remaining entry. *)
Theorem clear_expired_keeps_live (c : ResponseCache.t) (now : Z) :
  let r := ResponseCache.clear_expired c now in
  (forall k e, ResponseCache.cache r.1 !! k = Some e <->
               ResponseCache.cache c !! k = Some e /\
               (now - ResponseCache.timestamp e <= ResponseCache.ttl c)%Z) /\
  (r.2 + size (ResponseCache.cache r.1) = size (ResponseCache.cache c))%nat /\
  (forall query agent_type filters e,
     ResponseCache.cache r.1
       !! ResponseCache._generate_key query agent_type filters = Some e ->
     ResponseCache.get r.1 now query agent_type filters
     = (r.1, Some (ResponseCache.response e))).
Proof.
  intros r. subst r. split; [apply clear_expired_lookup|]. split.
  - destruct (clear_expired_cache c now) as [-> _].
    unfold ResponseCache.clear_expired. simpl.
    pose proof (map_subseteq_size _ _
      (map_filter_subseteq
         (fun kv : string * ResponseCache.entry =>
            ResponseCache.expired c now kv.2 = false)
         (ResponseCache.cache c))).
    lia.
  - intros query agent_type filters e He.
    unfold ResponseCache.get. rewrite He.
    apply clear_expired_lookup in He as [_ He].
    unfold ResponseCache.expired.
    destruct (clear_expired_cache c now) as [_ ->].
    destruct (Z.ltb_spec (ResponseCache.ttl c) (now - ResponseCache.timestamp e));
      [lia|reflexivity].
Qed.

(** X4. Every operation keeps the file in step with the in-memory dict:
    when they are equal before a [set], [clear], [get] or [clear_expired],
    they are equal afterwards. *)
Theorem cache_file_in_step (c : ResponseCache.t) (now : Z)
  (query agent_type response : string)
  (filters : option (list (string * Json.json))) :
  Spec.synced c ->
  Spec.synced (ResponseCache.set c now query agent_type response filters) /\
  Spec.synced (ResponseCache.clear c) /\
  Spec.synced (ResponseCache.get c now query agent_type filters).1 /\
  Spec.synced (ResponseCache.clear_expired c now).1.
Proof.
  unfold Spec.synced. intros Hs. split; [reflexivity|]. split; [reflexivity|].
  split.
  - unfold ResponseCache.get.
    destruct (ResponseCache.cache c !! _) as [e|]; [|exact Hs].
    destruct (ResponseCache.expired c now e); [reflexivity|exact Hs].
  - unfold ResponseCache.clear_expired. simpl.
    set (live := filter _ (ResponseCache.cache c)).
    destruct (Nat.ltb_spec 0 (size (ResponseCache.cache c) - size live));
      [reflexivity|]. simpl. rewrite Hs. symmetry.
    apply map_subseteq_size_eq; [apply map_filter_subseteq|lia].
Qed.

Lemma cache_file_in_step_witness :
  Spec.synced
    (ResponseCache.get Fixture.cache_1h_loan (61 * Fixture.minute)
                       "loan eligibility" "knowledge" None).1 /\
  Spec.synced (ResponseCache.clear_expired Fixture.cache_1h_loan 5).1.
Proof.
  split.
  - apply (cache_file_in_step Fixture.cache_1h_loan (61 * Fixture.minute)
             "loan eligibility" "knowledge" "" None). reflexivity.
  - apply (cache_file_in_step Fixture.cache_1h_loan 5
             "loan eligibility" "knowledge" "" None). reflexivity.
Defined.

(** X5. An answer written with [set] survives a restart of the process: a
    cache rebuilt from the file serves it as long as the restart and the
    lookup happen within the TTL (of the new instance) of the write. *)
Theorem cache_survives_restart (c : ResponseCache.t) (ttl_hours t0 t1 t2 : Z)
  (query agent_type response : string)
  (filters : option (list (string * Json.json))) :
  (t1 - t0 <= ResponseCache.timedelta_hours ttl_hours)%Z ->
  (t2 - t0 <= ResponseCache.timedelta_hours ttl_hours)%Z ->
  let written := ResponseCache.set c t0 query agent_type response filters in
  let restarted := ResponseCache.init ttl_hours (Some (ResponseCache.disk written)) t1 in
  (ResponseCache.get restarted t2 query agent_type filters).2 = Some response.
Proof.
  intros H1 H2 written restarted. subst written restarted.
  unfold ResponseCache.init. cbn [ResponseCache.ttl default].
  set (m := ResponseCache.disk _).
  set (c0 := ResponseCache.mkCache (ResponseCache.timedelta_hours ttl_hours) m m).
  set (e := ResponseCache.mkEntry query agent_type response t0 filters).
  assert (He : ResponseCache.cache (ResponseCache.clear_expired c0 t1).1
               !! ResponseCache._generate_key query agent_type filters = Some e).
  { apply clear_expired_lookup. split; [|exact H1].
    unfold c0, m, ResponseCache.set. simpl. apply lookup_insert_eq. }
  unfold ResponseCache.get. rewrite He.
  unfold ResponseCache.expired.
  destruct (clear_expired_cache c0 t1) as [_ ->]. simpl.
  destruct (Z.ltb_spec (ResponseCache.timedelta_hours ttl_hours) (t2 - t0));
    [lia|reflexivity].
Qed.

Lemma cache_survives_restart_witness :
  (ResponseCache.get
     (ResponseCache.init 1
        (Some (ResponseCache.disk
                 (ResponseCache.set Fixture.cache_1h 0 "Loan Eligibility "
                                    "knowledge" "Age 23-60." None)))
        (10 * Fixture.minute))
     (59 * Fixture.minute) "Loan Eligibility " "knowledge" None).2
  = Some "Age 23-60.".
Proof.
  apply (cache_survives_restart
           Fixture.cache_1h 1 0 (10 * Fixture.minute) (59 * Fixture.minute)
           "Loan Eligibility " "knowledge" "Age 23-60." None);
    vm_compute; discriminate.
Defined.

(** The counters of [get_stats] and the sum of a dict of counters. *)
Lemma count_agent_lookup (cache : gmap string ResponseCache.entry) (a : string) :
  map_fold ResponseCache.count_agent ∅ cache !! a
  = match size (filter (fun kv : string * ResponseCache.entry =>
                          ResponseCache.agent_type kv.2 = a) cache) with
    | O => None
    | S n => Some (S n)
    end.
Proof.
  revert a. revert cache.
  apply (map_fold_weak_ind
           (fun (r : gmap string nat) (m : gmap string ResponseCache.entry) =>
              forall a, r !! a
                        = match size (filter (fun kv : string * ResponseCache.entry =>
                                                ResponseCache.agent_type kv.2 = a) m) with
                          | O => None
                          | S n => Some (S n)
                          end)).
  - intros a. now rewrite map_filter_empty, map_size_empty, lookup_empty.
  - intros i x m0 r Hi IH a. unfold ResponseCache.count_agent.
    rewrite map_filter_insert. simpl.
    destruct (decide (ResponseCache.agent_type x = a)) as [->|Hne].
    + rewrite lookup_insert_eq, map_size_insert_None
        by (apply map_lookup_filter_None; now left).
      rewrite IH. destruct (size _); simpl; f_equal; lia.
    + rewrite lookup_insert_ne by exact Hne.
      rewrite delete_id by exact Hi. apply IH.
Qed.

(** X6. [get_stats] lists under [by_agent] every agent tag that has at
    least one entry, with the number of its entries, and no other tag. *)
Theorem by_agent_counts_entries (c : ResponseCache.t) (a : string) :
  ResponseCache.by_agent (ResponseCache.get_stats c) !! a
  = match Spec.entries_of_agent a c with
    | O => None
    | S n => Some (S n)
    end.
Proof. apply count_agent_lookup. Qed.

(* ===================================================================== *)
(** ** The shape of a fingerprint *)
(* ===================================================================== *)

Lemma text_length (l : list ascii) : String.length (PyStr.text l) = length l.
Proof. induction l as [|c l IH]; simpl; [reflexivity | now rewrite IH]. Qed.

Lemma hex_digit_hex (n : Z) :
  (0 <= n < 16)%Z -> Spec.hex_char (PyStr.hex_digit n) = true.
Proof.
  intros H. destruct n as [|p|p]; [reflexivity| |lia].
  do 4 (destruct p as [p|p|]; try lia; try reflexivity).
Qed.

Lemma le_bytes_range (n : nat) (x : Z) :
  Forall (fun b => (0 <= b < 256)%Z) (MD5.le_bytes n x).
Proof.
  unfold MD5.le_bytes. apply Forall_map, Forall_forall. intros i _. simpl.
  change 255%Z with (Z.ones 8). rewrite Z.land_ones by lia.
  apply Z.mod_pos_bound. lia.
Qed.

Lemma hex_bytes_hex (bs : list Z) :
  Forall (fun b => (0 <= b < 256)%Z) bs ->
  length (flat_map MD5.hex_byte bs) = (2 * length bs)%nat /\
  Forall (fun c => Spec.hex_char c = true) (flat_map MD5.hex_byte bs).
Proof.
  induction 1 as [|b bs Hb _ [IHlen IHall]]; [split; [reflexivity|constructor]|].
  cbn [flat_map]. split; [simpl; lia|].
  apply Forall_app; split; [|exact IHall].
  unfold MD5.hex_byte.
  repeat (apply Forall_cons; split); [| |apply Forall_nil_2].
  - apply hex_digit_hex. rewrite Z.shiftr_div_pow2 by lia.
    change (2 ^ 4)%Z with 16%Z. split; [apply Z.div_pos; lia|].
    apply Z.div_lt_upper_bound; lia.
  - apply hex_digit_hex. change 15%Z with (Z.ones 4).
    rewrite Z.land_ones by lia. apply Z.mod_pos_bound. lia.
Qed.

(** X7. Whatever the request, the fingerprint is a string of 32 lower-case
    hexadecimal digits. *)
Theorem generate_key_shape (query agent_type : string)
  (filters : option (list (string * Json.json))) :
  let key := ResponseCache._generate_key query agent_type filters in
  String.length key = 32%nat /\
  Forall (fun c => Spec.hex_char c = true) (PyStr.chars key).
Proof.
  intros key. subst key. unfold ResponseCache._generate_key, MD5.hexdigest.
  set (msg := PyStr.encode _).
  rewrite text_length, chars_text.
  assert (Hd : Forall (fun b => (0 <= b < 256)%Z) (MD5.digest msg)).
  { unfold MD5.digest. repeat (apply Forall_app; split); apply le_bytes_range. }
  destruct (hex_bytes_hex _ Hd) as [Hlen Hall]. split; [|exact Hall].
  rewrite Hlen. unfold MD5.digest. rewrite !length_app.
  unfold MD5.le_bytes. now rewrite !length_map, !length_seq.
Qed.

(* ===================================================================== *)
(** ** More on the conversation memory *)
(* ===================================================================== *)

Lemma most_recent_snoc_last {A : Type} (n : nat) (l : list A) (x d : A) :
  (1 <= n)%nat -> List.last (Spec.most_recent n (l ++ [x])) d = x.
Proof.
  intros Hn. unfold Spec.most_recent. rewrite length_app. simpl.
  rewrite drop_app_le by lia. apply last_last.
Qed.

Lemma calls_for_snoc (session_id : string) (calls : list Spec.exchange_call)
  (c : Spec.exchange_call) :
  Spec.calls_for session_id (calls ++ [c])
  = Spec.calls_for session_id calls
    ++ (if decide (Spec.in_session c = session_id) then [c] else []).
Proof.
  unfold Spec.calls_for. rewrite filter_app, filter_cons, filter_nil.
  now destruct (decide _).
Qed.

(** X8. Whatever calls are made, a session that received at least one
    exchange holds at most [max_history] exchanges and its newest exchange
    is the one added last; a session that received none is as it was. *)
Theorem window_never_exceeds_bound (m : ConversationMemory.t)
  (calls : list Spec.exchange_call) (session_id : string) :
  (0 < ConversationMemory.max_history m)%Z ->
  let m' := Spec.add_exchanges m calls in
  match List.rev (Spec.calls_for session_id calls) with
  | [] => ConversationMemory.get_history m' session_id None
          = ConversationMemory.get_history m session_id None
  | newest :: _ =>
      (Z.of_nat (length (ConversationMemory.get_history m' session_id None))
       <= ConversationMemory.max_history m)%Z /\
      List.last (ConversationMemory.get_history m' session_id None)
                (Spec.exchange_of newest)
      = Spec.exchange_of newest /\
      In (Spec.exchange_of newest)
         (ConversationMemory.get_history m' session_id None)
  end.
Proof.
  intros HM m'. subst m'.
  destruct (add_exchanges_sessions m session_id calls HM) as [_ Hs].
  unfold ConversationMemory.get_history. rewrite Hs.
  destruct (Spec.calls_for session_id calls) as [|c cs] eqn:E using rev_ind.
  - reflexivity.
  - clear IHcs. rewrite rev_app_distr. cbn [rev app].
    destruct (cs ++ [c]) as [|c0 cs0] eqn:E2; [now destruct cs|].
    rewrite <- E2. rewrite map_app, app_assoc. cbn [map].
    split; [rewrite most_recent_length; lia|].
    assert (Hlast : forall d, List.last
              (Spec.most_recent (Z.to_nat (ConversationMemory.max_history m))
                 ((default [] (ConversationMemory.sessions m !! session_id)
                     ++ map Spec.exchange_of cs) ++ [Spec.exchange_of c])) d
              = Spec.exchange_of c)
      by (intros d; apply most_recent_snoc_last; lia).
    split; [apply Hlast|].
    unfold Spec.most_recent. rewrite length_app. simpl.
    rewrite drop_app_le by lia. apply in_or_app. right. now left.
Qed.

Lemma window_never_exceeds_bound_witness :
  (length (ConversationMemory.get_history
             (Spec.add_exchanges FixtureMemory.memory_3 FixtureMemory.six_calls)
             "s1" None) <= 3)%nat.
Proof.
  pose proof (window_never_exceeds_bound
                FixtureMemory.memory_3 FixtureMemory.six_calls "s1") as H.
  cbv zeta in H.
  change (List.rev (Spec.calls_for "s1" FixtureMemory.six_calls))
    with [FixtureMemory.call "s1" 6 "q5"; FixtureMemory.call "s1" 5 "q4";
          FixtureMemory.call "s1" 4 "q3"; FixtureMemory.call "s1" 2 "q2";
          FixtureMemory.call "s1" 1 "q1"] in H.
  destruct H as (Hlen & _ & _); [reflexivity|].
  change (ConversationMemory.max_history FixtureMemory.memory_3) with 3%Z in Hlen.
  lia.
Defined.

(** X9. [get_history] with [last_n]: a positive [last_n] selects the most
    recent [last_n] exchanges (all of them when there are fewer), [0] selects
    the whole history like [None], and a negative [last_n = -k] drops the
    [k] oldest exchanges; an unknown session has the empty history. *)
Theorem get_history_last_n (m : ConversationMemory.t) (session_id : string) (n : Z) :
  let all := ConversationMemory.get_history m session_id None in
  let got := ConversationMemory.get_history m session_id (Some n) in
  (ConversationMemory.sessions m !! session_id = None -> got = []) /\
  ((0 < n)%Z -> got = Spec.most_recent (Z.to_nat n) all) /\
  (n = 0%Z -> got = all) /\
  ((n < 0)%Z -> got = drop (Z.to_nat (- n)) all) /\
  (exists dropped, all = dropped ++ got).
Proof.
  intros all got. subst all got. unfold ConversationMemory.get_history.
  destruct (ConversationMemory.sessions m !! session_id) as [h|].
  2:{ split; [reflexivity|]. split; [reflexivity|]. split; [reflexivity|].
      split; [intros _; now rewrite drop_nil | now exists []]. }
  split; [discriminate|].
  unfold Py.slice_from, Spec.most_recent.
  destruct (Z.eqb_spec n 0) as [->|Hn].
  - repeat split; try lia. now exists [].
  - destruct (Z.ltb_spec (- n) 0).
    + repeat split; try lia.
      * intros _. f_equal. lia.
      * eexists. symmetry. apply take_drop.
    + repeat split; try lia. eexists. symmetry. apply take_drop.
Qed.

Lemma add_to_history_locate (m : ConversationMemory.t) (now : Z)
  (session_id user_query agent_response agent_type : string)
  (metadata : option (list (string * Py.pyval))) :
  ConversationMemory.locate
    (ConversationMemory.add_to_history m now session_id user_query agent_response
                                       agent_type metadata)
  = ConversationMemory.locate m.
Proof. reflexivity. Qed.

(** What one call leaves in memory and on disk for its session, when the
    path of the session file is accepted. *)
Lemma add_exchange_written (m : ConversationMemory.t) (c : Spec.exchange_call)
  (file : string) :
  ConversationMemory.locate m (Spec.in_session c) = Py.Ok file ->
  let r := ConversationMemory.add_exchange
             m (Spec.at_time c) (Spec.in_session c) (Spec.user_query c)
             (Spec.agent_response c) (Spec.agent_tag c) (Spec.call_metadata c) in
  r.2 = Py.Ok tt /\
  exists h,
    ConversationMemory.sessions r.1 !! Spec.in_session c = Some h /\
    ConversationMemory.disk r.1 !! file = Some h.
Proof.
  intros Hfile. unfold ConversationMemory.add_exchange,
    ConversationMemory._save_session, ConversationMemory.add_to_history.
  cbn [ConversationMemory.locate ConversationMemory.sessions
       ConversationMemory.disk ConversationMemory.max_history].
  rewrite Hfile. cbn [fst snd ConversationMemory.sessions ConversationMemory.disk].
  split; [reflexivity|]. eexists. rewrite !lookup_insert_eq. split; reflexivity.
Qed.

(** X10. [add_exchange] persists the session it wrote when the operating
    system accepts the path of the session file: the call returns, a memory
    created afterwards on the same directory starts without any session in
    memory, and [load_session] brings the persisted history back. When the
    path is refused (as for the id 'a/b' in a directory without
    subdirectories) the call raises the error of [open] after the in-memory
    update, nothing is written, and the session cannot be loaded after a
    restart. *)
Theorem session_survives_restart (m : ConversationMemory.t) (c : Spec.exchange_call)
  (max_history : Z) :
  let session_id := Spec.in_session c in
  let r := ConversationMemory.add_exchange
             m (Spec.at_time c) session_id (Spec.user_query c)
             (Spec.agent_response c) (Spec.agent_tag c) (Spec.call_metadata c) in
  let restarted := ConversationMemory.init max_history (ConversationMemory.disk r.1)
                                           (ConversationMemory.locate m) in
  ConversationMemory.get_history restarted session_id None = [] /\
  (forall file,
      ConversationMemory.locate m session_id = Py.Ok file ->
      r.2 = Py.Ok tt /\
      (ConversationMemory.load_session restarted session_id).2 = true /\
      ConversationMemory.get_history
        (ConversationMemory.load_session restarted session_id).1 session_id None
      = ConversationMemory.get_history r.1 session_id None) /\
  (forall e,
      ConversationMemory.locate m session_id = Py.Raise e ->
      r.2 = Py.Raise e /\
      r.1 = ConversationMemory.add_to_history
              m (Spec.at_time c) session_id (Spec.user_query c)
              (Spec.agent_response c) (Spec.agent_tag c) (Spec.call_metadata c) /\
      ConversationMemory.disk r.1 = ConversationMemory.disk m /\
      (ConversationMemory.load_session restarted session_id).2 = false).
Proof.
  intros session_id r restarted. subst session_id r restarted.
  split; [reflexivity|]. split.
  - intros file Hfile.
    destruct (add_exchange_written m c file Hfile) as (Hok & h & Hs & Hd).
    split; [exact Hok|].
    unfold ConversationMemory.get_history at 2. rewrite Hs.
    unfold ConversationMemory.init, ConversationMemory.load_session,
      ConversationMemory.get_history.
    cbn [ConversationMemory.sessions ConversationMemory.disk
         ConversationMemory.locate].
    rewrite Hfile, Hd.
    cbn [fst snd ConversationMemory.sessions]. now rewrite lookup_insert_eq.
  - intros e He.
    assert (Hr : ConversationMemory.add_exchange
                   m (Spec.at_time c) (Spec.in_session c) (Spec.user_query c)
                   (Spec.agent_response c) (Spec.agent_tag c) (Spec.call_metadata c)
                 = (ConversationMemory.add_to_history
                      m (Spec.at_time c) (Spec.in_session c) (Spec.user_query c)
                      (Spec.agent_response c) (Spec.agent_tag c)
                      (Spec.call_metadata c),
                    Py.Raise e)).
    { unfold ConversationMemory.add_exchange, ConversationMemory._save_session.
      rewrite add_to_history_locate, He. reflexivity. }
    rewrite Hr. cbn [fst snd]. repeat split.
    unfold ConversationMemory.init, ConversationMemory.load_session.
    cbn [ConversationMemory.locate]. now rewrite He.
Qed.

Lemma session_survives_restart_witness :
  let c := FixtureMemory.call "s1" 1 "q1" in
  let lost := FixtureMemory.call "a/b" 2 "q2" in
  let written := Spec.add_exchange_call FixtureMemory.memory_3 c in
  let refused := Spec.add_exchange_call FixtureMemory.memory_3 lost in
  map ConversationMemory.user
      (ConversationMemory.get_history
         (ConversationMemory.load_session
            (ConversationMemory.init 3 (ConversationMemory.disk written)
                                     Fixture.flat_dir) "s1").1
         "s1" None) = ["q1"] /\
  (ConversationMemory.load_session
     (ConversationMemory.init 3 (ConversationMemory.disk refused) Fixture.flat_dir)
     "a/b").2 = false.
Proof.
  intros c lost written refused. split.
  - destruct (session_survives_restart FixtureMemory.memory_3 c 3)
      as (_ & Hok & _).
    destruct (Hok "s1.json" eq_refl) as (_ & _ & Hh).
    refine (eq_trans (f_equal (map ConversationMemory.user) Hh) _).
    vm_compute. reflexivity.
  - destruct (session_survives_restart FixtureMemory.memory_3 lost 3)
      as (_ & _ & Hbad).
    destruct (Hbad "[Errno 2] No such file or directory: './memory/a/b.json'"
                   eq_refl) as (_ & _ & _ & Hload).
    exact Hload.
Defined.

(** X11. [clear_session] forgets the session: its history is empty
    afterwards, the other sessions in memory are untouched, every file but
    the one its path denotes is untouched, and clearing again changes
    nothing. When the session was in memory it can no longer be loaded, and
    neither can a session whose id denotes the same file (as 'a' and './a'
    do): its file is removed with it. *)
Theorem clear_session_forgets (m : ConversationMemory.t) (session_id other : string)
  (last_n : option Z) :
  other <> session_id ->
  let m' := ConversationMemory.clear_session m session_id in
  ConversationMemory.get_history m' session_id last_n = [] /\
  ConversationMemory.get_history m' other last_n
  = ConversationMemory.get_history m other last_n /\
  (forall file,
      ConversationMemory.locate m session_id <> Py.Ok file ->
      ConversationMemory.disk m' !! file = ConversationMemory.disk m !! file) /\
  ConversationMemory.clear_session m' session_id = m' /\
  (ConversationMemory.sessions m !! session_id <> None ->
   ConversationMemory.load_session m' session_id = (m', false) /\
   (ConversationMemory.locate m other = ConversationMemory.locate m session_id ->
    ConversationMemory.load_session m' other = (m', false))).
Proof.
  intros Hne m'. subst m'.
  unfold ConversationMemory.clear_session, ConversationMemory.get_history,
    ConversationMemory.load_session.
  destruct (ConversationMemory.sessions m !! session_id) as [h|] eqn:E;
    cbn [ConversationMemory.sessions ConversationMemory.disk
         ConversationMemory.locate ConversationMemory.max_history].
  - rewrite !lookup_delete_eq, !lookup_delete_ne by congruence.
    split; [reflexivity|]. split; [reflexivity|]. split.
    { intros file Hfile.
      destruct (ConversationMemory.locate m session_id) as [f|e]; [|reflexivity].
      apply lookup_delete_ne. congruence. }
    split; [reflexivity|]. intros _. split.
    + destruct (ConversationMemory.locate m session_id) as [f|e]; [|reflexivity].
      now rewrite lookup_delete_eq.
    + intros ->.
      destruct (ConversationMemory.locate m session_id) as [f|e]; [|reflexivity].
      now rewrite lookup_delete_eq.
  - rewrite !E. split; [reflexivity|]. split; [reflexivity|].
    split; [reflexivity|]. split; [reflexivity|]. congruence.
Qed.

Lemma clear_session_forgets_witness :
  ConversationMemory.get_history
    (ConversationMemory.clear_session
       (Spec.add_exchanges FixtureMemory.memory_3 FixtureMemory.six_calls) "s1")
    "s1" None = [] /\
  length (ConversationMemory.get_history
            (ConversationMemory.clear_session
               (Spec.add_exchanges FixtureMemory.memory_3 FixtureMemory.six_calls) "s1")
            "s2" None) = 1%nat.
Proof.
  destruct (clear_session_forgets
              (Spec.add_exchanges FixtureMemory.memory_3 FixtureMemory.six_calls)
              "s1" "s2" None) as (H1 & H2 & _); [discriminate|].
  split; [exact H1|]. rewrite H2. vm_compute. reflexivity.
Defined.

(** X12. [clear_session] deletes the file only of a session that is in
    memory: for a session that is only on disk (as after a restart) it does
    nothing, and [load_session] still brings the old history back. *)
Theorem clear_session_keeps_unloaded_file (m : ConversationMemory.t)
  (session_id file : string) (persisted : list ConversationMemory.exchange) :
  ConversationMemory.sessions m !! session_id = None ->
  ConversationMemory.locate m session_id = Py.Ok file ->
  ConversationMemory.disk m !! file = Some persisted ->
  let m' := ConversationMemory.clear_session m session_id in
  m' = m /\
  (ConversationMemory.load_session m' session_id).2 = true /\
  ConversationMemory.get_history
    (ConversationMemory.load_session m' session_id).1 session_id None = persisted.
Proof.
  intros Hs Hfile Hd m'. subst m'. unfold ConversationMemory.clear_session.
  rewrite Hs. split; [reflexivity|].
  unfold ConversationMemory.load_session, ConversationMemory.get_history.
  rewrite Hfile, Hd. simpl. now rewrite lookup_insert_eq.
Qed.

Lemma clear_session_keeps_unloaded_file_witness :
  length (ConversationMemory.get_history
            (ConversationMemory.load_session
               (ConversationMemory.clear_session FixtureMemory.after_restart "s1")
               "s1").1 "s1" None) = 3%nat.
Proof.
  destruct (clear_session_keeps_unloaded_file
              FixtureMemory.after_restart "s1" "s1.json"
              (map Spec.exchange_of
                   [FixtureMemory.call "s1" 4 "q3"; FixtureMemory.call "s1" 5 "q4";
                    FixtureMemory.call "s1" 6 "q5"]))
    as (_ & _ & H).
  - reflexivity.
  - reflexivity.
  - vm_compute. reflexivity.
  - rewrite H. reflexivity.
Defined.

Lemma prefix_idem (n : nat) (s : string) :
  PyStr.prefix n (PyStr.prefix n s) = PyStr.prefix n s.
Proof.
  unfold PyStr.prefix. rewrite chars_text, take_take. now rewrite Nat.min_id.
Qed.

Lemma slice_from_map {A B : Type} (f : A -> B) (z : Z) (l : list A) :
  Py.slice_from z (map f l) = map f (Py.slice_from z l).
Proof.
  unfold Py.slice_from. rewrite length_map.
  destruct (z <? 0)%Z; apply skipn_map.
Qed.

Lemma get_history_truncated (m : ConversationMemory.t) (session_id : string)
  (last_n : option Z) :
  ConversationMemory.get_history (Spec.truncate_memory m) session_id last_n
  = map Spec.truncate_exchange (ConversationMemory.get_history m session_id last_n).
Proof.
  unfold ConversationMemory.get_history, Spec.truncate_memory. simpl.
  rewrite lookup_fmap.
  destruct (ConversationMemory.sessions m !! session_id) as [h|]; simpl;
    [|reflexivity].
  destruct last_n as [n|]; [|reflexivity].
  destruct (n =? 0)%Z; [reflexivity|]. apply slice_from_map.
Qed.

(** X13. [get_context_string] returns the fixed "no history" sentence
    exactly when the selected history is empty, and it reads at most the
    first 200 characters of every stored response: cutting the stored
    responses to 200 characters leaves the context unchanged. *)
Theorem context_string_bounded_preview (m : ConversationMemory.t)
  (session_id : string) (last_n : Z) :
  (ConversationMemory.get_context_string m session_id last_n
   = "No previous conversation history."
   <-> ConversationMemory.get_history m session_id (Some last_n) = []) /\
  ConversationMemory.get_context_string (Spec.truncate_memory m) session_id last_n
  = ConversationMemory.get_context_string m session_id last_n.
Proof.
  unfold ConversationMemory.get_context_string. split.
  - destruct (ConversationMemory.get_history m session_id (Some last_n))
      as [|ex h]; [now split|].
    split; [|discriminate]. cbn [flat_map app PyStr.join]. discriminate.
  - rewrite get_history_truncated.
    destruct (ConversationMemory.get_history m session_id (Some last_n))
      as [|ex h]; [reflexivity|].
    cbn [map]. f_equal. f_equal.
    change (Spec.truncate_exchange ex :: map Spec.truncate_exchange h)
      with (map Spec.truncate_exchange (ex :: h)).
    generalize (ex :: h). intros l. induction l as [|x l IH]; [reflexivity|].
    cbn [map flat_map]. rewrite IH. unfold Spec.truncate_exchange at 1 2.
    cbn [ConversationMemory.user ConversationMemory.agent].
    now rewrite prefix_idem.
Qed.

(* ===================================================================== *)
(** ** Dict literals and grouping by agent *)
(* ===================================================================== *)

Lemma dict_get_set_eq {V : Type} (k : string) (v : V) (d : list (string * V)) :
  Py.dict_get k (Py.dict_set k v d) = Some v.
Proof.
  induction d as [|[k' v'] d IH]; simpl.
  - now rewrite String.eqb_refl.
  - destruct (String.eqb k k') eqn:E; simpl.
    + now rewrite String.eqb_refl.
    + now rewrite E.
Qed.

Lemma dict_get_set_ne {V : Type} (k k' : string) (v : V) (d : list (string * V)) :
  k' <> k -> Py.dict_get k' (Py.dict_set k v d) = Py.dict_get k' d.
Proof.
  intros Hne. apply String.eqb_neq in Hne.
  induction d as [|[k0 v0] d IH]; simpl.
  - now rewrite Hne.
  - destruct (String.eqb k k0) eqn:E; simpl.
    + apply String.eqb_eq in E. subst k0. now rewrite Hne.
    + now rewrite IH.
Qed.

Lemma dict_set_keys {V : Type} (k : string) (v : V) (d : list (string * V)) :
  map fst (Py.dict_set k v d)
  = match Py.dict_get k d with
    | Some _ => map fst d
    | None => map fst d ++ [k]
    end.
Proof.
  induction d as [|[k' v'] d IH]; simpl; [reflexivity|].
  destruct (String.eqb k k') eqn:E; simpl.
  - apply String.eqb_eq in E. now subst.
  - rewrite IH. now destruct (Py.dict_get k d).
Qed.

Lemma dict_get_None_keys {V : Type} (k : string) (d : list (string * V)) :
  Py.dict_get k d = None <-> ~ In k (map fst d).
Proof.
  induction d as [|[k' v'] d IH]; simpl; [tauto|].
  destruct (String.eqb k k') eqn:E.
  - apply String.eqb_eq in E. subst. split; [discriminate|]. intros H.
    destruct H. now left.
  - apply String.eqb_neq in E. rewrite IH. split.
    + intros H [H'|H']; [congruence|tauto].
    + tauto.
Qed.

Lemma dict_set_nodup {V : Type} (k : string) (v : V) (d : list (string * V)) :
  NoDup (map fst d) -> NoDup (map fst (Py.dict_set k v d)).
Proof.
  intros Hd. rewrite dict_set_keys.
  destruct (Py.dict_get k d) eqn:E; [exact Hd|].
  apply dict_get_None_keys in E. apply NoDup_app. split; [exact Hd|]. split.
  - intros x Hx Hk. apply list_elem_of_singleton in Hk. subst x.
    apply E. now apply list_elem_of_In.
  - apply NoDup_singleton.
Qed.

Section Grouping.
Context {E V : Type}.
Variable key : E -> string.
Variable val : E -> V.
Variable step : list (string * (Z * list V)) -> E -> list (string * (Z * list V)).

(** What the two statements of the loop body do to the dict. *)
Hypothesis step_eq : forall acc e,
  step acc e
  = let acc1 := match Py.dict_get (key e) acc with
                | None => Py.dict_set (key e) (0%Z, []) acc
                | Some _ => acc
                end in
    match Py.dict_get (key e) acc1 with
    | Some (count, vals) => Py.dict_set (key e) ((count + 1)%Z, vals ++ [val e]) acc1
    | None => acc1
    end.

Lemma step_get (acc : list (string * (Z * list V))) (e : E) (a : string) :
  Py.dict_get a (step acc e)
  = if decide (key e = a)
    then Some (let '(count, vals) := default (0%Z, []) (Py.dict_get a acc) in
               ((count + 1)%Z, vals ++ [val e]))
    else Py.dict_get a acc.
Proof.
  rewrite step_eq. cbv zeta.
  destruct (decide (key e = a)) as [<-|Hne].
  - destruct (Py.dict_get (key e) acc) as [[c vs]|] eqn:Eg.
    + rewrite Eg. now rewrite dict_get_set_eq.
    + rewrite dict_get_set_eq. now rewrite dict_get_set_eq.
  - assert (Hne' : a <> key e) by congruence.
    destruct (Py.dict_get (key e) acc) as [[c vs]|] eqn:Eg.
    + rewrite Eg. now rewrite dict_get_set_ne.
    + rewrite dict_get_set_eq. now rewrite !dict_get_set_ne.
Qed.

Lemma step_nodup (acc : list (string * (Z * list V))) (e : E) :
  NoDup (map fst acc) -> NoDup (map fst (step acc e)).
Proof.
  intros H. rewrite step_eq. cbv zeta.
  destruct (Py.dict_get (key e) acc) as [[c vs]|] eqn:Eg.
  - rewrite Eg. now apply dict_set_nodup.
  - rewrite dict_get_set_eq. now apply dict_set_nodup, dict_set_nodup.
Qed.

(** After the loop the dict holds, for every key met, how many elements
    carry it and their values in order, and nothing for any other key. *)
Lemma fold_step_get (es : list E) (a : string) :
  Py.dict_get a (fold_left step es [])
  = match filter (fun e => key e = a) es with
    | [] => None
    | l => Some (Z.of_nat (length l), map val l)
    end.
Proof.
  induction es as [|e es IH] using rev_ind; [reflexivity|].
  rewrite fold_left_app. cbn [fold_left]. rewrite step_get, IH.
  rewrite filter_app, filter_cons, filter_nil.
  destruct (decide (key e = a)) as [Hk|Hk].
  - destruct (filter _ es) as [|x l]; cbn [default from_option id app];
      [reflexivity|].
    f_equal. f_equal.
    + cbn [length]. rewrite length_app. simpl. lia.
    + cbn [map]. now rewrite map_app.
  - now rewrite app_nil_r.
Qed.

Lemma fold_step_nodup (es : list E) :
  NoDup (map fst (fold_left step es [])).
Proof.
  induction es as [|e es IH] using rev_ind; [apply NoDup_nil_2|].
  rewrite fold_left_app. cbn [fold_left]. now apply step_nodup.
Qed.

End Grouping.

(* ===================================================================== *)
(** ** More on the performance monitor *)
(* ===================================================================== *)

Lemma filter_success_length (log : list PerformanceMonitor.log_entry) :
  length (filter (fun e => PerformanceMonitor.success e = true) log)
  = length (List.filter PerformanceMonitor.success log).
Proof.
  induction log as [|e log IH]; [reflexivity|].
  rewrite filter_cons. cbn [List.filter].
  destruct (decide (PerformanceMonitor.success e = true)) as [H|H].
  - rewrite H. simpl. now rewrite IH.
  - destruct (PerformanceMonitor.success e); [congruence|exact IH].
Qed.

Lemma succeeded_failed_total (log : list PerformanceMonitor.log_entry) :
  (Spec.succeeded log + Spec.failed log = Z.of_nat (length log))%Z.
Proof.
  unfold Spec.succeeded, Spec.failed.
  induction log as [|e log IH]; [reflexivity|].
  simpl. destruct (PerformanceMonitor.success e); simpl; lia.
Qed.

(** X14. For a non-empty log [get_stats] reports the number of entries as
    [total_queries], the number of entries with [success = True] as
    [success_count] and the number of entries with [success = False] as
    [error_count]; the two counts add up to the total. *)
Theorem perf_stats_counts (m : PerformanceMonitor.t) :
  PerformanceMonitor.metrics m <> [] ->
  let stats := PerformanceMonitor.get_stats m in
  let log := PerformanceMonitor.metrics m in
  Py.dict_get "total_queries" stats = Some (Py.VInt (Z.of_nat (length log))) /\
  Py.dict_get "success_count" stats = Some (Py.VInt (Spec.succeeded log)) /\
  Py.dict_get "error_count" stats = Some (Py.VInt (Spec.failed log)) /\
  (Spec.succeeded log + Spec.failed log = Z.of_nat (length log))%Z.
Proof.
  intros Hne stats log. subst stats log.
  pose proof (succeeded_failed_total (PerformanceMonitor.metrics m)) as Hsum.
  unfold PerformanceMonitor.get_stats.
  destruct (PerformanceMonitor.metrics m) as [|e log] eqn:E; [congruence|].
  cbn [Py.dict_get String.eqb Ascii.eqb Bool.eqb].
  rewrite filter_success_length. fold (Spec.succeeded (e :: log)).
  repeat split; try exact Hsum. do 2 f_equal. lia.
Qed.

Lemma perf_stats_counts_witness :
  Py.dict_get "error_count"
    (PerformanceMonitor.get_stats FixtureMonitor.five_entries)
  = Some (Py.VInt 1).
Proof.
  destruct (perf_stats_counts FixtureMonitor.five_entries) as (_ & _ & H & _).
  - discriminate.
  - rewrite H. reflexivity.
Defined.

Lemma perf_group_step_eq (acc : list (string * (Z * list float)))
  (e : PerformanceMonitor.log_entry) :
  PerformanceMonitor.group_step acc e
  = let acc1 := match Py.dict_get (PerformanceMonitor.agent_type e) acc with
                | None => Py.dict_set (PerformanceMonitor.agent_type e) (0%Z, []) acc
                | Some _ => acc
                end in
    match Py.dict_get (PerformanceMonitor.agent_type e) acc1 with
    | Some (count, vals) =>
        Py.dict_set (PerformanceMonitor.agent_type e)
                    ((count + 1)%Z, vals ++ [PerformanceMonitor.response_time_seconds e])
                    acc1
    | None => acc1
    end.
Proof. reflexivity. Qed.

Lemma agent_summary_get (g : list (string * (Z * list float))) (a : string) :
  Py.dict_get a (map PerformanceMonitor.agent_summary g)
  = option_map
      (fun v : Z * list float =>
         Py.VDict
           [("count", Py.VInt v.1);
            ("avg_time", Py.VFloat (Py.round (Spec.mean_time v.2) 3))])
      (Py.dict_get a g).
Proof.
  induction g as [|[k [c ts]] g IH]; [reflexivity|].
  simpl. now destruct (String.eqb a k).
Qed.

Lemma agent_summary_keys (g : list (string * (Z * list float))) :
  map fst (map PerformanceMonitor.agent_summary g) = map fst g.
Proof. rewrite map_map. apply map_ext. now intros [k [c ts]]. Qed.

(** X15. For a non-empty log, [by_agent] of [get_stats] has one item per
    agent tag that occurs in the log and none for any other tag; the item
    gives the number of entries of that agent and the mean of their
    response times rounded to 3 decimals. *)
Theorem perf_stats_by_agent (m : PerformanceMonitor.t) (a : string) :
  PerformanceMonitor.metrics m <> [] ->
  exists by_agent,
    Py.dict_get "by_agent" (PerformanceMonitor.get_stats m)
    = Some (Py.VDict by_agent) /\
    NoDup (map fst by_agent) /\
    Py.dict_get a by_agent
    = match Spec.entries_of a (PerformanceMonitor.metrics m) with
      | [] => None
      | l => Some (Spec.agent_stats l)
      end.
Proof.
  intros Hne. unfold PerformanceMonitor.get_stats.
  destruct (PerformanceMonitor.metrics m) as [|e0 log] eqn:E; [congruence|].
  rewrite <- E. clear E Hne e0 log.
  eexists. split; [reflexivity|].
  set (G := fold_left PerformanceMonitor.group_step (PerformanceMonitor.metrics m) []).
  split.
  - rewrite agent_summary_keys.
    apply (fold_step_nodup PerformanceMonitor.agent_type
             PerformanceMonitor.response_time_seconds
             PerformanceMonitor.group_step perf_group_step_eq).
  - rewrite agent_summary_get. unfold G.
    rewrite (fold_step_get PerformanceMonitor.agent_type
               PerformanceMonitor.response_time_seconds
               PerformanceMonitor.group_step perf_group_step_eq).
    unfold Spec.entries_of.
    destruct (filter _ (PerformanceMonitor.metrics m)) as [|x l];
      [reflexivity|].
    cbn [option_map]. unfold Spec.agent_stats. cbn [fst snd].
    reflexivity.
Qed.

Lemma perf_stats_by_agent_witness :
  (exists by_agent,
      Py.dict_get "by_agent" (PerformanceMonitor.get_stats FixtureMonitor.five_entries)
      = Some (Py.VDict by_agent) /\
      Py.dict_get "marketing" by_agent = None /\
      Py.dict_get "knowledge" by_agent
      = Some (Py.VDict [("count", Py.VInt 5); ("avg_time", Py.VFloat 2.8%float)])) /\
  (exists by_agent,
      Py.dict_get "by_agent" (PerformanceMonitor.get_stats FixtureMonitor.two_fast)
      = Some (Py.VDict by_agent) /\
      Py.dict_get "knowledge" by_agent
      = Some (Py.VDict [("count", Py.VInt 2); ("avg_time", Py.VFloat 0.003%float)])).
Proof.
  split.
  - destruct (perf_stats_by_agent FixtureMonitor.five_entries "knowledge")
      as (by_agent & Hb & _ & Hk); [discriminate|].
    destruct (perf_stats_by_agent FixtureMonitor.five_entries "marketing")
      as (by_agent' & Hb' & _ & Hm); [discriminate|].
    exists by_agent. split; [exact Hb|].
    rewrite Hb in Hb'. injection Hb' as <-. split.
    + rewrite Hm. reflexivity.
    + rewrite Hk. vm_compute. reflexivity.
  - destruct (perf_stats_by_agent FixtureMonitor.two_fast "knowledge")
      as (by_agent & Hb & _ & Hk); [discriminate|].
    exists by_agent. split; [exact Hb|]. rewrite Hk. vm_compute. reflexivity.
Defined.

Lemma prefix_length (n : nat) (s : string) :
  (String.length (PyStr.prefix n s) <= n)%nat.
Proof. unfold PyStr.prefix. rewrite text_length, length_take. lia. Qed.

(** X16. [detect_anomalies] never returns more than 20 anomalies (two per
    entry of the window of 10); each of them is tagged [slow_query] or
    [error] and quotes at most the first 50 characters of the query. *)
Theorem detect_anomalies_bounded (m : PerformanceMonitor.t) :
  (length (PerformanceMonitor.detect_anomalies m) <= 20)%nat /\
  (forall a, In a (PerformanceMonitor.detect_anomalies m) ->
     (Py.dict_get "type" a = Some (Py.VStr "slow_query")
      \/ Py.dict_get "type" a = Some (Py.VStr "error")) /\
     exists q, Py.dict_get "query" a = Some (Py.VStr q) /\
               (String.length q <= 50)%nat).
Proof.
  unfold PerformanceMonitor.detect_anomalies.
  destruct (length (PerformanceMonitor.metrics m) <? 5)%nat;
    [split; [simpl; lia | intros a []]|].
  rewrite slice_last_ten. split.
  - rewrite length_check_metrics.
    pose proof (most_recent_length 10 (PerformanceMonitor.metrics m)) as Hw.
    pose proof (filter_length_le
                  (fun e => PrimFloat.ltb
                              (PrimFloat.mul
                                 (PerformanceMonitor.avg_time_of
                                    (PerformanceMonitor.metrics m))
                                 (Py.float_of_int 2))
                              (PerformanceMonitor.response_time_seconds e))
                  (Spec.most_recent 10 (PerformanceMonitor.metrics m))).
    pose proof (filter_length_le
                  (fun e => negb (PerformanceMonitor.success e))
                  (Spec.most_recent 10 (PerformanceMonitor.metrics m))).
    lia.
  - intros a Ha. apply in_flat_map in Ha as (e & _ & Ha).
    apply in_check_metric in Ha as [[_ ->]|[_ ->]].
    + split; [now left|]. eexists. split; [reflexivity|apply prefix_length].
    + split; [now right|]. eexists. split; [reflexivity|apply prefix_length].
Qed.

(* ===================================================================== *)
(** ** More on the feedback collector *)
(* ===================================================================== *)

Lemma insert_newest_perm (x : FeedbackCollector.feedback)
  (l : list FeedbackCollector.feedback) :
  Permutation (FeedbackCollector.insert_newest x l) (x :: l).
Proof.
  induction l as [|y l IH]; simpl; [reflexivity|].
  destruct (_ <=? _)%Z; [reflexivity|].
  rewrite IH. apply perm_swap.
Qed.

Lemma sort_newest_first_perm (l : list FeedbackCollector.feedback) :
  Permutation (FeedbackCollector.sort_newest_first l) l.
Proof.
  induction l as [|x l IH]; simpl; [reflexivity|].
  rewrite insert_newest_perm. now constructor.
Qed.

Lemma insert_newest_sorted (x : FeedbackCollector.feedback)
  (l : list FeedbackCollector.feedback) :
  Spec.newest_first l -> Spec.newest_first (FeedbackCollector.insert_newest x l).
Proof.
  induction l as [|y l IH]; simpl; [now split|].
  intros [Hy Hl]. destruct (Z.leb_spec (FeedbackCollector.timestamp y)
                                       (FeedbackCollector.timestamp x)).
  - simpl. split; [|now split].
    apply Forall_cons; split; [assumption|].
    eapply Forall_impl; [exact Hy|]. simpl. intros; lia.
  - simpl. split; [|now apply IH].
    rewrite (insert_newest_perm x l). apply Forall_cons; split; [lia|exact Hy].
Qed.

Lemma sort_newest_first_sorted (l : list FeedbackCollector.feedback) :
  Spec.newest_first (FeedbackCollector.sort_newest_first l).
Proof.
  induction l as [|x l IH]; simpl; [exact I|]. now apply insert_newest_sorted.
Qed.

Lemma newest_first_split (n : nat) (l : list FeedbackCollector.feedback) :
  Spec.newest_first l ->
  Spec.newest_first (take n l) /\
  (forall f g, In f (take n l) -> In g (drop n l) ->
               (FeedbackCollector.timestamp g <= FeedbackCollector.timestamp f)%Z).
Proof.
  revert n. induction l as [|x l IH]; intros n Hs.
  - rewrite take_nil, drop_nil. split; [exact I|]. intros f g [].
  - destruct n as [|n]; [split; [exact I | intros f g []]|].
    destruct Hs as [Hx Hl]. destruct (IH n Hl) as [IH1 IH2].
    cbn [take drop firstn skipn]. split.
    + simpl. split; [|exact IH1].
      rewrite <- (take_drop n l) in Hx. now apply Forall_app in Hx as [Hx _].
    + intros f g [<-|Hf] Hg; [|now apply IH2].
      rewrite List.Forall_forall in Hx. apply Hx.
      rewrite <- (take_drop n l). apply in_or_app. now right.
Qed.

(** What both queries do with their selection. *)
Lemma newest_selection (p : FeedbackCollector.feedback -> bool)
  (l : list FeedbackCollector.feedback) (limit : Z) :
  (0 <= limit)%Z ->
  let got := FeedbackCollector.slice_to
               limit (FeedbackCollector.sort_newest_first (List.filter p l)) in
  Forall (fun f => p f = true /\ In f l) got /\
  Spec.newest_first got /\
  (Z.of_nat (length got) <= limit)%Z /\
  exists rest,
    Permutation (got ++ rest) (List.filter p l) /\
    (forall f g, In f got -> In g rest ->
                 (FeedbackCollector.timestamp g <= FeedbackCollector.timestamp f)%Z) /\
    ((Z.of_nat (length (List.filter p l)) <= limit)%Z -> rest = []).
Proof.
  intros Hlimit got. subst got. unfold FeedbackCollector.slice_to.
  destruct (Z.ltb_spec limit 0); [lia|].
  set (sorted := FeedbackCollector.sort_newest_first (List.filter p l)).
  pose proof (sort_newest_first_perm (List.filter p l)) as Hperm. fold sorted in Hperm.
  destruct (newest_first_split (Z.to_nat limit) sorted
              (sort_newest_first_sorted _)) as [Hs Hrest].
  split; [|split; [exact Hs|split]].
  - apply List.Forall_forall. intros f Hf.
    assert (Hin : In f (List.filter p l)).
    { apply (Permutation_in _ Hperm).
      rewrite <- (take_drop (Z.to_nat limit) sorted). apply in_or_app. now left. }
    apply filter_In in Hin. tauto.
  - rewrite length_take. lia.
  - exists (drop (Z.to_nat limit) sorted). split; [|split].
    + now rewrite take_drop.
    + exact Hrest.
    + intros Hall. apply drop_ge.
      rewrite (Permutation_length Hperm). lia.
Qed.

(** X19. [get_negative_feedback(limit)] and [get_positive_feedback(limit)]
    with [limit >= 0] return feedbacks of the collector rated below 4,
    respectively at least 4, newest first and at most [limit] of them; no
    candidate left out by the limit is newer than one that is returned. *)
Theorem feedback_queries_newest (c : FeedbackCollector.t) (limit : Z) :
  (0 <= limit)%Z ->
  let negative := FeedbackCollector.get_negative_feedback c limit in
  let positive := FeedbackCollector.get_positive_feedback c limit in
  Forall (fun f => (FeedbackCollector.rating f < 4)%Z
                   /\ In f (FeedbackCollector.feedbacks c)) negative /\
  Forall (fun f => (4 <= FeedbackCollector.rating f)%Z
                   /\ In f (FeedbackCollector.feedbacks c)) positive /\
  Spec.newest_first negative /\ Spec.newest_first positive /\
  (Z.of_nat (length negative) <= limit)%Z /\
  (Z.of_nat (length positive) <= limit)%Z /\
  (forall f g,
      In f negative -> In g (FeedbackCollector.feedbacks c) ->
      (FeedbackCollector.rating g < 4)%Z ->
      (FeedbackCollector.timestamp f < FeedbackCollector.timestamp g)%Z ->
      In g negative) /\
  (forall f g,
      In f positive -> In g (FeedbackCollector.feedbacks c) ->
      (4 <= FeedbackCollector.rating g)%Z ->
      (FeedbackCollector.timestamp f < FeedbackCollector.timestamp g)%Z ->
      In g positive).
Proof.
  intros Hlimit negative positive. subst negative positive.
  unfold FeedbackCollector.get_negative_feedback,
    FeedbackCollector.get_positive_feedback. cbv zeta.
  destruct (newest_selection (fun f => (FeedbackCollector.rating f <? 4)%Z)
              (FeedbackCollector.feedbacks c) limit Hlimit)
    as (Hn1 & Hn2 & Hn3 & restn & Hn4 & Hn5 & _).
  destruct (newest_selection (fun f => (4 <=? FeedbackCollector.rating f)%Z)
              (FeedbackCollector.feedbacks c) limit Hlimit)
    as (Hp1 & Hp2 & Hp3 & restp & Hp4 & Hp5 & _).
  cbv zeta in *.
  repeat split; try assumption.
  - eapply Forall_impl; [exact Hn1|]. simpl. intros f [Hf ?].
    split; [now apply Z.ltb_lt|assumption].
  - eapply Forall_impl; [exact Hp1|]. simpl. intros f [Hf ?].
    split; [now apply Z.leb_le|assumption].
  - intros f g Hf Hg Hr Ht.
    assert (Hin : In g (List.filter (fun f => (FeedbackCollector.rating f <? 4)%Z)
                                    (FeedbackCollector.feedbacks c)))
      by (apply filter_In; split; [assumption | now apply Z.ltb_lt]).
    apply (Permutation_in _ (Permutation_sym Hn4)) in Hin.
    apply in_app_or in Hin as [Hin|Hin]; [exact Hin|].
    specialize (Hn5 f g Hf Hin). lia.
  - intros f g Hf Hg Hr Ht.
    assert (Hin : In g (List.filter (fun f => (4 <=? FeedbackCollector.rating f)%Z)
                                    (FeedbackCollector.feedbacks c)))
      by (apply filter_In; split; [assumption | now apply Z.leb_le]).
    apply (Permutation_in _ (Permutation_sym Hp4)) in Hin.
    apply in_app_or in Hin as [Hin|Hin]; [exact Hin|].
    specialize (Hp5 f g Hf Hin). lia.
Qed.

Lemma feedback_queries_newest_witness :
  map FeedbackCollector.rating
      (FeedbackCollector.get_negative_feedback FixtureFeedback.timed_ratings 1)
  = [3%Z] /\
  (length (FeedbackCollector.get_positive_feedback FixtureFeedback.timed_ratings 2)
   <= 2)%nat.
Proof.
  destruct (feedback_queries_newest FixtureFeedback.timed_ratings 2)
    as (_ & _ & _ & _ & _ & Hlen & _); [lia|].
  split; [vm_compute; reflexivity | lia].
Defined.

Lemma filter_partition_perm {A : Type} (p q : A -> bool) (l : list A) :
  (forall x, q x = negb (p x)) ->
  Permutation (List.filter p l ++ List.filter q l) l.
Proof.
  intros Hq. induction l as [|x l IH]; [reflexivity|].
  simpl. rewrite Hq. destruct (p x); simpl.
  - now constructor.
  - rewrite <- Permutation_middle. now constructor.
Qed.

(** X20. With a limit at least the number of feedbacks, every feedback is
    returned by exactly one of the two queries: together they are a
    rearrangement of the collection. *)
Theorem feedback_queries_partition (c : FeedbackCollector.t) (limit : Z) :
  (Z.of_nat (length (FeedbackCollector.feedbacks c)) <= limit)%Z ->
  Permutation (FeedbackCollector.get_negative_feedback c limit
                 ++ FeedbackCollector.get_positive_feedback c limit)
              (FeedbackCollector.feedbacks c).
Proof.
  intros Hlimit.
  unfold FeedbackCollector.get_negative_feedback,
    FeedbackCollector.get_positive_feedback. cbv zeta.
  assert (H0 : (0 <= limit)%Z) by lia.
  destruct (newest_selection (fun f => (FeedbackCollector.rating f <? 4)%Z)
              (FeedbackCollector.feedbacks c) limit H0)
    as (_ & _ & _ & restn & Hn & _ & Hn0).
  destruct (newest_selection (fun f => (4 <=? FeedbackCollector.rating f)%Z)
              (FeedbackCollector.feedbacks c) limit H0)
    as (_ & _ & _ & restp & Hp & _ & Hp0).
  cbv zeta in *.
  pose proof (filter_length_le (fun f => (FeedbackCollector.rating f <? 4)%Z)
                (FeedbackCollector.feedbacks c)).
  pose proof (filter_length_le (fun f => (4 <=? FeedbackCollector.rating f)%Z)
                (FeedbackCollector.feedbacks c)).
  rewrite Hn0 in Hn by lia. rewrite Hp0 in Hp by lia.
  rewrite !app_nil_r in *. rewrite Hn, Hp.
  apply filter_partition_perm. intros f. apply Z.leb_antisym.
Qed.

Lemma feedback_queries_partition_witness :
  Permutation
    (FeedbackCollector.get_negative_feedback FixtureFeedback.timed_ratings 5
       ++ FeedbackCollector.get_positive_feedback FixtureFeedback.timed_ratings 5)
    (FeedbackCollector.feedbacks FixtureFeedback.timed_ratings).
Proof.
  apply (feedback_queries_partition FixtureFeedback.timed_ratings 5).
  vm_compute. discriminate.
Defined.

(** What one [add_feedback] call appends. *)
Lemma add_feedback_call_step (c : FeedbackCollector.t) (k : Spec.feedback_call) :
  exists f,
    FeedbackCollector.feedbacks (Spec.add_feedback_call c k).1
    = FeedbackCollector.feedbacks c ++ [f] /\
    FeedbackCollector.file (Spec.add_feedback_call c k).1
    = FeedbackCollector.file c ++ [f] /\
    FeedbackCollector.id f = Z.of_nat (S (length (FeedbackCollector.feedbacks c))) /\
    FeedbackCollector.response f = PyStr.prefix 200 (Spec.f_response k) /\
    FeedbackCollector.rating f = Spec.f_rating k /\
    FeedbackCollector.agent_type f = Spec.f_agent k /\
    FeedbackCollector.timestamp f = Spec.f_time k.
Proof.
  unfold Spec.add_feedback_call, FeedbackCollector.add_feedback. simpl.
  eexists. repeat split. simpl. lia.
Qed.

(** What a sequence of [add_feedback] calls appends. *)
Lemma add_feedbacks_appends (calls : list Spec.feedback_call) (c : FeedbackCollector.t) :
  exists new,
    FeedbackCollector.feedbacks (Spec.add_feedbacks c calls)
    = FeedbackCollector.feedbacks c ++ new /\
    FeedbackCollector.file (Spec.add_feedbacks c calls)
    = FeedbackCollector.file c ++ new /\
    map FeedbackCollector.id new
    = map Z.of_nat (seq (S (length (FeedbackCollector.feedbacks c))) (length calls)) /\
    Forall2 (fun f k =>
               FeedbackCollector.response f = PyStr.prefix 200 (Spec.f_response k) /\
               FeedbackCollector.rating f = Spec.f_rating k /\
               FeedbackCollector.agent_type f = Spec.f_agent k /\
               FeedbackCollector.timestamp f = Spec.f_time k)
            new calls.
Proof.
  revert c. induction calls as [|k calls IH]; intros c.
  - exists []. now rewrite !app_nil_r.
  - unfold Spec.add_feedbacks. cbn [fold_left].
    fold (Spec.add_feedbacks (Spec.add_feedback_call c k).1 calls).
    destruct (IH (Spec.add_feedback_call c k).1) as (new & Hf & Hfile & Hid & Hall).
    destruct (add_feedback_call_step c k)
      as (f & Hf1 & Hfile1 & Hid1 & Hr & Hrate & Hagent & Htime).
    exists (f :: new). rewrite Hf, Hfile, Hf1, Hfile1, <- !app_assoc.
    split; [reflexivity|]. split; [reflexivity|]. split.
    + cbn [map length seq]. f_equal; [exact Hid1|].
      rewrite Hid, Hf1, length_app. simpl. do 2 f_equal. lia.
    + apply Forall2_cons. split; [now repeat split | exact Hall].
Qed.

(** X17. [add_feedback] numbers the feedbacks consecutively: the calls of a
    sequence get the ids following the number of feedbacks already held, in
    order, each id being the size of the collection after its call; the
    entries are appended, to the list and to the file, after those already
    there. A collector that starts empty holds the ids 1, 2, ..., n. *)
Theorem feedback_ids_consecutive (c : FeedbackCollector.t)
  (calls : list Spec.feedback_call) :
  let c' := Spec.add_feedbacks c calls in
  let n0 := length (FeedbackCollector.feedbacks c) in
  exists new,
    FeedbackCollector.feedbacks c' = FeedbackCollector.feedbacks c ++ new /\
    FeedbackCollector.file c' = FeedbackCollector.file c ++ new /\
    map FeedbackCollector.id new = map Z.of_nat (seq (S n0) (length calls)) /\
    NoDup (map FeedbackCollector.id new) /\
    (forall k, (Spec.add_feedback_call c' k).2
               = Z.of_nat (length (FeedbackCollector.feedbacks
                                     (Spec.add_feedback_call c' k).1))).
Proof.
  intros c' n0. subst c' n0.
  destruct (add_feedbacks_appends calls c) as (new & Hf & Hfile & Hid & _).
  exists new. repeat split; try assumption.
  - rewrite Hid. apply (NoDup_fmap_2 Z.of_nat), NoDup_seq.
  - intros k. unfold Spec.add_feedback_call, FeedbackCollector.add_feedback.
    cbn [fst snd FeedbackCollector.id FeedbackCollector.feedbacks].
    rewrite length_app. simpl. lia.
Qed.

(** X18. Every feedback stored by [add_feedback] keeps at most the first 200
    characters of the response, and the rating exactly as given, whatever
    its value. *)
Theorem feedback_preview_bounded (c : FeedbackCollector.t)
  (calls : list Spec.feedback_call) :
  exists new,
    FeedbackCollector.feedbacks (Spec.add_feedbacks c calls)
    = FeedbackCollector.feedbacks c ++ new /\
    Forall (fun f => (String.length (FeedbackCollector.response f) <= 200)%nat) new /\
    map FeedbackCollector.response new
    = map (fun k => PyStr.prefix 200 (Spec.f_response k)) calls /\
    map FeedbackCollector.rating new = map Spec.f_rating calls.
Proof.
  destruct (add_feedbacks_appends calls c) as (new & Hf & _ & _ & Hall).
  exists new. split; [exact Hf|].
  clear Hf. induction Hall as [|f k new calls (Hr & Hrate & _) _ (IH1 & IH2 & IH3)].
  - repeat split. constructor.
  - repeat split.
    + apply Forall_cons; split; [|exact IH1]. rewrite Hr. apply prefix_length.
    + simpl. now rewrite Hr, IH2.
    + simpl. now rewrite Hrate, IH3.
Qed.






(* ===================================================================== *)
(** ** More on the dispatcher *)
(* ===================================================================== *)

(** The [try] block, stage by stage: a dispatch served from the cache. *)
Lemma route_try_hit (s : SupervisorAgent.t) (w : SupervisorAgent.world)
  (query session_id : string) (n_results : Z)
  (filters : option (list (string * Json.json))) (a : ascii) (rest : string) :
  (SupervisorAgent.check_cache s w query).2 = Some (String a rest) ->
  SupervisorAgent.route_try s w query session_id n_results filters
  = ((SupervisorAgent.check_cache s w query).1, [],
     Py.Ok (SupervisorAgent.cached_result (String a rest))).
Proof.
  intros H. unfold SupervisorAgent.route_try.
  destruct (SupervisorAgent.check_cache s w query) as [s0 cached].
  simpl in H. now subst cached.
Qed.

(** A dispatch that is not served from the cache: the lookup missed, or
    found the empty answer. *)
Lemma route_try_miss (s : SupervisorAgent.t) (w : SupervisorAgent.world)
  (query session_id : string) (n_results : Z)
  (filters : option (list (string * Json.json))) :
  (SupervisorAgent.check_cache s w query).2 = None \/
  (SupervisorAgent.check_cache s w query).2 = Some "" ->
  SupervisorAgent.route_try s w query session_id n_results filters
  = match SupervisorAgent.classify_query
            (SupervisorAgent.check_cache s w query).1 w query with
    | (s1, Py.Raise e) => (s1, [], Py.Raise e)
    | (s1, Py.Ok agent_type) =>
        match SupervisorAgent.invoke_responder s1 w query agent_type
                                               n_results filters with
        | (s2, Py.Raise e) => (s2, [], Py.Raise e)
        | (s2, Py.Ok (response, result)) =>
            SupervisorAgent.store_and_return s2 w query session_id agent_type
                                             response result
        end
    end.
Proof.
  intros H. unfold SupervisorAgent.route_try.
  destruct (SupervisorAgent.check_cache s w query) as [s0 cached].
  simpl in H |- *. now destruct H as [-> | ->].
Qed.

Lemma check_cache_cases (s : SupervisorAgent.t) (w : SupervisorAgent.world)
  (query : string) :
  (exists a rest, (SupervisorAgent.check_cache s w query).2 = Some (String a rest))
  \/ (SupervisorAgent.check_cache s w query).2 = None
  \/ (SupervisorAgent.check_cache s w query).2 = Some "".
Proof.
  destruct (SupervisorAgent.check_cache s w query).2 as [[|a rest]|]; eauto.
Qed.

Lemma keeps_switches_refl (s : SupervisorAgent.t) : Spec.keeps_switches s s.
Proof. now repeat split. Qed.

Lemma keeps_switches_trans (s1 s2 s3 : SupervisorAgent.t) :
  Spec.keeps_switches s1 s2 -> Spec.keeps_switches s2 s3 ->
  Spec.keeps_switches s1 s3.
Proof.
  intros (Hm & Hc & Ho & Hf & Hfb & Hkc & Hkm & Hko)
         (Hm' & Hc' & Ho' & Hf' & Hfb' & Hkc' & Hkm' & Hko').
  repeat split; try congruence.
  - intros H. rewrite Hkc' by congruence. auto.
  - intros H. rewrite Hkm' by congruence. auto.
  - intros H. rewrite Hko' by congruence. auto.
Qed.

Lemma check_cache_switches (s : SupervisorAgent.t) (w : SupervisorAgent.world)
  (query : string) :
  Spec.keeps_switches s (SupervisorAgent.check_cache s w query).1.
Proof.
  unfold SupervisorAgent.check_cache.
  destruct (SupervisorAgent.enable_cache s) eqn:Hc; [|apply keeps_switches_refl].
  destruct (ResponseCache.get _ _ _ _ _).
  repeat split; cbn; congruence.
Qed.

Lemma classify_query_switches (s : SupervisorAgent.t) (w : SupervisorAgent.world)
  (query : string) :
  Spec.keeps_switches s (SupervisorAgent.classify_query s w query).1.
Proof.
  unfold SupervisorAgent.classify_query.
  destruct (SupervisorAgent.classifier_reply w); now repeat split.
Qed.

Lemma invoke_responder_switches (s : SupervisorAgent.t) (w : SupervisorAgent.world)
  (query agent_type : string) (n_results : Z)
  (filters : option (list (string * Json.json))) :
  Spec.keeps_switches
    s (SupervisorAgent.invoke_responder s w query agent_type n_results filters).1.
Proof.
  unfold SupervisorAgent.invoke_responder.
  destruct (String.eqb agent_type "marketing").
  - destruct (SupervisorAgent.marketing_reply w); now repeat split.
  - destruct (SupervisorAgent.knowledge_reply w); now repeat split.
Qed.

Lemma store_and_return_switches (s : SupervisorAgent.t) (w : SupervisorAgent.world)
  (query session_id agent_type response : string)
  (result : list (string * Py.pyval)) :
  Spec.keeps_switches
    s (SupervisorAgent.store_and_return s w query session_id agent_type
                                        response result).1.1.
Proof.
  rewrite store_and_return_eq. cbn zeta.
  destruct (SupervisorAgent.enable_cache s) eqn:Hc;
    destruct (SupervisorAgent.enable_memory s) eqn:Hm; cbn;
    repeat split; cbn; congruence.
Qed.

Lemma route_try_switches (s : SupervisorAgent.t) (w : SupervisorAgent.world)
  (query session_id : string) (n_results : Z)
  (filters : option (list (string * Json.json))) :
  Spec.keeps_switches
    s (SupervisorAgent.route_try s w query session_id n_results filters).1.1.
Proof.
  pose proof (check_cache_switches s w query) as H0.
  destruct (check_cache_cases s w query) as [(a & rest & Hhit) | Hmiss].
  - now rewrite (route_try_hit _ _ _ _ _ _ _ _ Hhit).
  - rewrite (route_try_miss _ _ _ _ _ _ Hmiss).
    set (s0 := (SupervisorAgent.check_cache s w query).1) in *.
    pose proof (classify_query_switches s0 w query) as H1.
    destruct (SupervisorAgent.classify_query s0 w query) as [s1 [agent_type|e]];
      cbn in H1 |- *; [|exact (keeps_switches_trans _ _ _ H0 H1)].
    pose proof (invoke_responder_switches s1 w query agent_type n_results filters)
      as H2.
    destruct (SupervisorAgent.invoke_responder _ _ _ _ _ _)
      as [s2 [[response result]|e]]; cbn in H2 |- *.
    + exact (keeps_switches_trans _ _ _
               (keeps_switches_trans _ _ _ (keeps_switches_trans _ _ _ H0 H1) H2)
               (store_and_return_switches s2 w query session_id agent_type
                                          response result)).
    + exact (keeps_switches_trans _ _ _ (keeps_switches_trans _ _ _ H0 H1) H2).
Qed.

(** The [finally] block: what it does to the state left by the [try]
    block. *)
Lemma route_query_finally (s : SupervisorAgent.t) (w : SupervisorAgent.world)
  (query session_id : string) (n_results : Z)
  (filters : option (list (string * Json.json))) :
  let t := SupervisorAgent.route_try s w query session_id n_results filters in
  let r := SupervisorAgent.route_query s w query session_id n_results filters in
  r.2 = t.2 /\
  SupervisorAgent.memory r.1 = SupervisorAgent.memory t.1.1 /\
  SupervisorAgent.cache r.1 = SupervisorAgent.cache t.1.1 /\
  SupervisorAgent.calls r.1 = SupervisorAgent.calls t.1.1 /\
  Spec.keeps_switches t.1.1 r.1 /\
  (SupervisorAgent.enable_monitoring s = true ->
   SupervisorAgent.monitor r.1
   = PerformanceMonitor.log_query
       (SupervisorAgent.monitor s) (SupervisorAgent.now_log w) session_id query
       (match t.1.2 with
        | [] => "error"
        | _ => Py.dict_get_str "agent" "unknown" t.1.2
        end)
       (match t.1.2 with
        | [] => ""
        | _ => Py.dict_get_str "answer" "" t.1.2
        end)
       (SupervisorAgent.elapsed w)
       (negb (SupervisorAgent.raised t.2))
       (match t.2 with Py.Raise e => Some e | Py.Ok _ => None end)
       None).
Proof.
  intros t r. subst t r. unfold SupervisorAgent.route_query.
  destruct (route_try_frame s w query session_id n_results filters) as [Hm He].
  destruct (SupervisorAgent.route_try s w query session_id n_results filters)
    as [[s' result] out]. cbn in Hm, He |- *.
  destruct out as [res|msg];
    destruct (SupervisorAgent.enable_monitoring s') eqn:Hmon; cbn;
    repeat split; cbn; try congruence;
    try (intros _; rewrite Hm; destruct result; reflexivity).
Qed.

(** X22. A dispatch never changes the four switches or the feedback
    collector, and never touches a subsystem that is switched off: with the
    cache disabled the cache is as before, with the memory disabled the
    sessions are as before, with monitoring disabled nothing is logged.
    [submit_feedback] with feedback disabled stores nothing and returns
    [None]. *)
Theorem disabled_subsystems_untouched (s : SupervisorAgent.t)
  (w : SupervisorAgent.world) (query session_id : string) (n_results : Z)
  (filters : option (list (string * Json.json))) :
  Spec.keeps_switches
    s (SupervisorAgent.route_query s w query session_id n_results filters).1 /\
  forall now response rating comment agent_type,
    SupervisorAgent.enable_feedback s = false ->
    SupervisorAgent.submit_feedback s now session_id query response rating
                                    comment agent_type
    = (s, None).
Proof.
  split.
  - destruct (route_query_finally s w query session_id n_results filters)
      as (_ & _ & _ & _ & Hk & _).
    exact (keeps_switches_trans _ _ _ (route_try_switches _ _ _ _ _ _) Hk).
  - intros now response rating comment agent_type Hf.
    unfold SupervisorAgent.submit_feedback. now rewrite Hf.
Qed.

Lemma disabled_subsystems_untouched_witness :
  let s := SupervisorAgent.init false false false false None [] 0 Fixture.flat_dir in
  let r := SupervisorAgent.route_query s (FixtureSupervisor.world_knowledge 1)
                                       FixtureSupervisor.q_docs "s1" 3 None in
  SupervisorAgent.cache r.1 = SupervisorAgent.cache s /\
  SupervisorAgent.memory r.1 = SupervisorAgent.memory s /\
  SupervisorAgent.monitor r.1 = SupervisorAgent.monitor s /\
  SupervisorAgent.submit_feedback s 5 "s1" FixtureSupervisor.q_docs
                                  FixtureSupervisor.answer_docs 5 "" "knowledge"
  = (s, None).
Proof.
  intros s r.
  destruct (disabled_subsystems_untouched
              s (FixtureSupervisor.world_knowledge 1) FixtureSupervisor.q_docs
              "s1" 3 None)
    as [(_ & _ & _ & _ & _ & Hc & Hm & Ho) Hf].
  split; [apply Hc; reflexivity|]. split; [apply Hm; reflexivity|].
  split; [apply Ho; reflexivity|]. apply Hf. reflexivity.
Defined.

Lemma check_cache_memory (s : SupervisorAgent.t) (w : SupervisorAgent.world)
  (query : string) :
  SupervisorAgent.memory (SupervisorAgent.check_cache s w query).1
  = SupervisorAgent.memory s /\
  SupervisorAgent.calls (SupervisorAgent.check_cache s w query).1
  = SupervisorAgent.calls s /\
  SupervisorAgent.monitor (SupervisorAgent.check_cache s w query).1
  = SupervisorAgent.monitor s.
Proof.
  unfold SupervisorAgent.check_cache.
  destruct (SupervisorAgent.enable_cache s); [|now repeat split].
  now destruct (ResponseCache.get _ _ _ _ _).
Qed.

Lemma store_and_return_calls (s : SupervisorAgent.t) (w : SupervisorAgent.world)
  (query session_id agent_type response : string)
  (result : list (string * Py.pyval)) :
  SupervisorAgent.calls
    (SupervisorAgent.store_and_return s w query session_id agent_type
                                      response result).1.1
  = SupervisorAgent.calls s.
Proof.
  rewrite store_and_return_eq. cbn zeta.
  now destruct (SupervisorAgent.enable_cache s), (SupervisorAgent.enable_memory s).
Qed.

(** [add_exchange] raises exactly when the path of the session file is
    refused, and then leaves the in-memory update behind. *)
Lemma add_exchange_outcome (m : ConversationMemory.t) (now : Z)
  (session_id user_query agent_response agent_type : string)
  (metadata : option (list (string * Py.pyval))) :
  (ConversationMemory.add_exchange m now session_id user_query agent_response
                                   agent_type metadata).2
  = match ConversationMemory.locate m session_id with
    | Py.Ok _ => Py.Ok tt
    | Py.Raise e => Py.Raise e
    end.
Proof.
  unfold ConversationMemory.add_exchange, ConversationMemory._save_session.
  rewrite add_to_history_locate.
  now destruct (ConversationMemory.locate m session_id).
Qed.

Lemma add_exchange_refused (m : ConversationMemory.t) (now : Z)
  (session_id user_query agent_response agent_type : string)
  (metadata : option (list (string * Py.pyval))) (e : string) :
  ConversationMemory.locate m session_id = Py.Raise e ->
  ConversationMemory.add_exchange m now session_id user_query agent_response
                                  agent_type metadata
  = (ConversationMemory.add_to_history m now session_id user_query agent_response
                                       agent_type metadata,
     Py.Raise e).
Proof.
  intros He. unfold ConversationMemory.add_exchange, ConversationMemory._save_session.
  now rewrite add_to_history_locate, He.
Qed.

(** The [try] block of a dispatch that is not served from the cache:
    either a collaborator raises, and the block is left with [result] still
    empty and nothing stored, or the classifier and the responder it chose
    both return, and the block ends with [store_and_return]. *)
Lemma route_try_miss_cases (s : SupervisorAgent.t) (w : SupervisorAgent.world)
  (query session_id : string) (n_results : Z)
  (filters : option (list (string * Json.json))) :
  (SupervisorAgent.check_cache s w query).2 = None \/
  (SupervisorAgent.check_cache s w query).2 = Some "" ->
  let t := SupervisorAgent.route_try s w query session_id n_results filters in
  let s0 := (SupervisorAgent.check_cache s w query).1 in
  (exists e,
      (SupervisorAgent.classifier_reply w = Py.Raise e \/
       SupervisorAgent.knowledge_reply w = Py.Raise e \/
       SupervisorAgent.marketing_reply w = Py.Raise e) /\
      t.2 = Py.Raise e /\ t.1.2 = [] /\
      SupervisorAgent.memory t.1.1 = SupervisorAgent.memory s0 /\
      SupervisorAgent.cache t.1.1 = SupervisorAgent.cache s0)
  \/ (exists s2 tag answer result,
         (tag = "marketing" \/ tag = "knowledge") /\
         Py.dict_get "agent" result = Some (Py.VStr tag) /\
         Py.dict_get "answer" result = Some (Py.VStr answer) /\
         Py.dict_get "from_cache" result = None /\
         SupervisorAgent.memory s2 = SupervisorAgent.memory s0 /\
         SupervisorAgent.cache s2 = SupervisorAgent.cache s0 /\
         SupervisorAgent.enable_memory s2 = SupervisorAgent.enable_memory s0 /\
         SupervisorAgent.enable_cache s2 = SupervisorAgent.enable_cache s0 /\
         t = SupervisorAgent.store_and_return s2 w query session_id tag answer
                                              result).
Proof.
  intros Hmiss t s0. subst t. rewrite (route_try_miss _ _ _ _ _ _ Hmiss). fold s0.
  unfold SupervisorAgent.classify_query.
  destruct (SupervisorAgent.classifier_reply w) as [content|e] eqn:Hcl; cbn.
  2:{ left. exists e. repeat split; auto. }
  destruct (classify_content_tags content) as [Htag | Htag];
    unfold SupervisorAgent.invoke_responder; rewrite Htag; cbn.
  - destruct (SupervisorAgent.marketing_reply w) as [mr|e] eqn:Hmk; cbn.
    + right.
      exists (SupervisorAgent.record_call
                (SupervisorAgent.record_call s0 (SupervisorAgent.CallClassifier query))
                (SupervisorAgent.CallMarketing
                   (SupervisorAgent.campaign_type_of query)
                   (SupervisorAgent.target_audience_of query))),
        "marketing", (SupervisorAgent.m_content mr),
        [("agent", Py.VStr "marketing"); ("response_type", Py.VStr "campaign");
         ("campaign",
          Py.VDict (SupervisorAgent.campaign_dict
                      (SupervisorAgent.campaign_type_of query)
                      (SupervisorAgent.target_audience_of query) mr));
         ("answer", Py.VStr (SupervisorAgent.m_content mr))].
      split; [now left|]. repeat split.
    + left. exists e. repeat split; auto.
  - destruct (SupervisorAgent.knowledge_reply w) as [kr|e] eqn:Hkn; cbn.
    + right.
      exists (SupervisorAgent.record_call
                (SupervisorAgent.record_call s0 (SupervisorAgent.CallClassifier query))
                (SupervisorAgent.CallKnowledge query n_results filters)),
        "knowledge", (SupervisorAgent.k_answer kr),
        (Py.dict_update (SupervisorAgent.knowledge_dict kr)
                        [("agent", Py.VStr "knowledge");
                         ("response_type", Py.VStr "answer")]).
      split; [now right|]. repeat split.
    + left. exists e. repeat split; auto.
Qed.

(** X23. A dispatch raises for one of two reasons. Either a collaborator
    failed (the classifier or a responder): its message is passed on,
    nothing is added to the conversation memory or written to the cache, and
    with monitoring enabled the dispatch is logged with
    [agent_type = 'error'], an empty response, [success = False] and the
    message as [error]. Or the responder answered and the operating system
    refused the path of the session file (as for the session id 'a/b'): the
    error of [open] is passed on after the answer was written to the cache
    and appended to the session in memory, and the dispatch is logged under
    the tag of the responder with the length of the answer,
    [success = False] and the message as [error]. *)
Theorem failed_dispatch_causes (s : SupervisorAgent.t)
  (w : SupervisorAgent.world) (query session_id : string) (n_results : Z)
  (filters : option (list (string * Json.json))) (msg : string) :
  (SupervisorAgent.route_query s w query session_id n_results filters).2
  = Py.Raise msg ->
  let r := SupervisorAgent.route_query s w query session_id n_results filters in
  let s0 := (SupervisorAgent.check_cache s w query).1 in
  ((SupervisorAgent.classifier_reply w = Py.Raise msg \/
    SupervisorAgent.knowledge_reply w = Py.Raise msg \/
    SupervisorAgent.marketing_reply w = Py.Raise msg) /\
   SupervisorAgent.memory r.1 = SupervisorAgent.memory s /\
   SupervisorAgent.cache r.1 = SupervisorAgent.cache s0 /\
   (SupervisorAgent.enable_monitoring s = true ->
    exists e,
      PerformanceMonitor.metrics (SupervisorAgent.monitor r.1)
      = PerformanceMonitor.metrics (SupervisorAgent.monitor s) ++ [e] /\
      PerformanceMonitor.agent_type e = "error" /\
      PerformanceMonitor.response_length e = 0%nat /\
      PerformanceMonitor.success e = false /\
      PerformanceMonitor.error e = Some msg))
  \/ (SupervisorAgent.enable_memory s = true /\
      ConversationMemory.locate (SupervisorAgent.memory s) session_id
      = Py.Raise msg /\
      exists tag answer,
        (tag = "marketing" \/ tag = "knowledge") /\
        SupervisorAgent.memory r.1
        = ConversationMemory.add_to_history
            (SupervisorAgent.memory s) (SupervisorAgent.now_mem w) session_id
            query answer tag None /\
        (SupervisorAgent.enable_cache s = true ->
         SupervisorAgent.cache r.1
         = ResponseCache.set (SupervisorAgent.cache s0) (SupervisorAgent.now_set w)
                             query tag answer None) /\
        (SupervisorAgent.enable_monitoring s = true ->
         exists e,
           PerformanceMonitor.metrics (SupervisorAgent.monitor r.1)
           = PerformanceMonitor.metrics (SupervisorAgent.monitor s) ++ [e] /\
           PerformanceMonitor.agent_type e = tag /\
           PerformanceMonitor.response_length e = String.length answer /\
           PerformanceMonitor.success e = false /\
           PerformanceMonitor.error e = Some msg)).
Proof.
  intros Hraise r s0. subst r s0.
  destruct (route_query_finally s w query session_id n_results filters)
    as (Hout & Hmem & Hcache & _ & _ & Hlog).
  rewrite Hmem, Hcache. rewrite Hout in Hraise.
  destruct (check_cache_memory s w query) as (Hm0 & _ & _).
  destruct (check_cache_switches s w query) as (Hem & Hec & _).
  destruct (check_cache_cases s w query) as [(a & rest & Hhit) | Hmiss].
  { rewrite (route_try_hit _ _ _ _ _ _ _ _ Hhit) in Hraise. discriminate. }
  destruct (route_try_miss_cases s w query session_id n_results filters Hmiss)
    as [(e & Hwho & Hout' & Hres & Hmem' & Hcache')
       | (s2 & tag & answer & result & Htag & Hagent & Hanswer & _
          & Hm2 & Hc2 & Hem2 & Hec2 & Ht)].
  - rewrite Hout' in Hraise. injection Hraise as ->.
    left. rewrite Hmem', Hcache', Hm0. repeat split; try assumption.
    intros Hmon. rewrite (Hlog Hmon), Hres, Hout'. cbn. eexists. repeat split.
  - rewrite Ht in Hraise |- *. rewrite Ht in Hlog.
    rewrite store_and_return_eq in Hraise, Hlog |- *. cbn zeta in Hraise, Hlog |- *.
    rewrite Hem2, Hem, Hm2, Hm0, Hec2, Hec, Hc2 in Hraise, Hlog |- *.
    destruct (SupervisorAgent.enable_memory s) eqn:Hmem_on;
      [|discriminate].
    cbn [fst snd] in Hraise, Hlog |- *.
    rewrite add_exchange_outcome in Hraise, Hlog.
    destruct (ConversationMemory.locate (SupervisorAgent.memory s) session_id)
      as [file|e] eqn:Hloc; [discriminate|].
    injection Hraise as ->.
    rewrite (add_exchange_refused _ _ _ _ _ _ _ _ Hloc). cbn [fst snd].
    right. split; [reflexivity|]. split; [reflexivity|].
    exists tag, answer. split; [exact Htag|]. split; [reflexivity|]. split.
    + intros ->. reflexivity.
    + intros Hmon. rewrite (Hlog Hmon).
      unfold Py.dict_get_str. rewrite Hagent, Hanswer.
      destruct result as [|kv result]; [discriminate|].
      cbn. eexists. repeat split.
Qed.

Lemma failed_dispatch_causes_witness :
  let down := SupervisorAgent.route_query
                FixtureSupervisor.fresh (FixtureSupervisor.world_down 2)
                FixtureSupervisor.q_docs "s1" 3 None in
  let refused := SupervisorAgent.route_query
                   FixtureSupervisor.fresh (FixtureSupervisor.world_knowledge 2)
                   FixtureSupervisor.q_docs "a/b" 3 None in
  map PerformanceMonitor.agent_type
      (PerformanceMonitor.metrics (SupervisorAgent.monitor down.1)) = ["error"] /\
  map (fun e => (PerformanceMonitor.agent_type e,
                 PerformanceMonitor.response_length e,
                 PerformanceMonitor.success e))
      (PerformanceMonitor.metrics (SupervisorAgent.monitor refused.1))
  = [("knowledge", 35%nat, false)].
Proof.
  intros down refused. split.
  - destruct (failed_dispatch_causes
                FixtureSupervisor.fresh (FixtureSupervisor.world_down 2)
                FixtureSupervisor.q_docs "s1" 3 None "connection reset")
      as [(_ & _ & _ & Hlog) | (_ & Hloc & _)];
      [reflexivity | | discriminate Hloc].
    destruct (Hlog eq_refl) as (e & He & Hagent & _).
    subst down. rewrite He. cbn. now rewrite Hagent.
  - destruct (failed_dispatch_causes
                FixtureSupervisor.fresh (FixtureSupervisor.world_knowledge 2)
                FixtureSupervisor.q_docs "a/b" 3 None
                "[Errno 2] No such file or directory: './memory/a/b.json'")
      as [([Hcl | [Hkn | Hmk]] & _) | (_ & _ & tag & answer & _ & _ & _ & Hlog)];
      [reflexivity | discriminate Hcl | discriminate Hkn | discriminate Hmk |].
    vm_compute. reflexivity.
Defined.




(** The results built from a responder's reply never carry [from_cache]. *)
Lemma route_try_miss_fresh (s : SupervisorAgent.t) (w : SupervisorAgent.world)
  (query session_id : string) (n_results : Z)
  (filters : option (list (string * Json.json)))
  (result : list (string * Py.pyval)) :
  (SupervisorAgent.check_cache s w query).2 = None \/
  (SupervisorAgent.check_cache s w query).2 = Some "" ->
  (SupervisorAgent.route_try s w query session_id n_results filters).2
  = Py.Ok result ->
  Py.dict_get "from_cache" result = None.
Proof.
  intros Hmiss Hok.
  destruct (route_try_miss_cases s w query session_id n_results filters Hmiss)
    as [(e & _ & Hout' & _)
       | (s2 & tag & answer & result' & _ & _ & _ & Hfresh & _ & _ & _ & _ & Ht)].
  { rewrite Hout' in Hok. discriminate. }
  rewrite Ht, store_and_return_eq in Hok. cbn zeta in Hok.
  destruct (SupervisorAgent.enable_memory s2); cbn [fst snd] in Hok;
    try (destruct (ConversationMemory.add_exchange _ _ _ _ _ _ _).2;
         [|discriminate]);
    now injection Hok as <-.
Qed.

(** X25. A dispatch whose result carries [from_cache] was served from the
    cache: the result holds the answer found under the tag 'any', no
    collaborator was invoked, nothing was added to the conversation memory
    and the cache is exactly as before, so the stored entry keeps its
    timestamp. *)
Theorem cached_dispatch_changes_nothing (s : SupervisorAgent.t)
  (w : SupervisorAgent.world) (query session_id : string) (n_results : Z)
  (filters : option (list (string * Json.json)))
  (result : list (string * Py.pyval)) (flag : Py.pyval) :
  (SupervisorAgent.route_query s w query session_id n_results filters).2
  = Py.Ok result ->
  Py.dict_get "from_cache" result = Some flag ->
  let r := SupervisorAgent.route_query s w query session_id n_results filters in
  SupervisorAgent.enable_cache s = true /\
  (exists answer,
     (ResponseCache.get (SupervisorAgent.cache s) (SupervisorAgent.now_get w)
                        query "any" None).2 = Some answer /\
     answer <> "" /\
     result = SupervisorAgent.cached_result answer) /\
  SupervisorAgent.calls r.1 = SupervisorAgent.calls s /\
  SupervisorAgent.memory r.1 = SupervisorAgent.memory s /\
  SupervisorAgent.cache r.1 = SupervisorAgent.cache s.
Proof.
  intros Hok Hflag r. subst r.
  destruct (route_query_finally s w query session_id n_results filters)
    as (Hout & Hmem & Hcache & Hcalls & _ & _).
  rewrite Hout in Hok. rewrite Hmem, Hcache, Hcalls.
  destruct (check_cache_memory s w query) as (Hm0 & Hc0 & _).
  destruct (check_cache_cases s w query) as [(a & rest & Hhit) | Hmiss].
  2:{ rewrite (route_try_miss_fresh _ _ _ _ _ _ _ Hmiss Hok) in Hflag.
      discriminate. }
  rewrite (route_try_hit _ _ _ _ _ _ _ _ Hhit) in Hok |- *. cbn in Hok |- *.
  injection Hok as <-. rewrite Hm0, Hc0.
  unfold SupervisorAgent.check_cache in Hhit |- *.
  destruct (SupervisorAgent.enable_cache s); [|discriminate].
  destruct (ResponseCache.get _ _ _ _ _) as [c o] eqn:Hget. cbn in Hhit |- *.
  subst o. apply cache_get_hit_unchanged in Hget. subst c.
  repeat split. exists (String a rest). now repeat split.
Qed.

Lemma cached_dispatch_changes_nothing_witness :
  let r := SupervisorAgent.route_query
             FixtureSupervisor.primed (FixtureSupervisor.world_knowledge 20)
             FixtureSupervisor.q_docs "s1" 3 None in
  SupervisorAgent.memory r.1 = SupervisorAgent.memory FixtureSupervisor.primed /\
  SupervisorAgent.cache r.1 = SupervisorAgent.cache FixtureSupervisor.primed.
Proof.
  intros r.
  destruct (cached_dispatch_changes_nothing
              FixtureSupervisor.primed (FixtureSupervisor.world_knowledge 20)
              FixtureSupervisor.q_docs "s1" 3 None
              (SupervisorAgent.cached_result FixtureSupervisor.answer_docs)
              (Py.VBool true))
    as (_ & _ & _ & Hmem & Hcache).
  - vm_compute. reflexivity.
  - reflexivity.
  - now split.
Defined.

(** Each stage of a dispatch commutes with a change of the memory. *)
Lemma check_cache_with_memory (s : SupervisorAgent.t) (w : SupervisorAgent.world)
  (query : string) (m : ConversationMemory.t) :
  SupervisorAgent.check_cache (SupervisorAgent.with_memory s m) w query
  = (SupervisorAgent.with_memory (SupervisorAgent.check_cache s w query).1 m,
     (SupervisorAgent.check_cache s w query).2).
Proof.
  unfold SupervisorAgent.check_cache. cbn.
  destruct (SupervisorAgent.enable_cache s); [|reflexivity].
  now destruct (ResponseCache.get _ _ _ _ _).
Qed.

Lemma classify_query_with_memory (s : SupervisorAgent.t)
  (w : SupervisorAgent.world) (query : string) (m : ConversationMemory.t) :
  SupervisorAgent.classify_query (SupervisorAgent.with_memory s m) w query
  = (SupervisorAgent.with_memory (SupervisorAgent.classify_query s w query).1 m,
     (SupervisorAgent.classify_query s w query).2).
Proof.
  unfold SupervisorAgent.classify_query.
  now destruct (SupervisorAgent.classifier_reply w).
Qed.

Lemma invoke_responder_with_memory (s : SupervisorAgent.t)
  (w : SupervisorAgent.world) (query agent_type : string) (n_results : Z)
  (filters : option (list (string * Json.json))) (m : ConversationMemory.t) :
  SupervisorAgent.invoke_responder (SupervisorAgent.with_memory s m) w query
                                   agent_type n_results filters
  = (SupervisorAgent.with_memory
       (SupervisorAgent.invoke_responder s w query agent_type n_results filters).1 m,
     (SupervisorAgent.invoke_responder s w query agent_type n_results filters).2).
Proof.
  unfold SupervisorAgent.invoke_responder.
  destruct (String.eqb agent_type "marketing").
  - now destruct (SupervisorAgent.marketing_reply w).
  - now destruct (SupervisorAgent.knowledge_reply w).
Qed.

Lemma classify_query_memory (s : SupervisorAgent.t) (w : SupervisorAgent.world)
  (query : string) :
  SupervisorAgent.memory (SupervisorAgent.classify_query s w query).1
  = SupervisorAgent.memory s.
Proof.
  unfold SupervisorAgent.classify_query.
  now destruct (SupervisorAgent.classifier_reply w).
Qed.

Lemma invoke_responder_memory (s : SupervisorAgent.t) (w : SupervisorAgent.world)
  (query agent_type : string) (n_results : Z)
  (filters : option (list (string * Json.json))) :
  SupervisorAgent.memory
    (SupervisorAgent.invoke_responder s w query agent_type n_results filters).1
  = SupervisorAgent.memory s.
Proof.
  unfold SupervisorAgent.invoke_responder.
  destruct (String.eqb agent_type "marketing").
  - now destruct (SupervisorAgent.marketing_reply w).
  - now destruct (SupervisorAgent.knowledge_reply w).
Qed.

Lemma store_and_return_with_memory (s : SupervisorAgent.t)
  (w : SupervisorAgent.world) (query session_id agent_type response : string)
  (result : list (string * Py.pyval)) (m : ConversationMemory.t) :
  ConversationMemory.locate m
  = ConversationMemory.locate (SupervisorAgent.memory s) ->
  let t := SupervisorAgent.store_and_return s w query session_id agent_type
                                            response result in
  exists m',
    SupervisorAgent.store_and_return (SupervisorAgent.with_memory s m) w query
                                     session_id agent_type response result
    = (SupervisorAgent.with_memory t.1.1 m', t.1.2, t.2).
Proof.
  intros Hloc. cbn zeta. rewrite !store_and_return_eq. cbn zeta.
  cbn [SupervisorAgent.with_memory SupervisorAgent.enable_memory
       SupervisorAgent.enable_cache SupervisorAgent.memory SupervisorAgent.cache].
  destruct (SupervisorAgent.enable_memory s); cbn [fst snd].
  - rewrite !add_exchange_outcome, Hloc. eexists.
    destruct (SupervisorAgent.enable_cache s); reflexivity.
  - exists m. destruct (SupervisorAgent.enable_cache s); reflexivity.
Qed.

Lemma route_try_with_memory (s : SupervisorAgent.t) (w : SupervisorAgent.world)
  (query session_id : string) (n_results : Z)
  (filters : option (list (string * Json.json))) (m : ConversationMemory.t) :
  ConversationMemory.locate m
  = ConversationMemory.locate (SupervisorAgent.memory s) ->
  let t := SupervisorAgent.route_try s w query session_id n_results filters in
  exists m',
    SupervisorAgent.route_try (SupervisorAgent.with_memory s m) w query
                              session_id n_results filters
    = (SupervisorAgent.with_memory t.1.1 m', t.1.2, t.2).
Proof.
  intros Hloc. cbn zeta.
  pose proof (check_cache_with_memory s w query m) as Hcc.
  destruct (check_cache_memory s w query) as (Hm0 & _ & _).
  destruct (check_cache_cases s w query) as [(a & rest & Hhit) | Hmiss].
  - rewrite (route_try_hit s _ _ _ _ _ _ _ Hhit).
    rewrite (route_try_hit (SupervisorAgent.with_memory s m) w query session_id
               n_results filters a rest) by (now rewrite Hcc).
    rewrite Hcc. now exists m.
  - rewrite (route_try_miss s _ _ _ _ _ Hmiss).
    rewrite (route_try_miss (SupervisorAgent.with_memory s m))
      by (now rewrite Hcc).
    rewrite Hcc. cbn [fst].
    set (s0 := (SupervisorAgent.check_cache s w query).1) in *.
    rewrite classify_query_with_memory.
    pose proof (classify_query_memory s0 w query) as Hm1.
    destruct (SupervisorAgent.classify_query s0 w query) as [s1 [agent_type|e]];
      cbn in Hm1 |- *; [|now exists m].
    rewrite invoke_responder_with_memory.
    pose proof (invoke_responder_memory s1 w query agent_type n_results filters)
      as Hm2.
    destruct (SupervisorAgent.invoke_responder s1 w query agent_type n_results filters)
      as [s2 [[response result]|e]]; cbn in Hm2 |- *; [|now exists m].
    apply store_and_return_with_memory. congruence.
Qed.

(** X26. The content of the conversation memory has no influence on a
    dispatch: the context string is computed and never used. Whatever
    sessions a memory on the same directory holds, in memory and on disk,
    the outcome, the calls made to the collaborators, the cache and the log
    are the same. *)
Theorem dispatch_ignores_memory (s : SupervisorAgent.t)
  (w : SupervisorAgent.world) (query session_id : string) (n_results : Z)
  (filters : option (list (string * Json.json))) (m : ConversationMemory.t) :
  ConversationMemory.locate m
  = ConversationMemory.locate (SupervisorAgent.memory s) ->
  let r := SupervisorAgent.route_query s w query session_id n_results filters in
  let r' := SupervisorAgent.route_query (SupervisorAgent.with_memory s m) w query
                                        session_id n_results filters in
  r'.2 = r.2 /\
  SupervisorAgent.calls r'.1 = SupervisorAgent.calls r.1 /\
  SupervisorAgent.cache r'.1 = SupervisorAgent.cache r.1 /\
  SupervisorAgent.monitor r'.1 = SupervisorAgent.monitor r.1.
Proof.
  intros Hloc. cbn zeta. unfold SupervisorAgent.route_query.
  destruct (route_try_with_memory s w query session_id n_results filters m Hloc)
    as (m' & ->).
  destruct (SupervisorAgent.route_try s w query session_id n_results filters)
    as [[s' result] out]. cbn.
  destruct out; destruct (SupervisorAgent.enable_monitoring s'); now repeat split.
Qed.

Lemma dispatch_ignores_memory_witness :
  let busy := SupervisorAgent.with_memory
                FixtureSupervisor.fresh
                (Spec.add_exchanges
                   (SupervisorAgent.memory FixtureSupervisor.fresh)
                   FixtureMemory.six_calls) in
  (SupervisorAgent.route_query busy (FixtureSupervisor.world_knowledge 1)
                               FixtureSupervisor.q_docs "s1" 3 None).2
  = (SupervisorAgent.route_query
       FixtureSupervisor.fresh (FixtureSupervisor.world_knowledge 1)
       FixtureSupervisor.q_docs "s1" 3 None).2.
Proof.
  intros busy.
  apply (dispatch_ignores_memory
           FixtureSupervisor.fresh (FixtureSupervisor.world_knowledge 1)
           FixtureSupervisor.q_docs "s1" 3 None
           (Spec.add_exchanges (SupervisorAgent.memory FixtureSupervisor.fresh)
                               FixtureMemory.six_calls)).
  reflexivity.
Defined.

Lemma campaign_type_of_range (query : string) :
  In (SupervisorAgent.campaign_type_of query)
     ["email"; "sms"; "blog"; "poster"; "social_media"].
Proof.
  unfold SupervisorAgent.campaign_type_of. cbn zeta.
  repeat (destruct (PyStr.contains _ _); [cbn; tauto|]). cbn. tauto.
Qed.

Lemma target_audience_of_range (query : string) :
  In (SupervisorAgent.target_audience_of query)
     ["self_employed"; "young_professionals"; "families"; "salaried"].
Proof.
  unfold SupervisorAgent.target_audience_of. cbn zeta.
  repeat (destruct (PyStr.contains _ _); cbn; try tauto).
Qed.

(** X27. The calls a dispatch makes to its collaborators: none when it is
    served from the cache; otherwise the classifier first and once, then at
    most one responder. The knowledge responder receives the query, the
    number of results and the filters as given; the marketing responder
    receives one of the five campaign types and one of the four audiences. *)
Theorem dispatch_call_protocol (s : SupervisorAgent.t)
  (w : SupervisorAgent.world) (query session_id : string) (n_results : Z)
  (filters : option (list (string * Json.json))) :
  let r := SupervisorAgent.route_query s w query session_id n_results filters in
  exists made,
    SupervisorAgent.calls r.1 = SupervisorAgent.calls s ++ made /\
    ((made = [] /\ exists answer, r.2 = Py.Ok (SupervisorAgent.cached_result answer))
     \/ (made = [SupervisorAgent.CallClassifier query] /\
         exists e, SupervisorAgent.classifier_reply w = Py.Raise e /\
                   r.2 = Py.Raise e)
     \/ made = [SupervisorAgent.CallClassifier query;
                SupervisorAgent.CallKnowledge query n_results filters]
     \/ exists campaign_type target_audience,
          made = [SupervisorAgent.CallClassifier query;
                  SupervisorAgent.CallMarketing campaign_type target_audience] /\
          In campaign_type ["email"; "sms"; "blog"; "poster"; "social_media"] /\
          In target_audience
             ["self_employed"; "young_professionals"; "families"; "salaried"]).
Proof.
  cbn zeta.
  destruct (route_query_finally s w query session_id n_results filters)
    as (Hout & _ & _ & Hcalls & _ & _).
  rewrite Hout, Hcalls.
  destruct (check_cache_memory s w query) as (_ & Hc0 & _).
  destruct (check_cache_cases s w query) as [(a & rest & Hhit) | Hmiss].
  { rewrite (route_try_hit _ _ _ _ _ _ _ _ Hhit). cbn. rewrite Hc0.
    exists []. rewrite app_nil_r. split; [reflexivity|]. left. eauto. }
  rewrite (route_try_miss _ _ _ _ _ _ Hmiss).
  set (s0 := (SupervisorAgent.check_cache s w query).1) in *.
  unfold SupervisorAgent.classify_query.
  destruct (SupervisorAgent.classifier_reply w) as [content|e]; cbn.
  2:{ rewrite Hc0. eexists. split; [reflexivity|]. right. left.
      split; [reflexivity|]. now exists e. }
  unfold SupervisorAgent.invoke_responder.
  destruct (String.eqb _ "marketing").
  - exists [SupervisorAgent.CallClassifier query;
            SupervisorAgent.CallMarketing
              (SupervisorAgent.campaign_type_of query)
              (SupervisorAgent.target_audience_of query)].
    split.
    + destruct (SupervisorAgent.marketing_reply w); cbn;
        [rewrite store_and_return_calls; cbn|];
        rewrite Hc0, <- app_assoc; reflexivity.
    + right. right. right. eexists _, _. split; [reflexivity|].
      split; [apply campaign_type_of_range | apply target_audience_of_range].
  - exists [SupervisorAgent.CallClassifier query;
            SupervisorAgent.CallKnowledge query n_results filters].
    split; [|now right; right; left].
    destruct (SupervisorAgent.knowledge_reply w); cbn;
      [rewrite store_and_return_calls; cbn|];
      rewrite Hc0, <- app_assoc; reflexivity.
Qed.

(* ===================================================================== *)
(** ** The knowledge responder *)
(* ===================================================================== *)

Lemma append_length (a b : string) :
  String.length (a +:+ b) = (String.length a + String.length b)%nat.
Proof. induction a as [|c a IH]; simpl; [reflexivity | now rewrite IH]. Qed.

(** X28. [KnowledgeAgent.query] hides a failure of the vector store: when
    the store raises or finds no document, the language model is not
    invoked and the fixed apology is returned with an empty list of sources,
    also when the caller asked for no sources. The only failure that
    reaches the caller is one of the language model, which is invoked only
    when at least one document was found. *)
Theorem knowledge_query_failures (w : KnowledgeAgent.world) (question : string)
  (n_results : Z) (filters : option (list (string * Json.json)))
  (return_sources : bool) :
  let r := KnowledgeAgent.query w question n_results filters return_sources in
  ((exists e, KnowledgeAgent.retrieval w = Py.Raise e) \/
   (exists found, KnowledgeAgent.retrieval w = Py.Ok found /\
                  FinancialRetriever.documents found = []) ->
   r = ([KnowledgeAgent.CallRetrieve question n_results filters],
        Py.Ok [("answer", Py.VStr KnowledgeAgent.no_information);
               ("sources", Py.VList [])])) /\
  (forall e,
     r.2 = Py.Raise e <->
     KnowledgeAgent.generation w = Py.Raise e /\
     exists found, KnowledgeAgent.retrieval w = Py.Ok found /\
                   FinancialRetriever.documents found <> []).
Proof.
  cbn zeta. unfold KnowledgeAgent.query, FinancialRetriever.retrieve. split.
  - intros [(e & ->) | (found & -> & Hnone)]; [reflexivity|].
    now rewrite Hnone.
  - intros e. destruct (KnowledgeAgent.retrieval w) as [found|e0]; cbn.
    + destruct (FinancialRetriever.documents found) as [|doc docs] eqn:Hdocs; cbn.
      * split; [discriminate|]. intros (_ & found' & [= <-] & Hne). congruence.
      * destruct (KnowledgeAgent.generation w) as [answer|e1]; cbn.
        -- split; [discriminate | intros [? _]; discriminate].
        -- split.
           ++ intros [= ->]. split; [reflexivity|]. exists found.
              split; [reflexivity|]. now rewrite Hdocs.
           ++ now intros [[= ->] _].
    + split; [discriminate|]. intros (_ & found & Hf & _). discriminate.
Qed.

Lemma knowledge_query_failures_witness :
  KnowledgeAgent.query FixtureKnowledge.world_store_down
                       FixtureSupervisor.q_docs 3 None false
  = ([KnowledgeAgent.CallRetrieve FixtureSupervisor.q_docs 3 None],
     Py.Ok [("answer", Py.VStr KnowledgeAgent.no_information);
            ("sources", Py.VList [])]).
Proof.
  apply (knowledge_query_failures FixtureKnowledge.world_store_down
           FixtureSupervisor.q_docs 3 None false).
  left. now exists "connection refused".
Defined.

Lemma sources_of_lookup (found : FinancialRetriever.results) (i : nat)
  (src : Py.pyval) :
  KnowledgeAgent.sources_of found !! i = Some src <->
  exists doc meta dist,
    FinancialRetriever.documents found !! i = Some doc /\
    FinancialRetriever.metadatas found !! i = Some meta /\
    FinancialRetriever.distances found !! i = Some dist /\
    src = KnowledgeAgent.source_dict doc meta dist.
Proof.
  unfold KnowledgeAgent.sources_of. rewrite list_lookup_fmap. split.
  - destruct (zip _ _ !! i) as [[[doc meta] dist]|] eqn:Hz; [|discriminate].
    intros [= <-].
    apply lookup_zip_with_Some in Hz as (dm & dist' & [= <- <-] & Hdm & Hdist).
    apply lookup_zip_with_Some in Hdm as (doc' & meta' & [= <- <-] & Hdoc & Hmeta).
    now exists doc, meta, dist.
  - intros (doc & meta & dist & Hdoc & Hmeta & Hdist & ->).
    assert (Hz : zip (zip (FinancialRetriever.documents found)
                          (FinancialRetriever.metadatas found))
                     (FinancialRetriever.distances found) !! i
                 = Some (doc, meta, dist)).
    { apply lookup_zip_with_Some. exists (doc, meta), dist.
      split; [reflexivity|]. split; [|exact Hdist].
      apply lookup_zip_with_Some. now exists doc, meta. }
    now rewrite Hz.
Qed.

(** X29. When documents were found and the language model answers, the
    model was given the question with the context built from the retrieved
    chunks, and the result holds its answer. The list of sources has one
    item per index at which a document, its metadata and its distance are
    all present, built from these three; each preview is the first 200
    characters of the document followed by an ellipsis, hence at most 203
    characters long. Without [return_sources] the result holds the answer
    alone. *)
Theorem knowledge_query_sources (w : KnowledgeAgent.world) (question : string)
  (n_results : Z) (filters : option (list (string * Json.json)))
  (found : FinancialRetriever.results) (answer : string) :
  KnowledgeAgent.retrieval w = Py.Ok found ->
  FinancialRetriever.documents found <> [] ->
  KnowledgeAgent.generation w = Py.Ok answer ->
  let sources := KnowledgeAgent.sources_of found in
  KnowledgeAgent.query w question n_results filters true
  = ([KnowledgeAgent.CallRetrieve question n_results filters;
      KnowledgeAgent.CallGenerate question (KnowledgeAgent.format_context found)],
     Py.Ok [("answer", Py.VStr answer); ("sources", Py.VList sources)]) /\
  (KnowledgeAgent.query w question n_results filters false).2
  = Py.Ok [("answer", Py.VStr answer)] /\
  length sources
  = Nat.min (Nat.min (length (FinancialRetriever.documents found))
                     (length (FinancialRetriever.metadatas found)))
            (length (FinancialRetriever.distances found)) /\
  forall i src,
    sources !! i = Some src ->
    exists doc meta dist,
      FinancialRetriever.documents found !! i = Some doc /\
      FinancialRetriever.metadatas found !! i = Some meta /\
      FinancialRetriever.distances found !! i = Some dist /\
      src
      = Py.VDict
          [("source", Py.VStr (KnowledgeAgent.meta_get "source" "Unknown" meta));
           ("doc_type", Py.VStr (KnowledgeAgent.meta_get "doc_type" "general" meta));
           ("loan_type", Py.VStr (KnowledgeAgent.meta_get "loan_type" "general" meta));
           ("relevance", Py.VFloat (Py.round ((1 - dist) * 100)%float 2));
           ("preview", Py.VStr (PyStr.prefix 200 doc +:+ "..."))] /\
      (String.length (PyStr.prefix 200 doc +:+ "...") <= 203)%nat.
Proof.
  intros Hfound Hdocs Hgen sources. subst sources.
  unfold KnowledgeAgent.query, FinancialRetriever.retrieve.
  rewrite Hfound, Hgen.
  destruct (FinancialRetriever.documents found) as [|doc0 docs] eqn:E;
    [congruence|]. rewrite <- E. clear E Hdocs.
  split; [reflexivity|]. split; [reflexivity|]. split.
  - unfold KnowledgeAgent.sources_of.
    now rewrite length_fmap, !length_zip_with.
  - intros i src Hsrc.
    apply sources_of_lookup in Hsrc as (doc & meta & dist & Hdoc & Hmeta & Hdist & ->).
    exists doc, meta, dist.
    repeat split; try assumption.
    rewrite append_length. pose proof (prefix_length 200 doc). simpl. lia.
Qed.

Lemma knowledge_query_sources_witness :
  (KnowledgeAgent.query FixtureKnowledge.world_found
                        FixtureSupervisor.q_docs 3 None true).2
  = Py.Ok [("answer", Py.VStr FixtureSupervisor.answer_docs);
           ("sources",
            Py.VList [Py.VDict
                        [("source", Py.VStr "salaried_docs.txt");
                         ("doc_type", Py.VStr "salaried");
                         ("loan_type", Py.VStr "general");
                         ("relevance", Py.VFloat 87.63%float);
                         ("preview",
                          Py.VStr (FixtureKnowledge.chunk +:+ "..."))]])].
Proof.
  destruct (knowledge_query_sources
              FixtureKnowledge.world_found FixtureSupervisor.q_docs 3 None
              FixtureKnowledge.found FixtureSupervisor.answer_docs)
    as (Hq & _).
  - reflexivity.
  - discriminate.
  - reflexivity.
  - rewrite Hq. vm_compute. reflexivity.
Defined.



(* ===================================================================== *)
(** ** The general statements on the concrete states *)
(* ===================================================================== *)

Lemma get_touches_only_its_key_witness :
  exists e,
    ResponseCache.cache Fixture.cache_1h_loan
      !! ResponseCache._generate_key "loan eligibility" "knowledge" None = Some e /\
    ResponseCache.response e = "Age 23-60.".
Proof.
  destruct (get_touches_only_its_key
              Fixture.cache_1h_loan (59 * Fixture.minute) "loan eligibility"
              "knowledge" None)
    as (_ & _ & _ & Hget).
  destruct (Hget "Age 23-60.") as (e & He & Hresp & _).
  - vm_compute. reflexivity.
  - exists e. now split.
Defined.

Lemma clear_expired_keeps_live_witness :
  (ResponseCache.get
     (ResponseCache.clear_expired Fixture.cache_1h_loan (30 * Fixture.minute)).1
     (30 * Fixture.minute) "Loan Eligibility " "knowledge" None).2
  = Some "Age 23-60.".
Proof.
  destruct (clear_expired_keeps_live Fixture.cache_1h_loan (30 * Fixture.minute))
    as (_ & _ & Hget).
  rewrite (Hget "Loan Eligibility " "knowledge" None Fixture.loan_entry).
  - reflexivity.
  - vm_compute. reflexivity.
Defined.

Lemma get_history_last_n_witness :
  map ConversationMemory.user
      (ConversationMemory.get_history
         (Spec.add_exchanges FixtureMemory.memory_3 FixtureMemory.six_calls)
         "s1" (Some 2%Z))
  = ["q4"; "q5"].
Proof.
  destruct (get_history_last_n
              (Spec.add_exchanges FixtureMemory.memory_3 FixtureMemory.six_calls)
              "s1" 2%Z)
    as (_ & Hpos & _).
  rewrite Hpos by lia. vm_compute. reflexivity.
Defined.

Lemma detect_anomalies_bounded_witness :
  exists q,
    Py.dict_get "query" (PerformanceMonitor.error_anomaly
                           (PerformanceMonitor.mkLog
                              0 "s1" "What is home loan eligibility?" "knowledge"
                              10 10 false (Some "timeout") []))
    = Some (Py.VStr q) /\
    (String.length q <= 50)%nat.
Proof.
  destruct (detect_anomalies_bounded FixtureMonitor.five_entries) as (_ & Hall).
  destruct (Hall (PerformanceMonitor.error_anomaly
                    (PerformanceMonitor.mkLog
                       0 "s1" "What is home loan eligibility?" "knowledge"
                       10 10 false (Some "timeout") [])))
    as (_ & q & Hq & Hlen).
  - vm_compute. right. left. reflexivity.
  - now exists q.
Defined.
